(** * stonks-dashboard: the market-data service (dataService.js)

    A shallow embedding of [DataService] and of the two module-level helpers
    [waitForCoinGecko] and [axiosGetWithRetry], with the properties the
    specification states about them.

    Modelling conventions.
    - Epoch milliseconds ([Date.now()], [lastCoinGeckoCall], cache
      [timestamp]s, TTLs) are integers in [Z].
    - Every other JS number (prices, percentages, volumes) is an exact
      rational [Qc]; IEEE rounding and infinities are not modelled.
    - The outside world is explicit: the clock, the replies the network will
      give (in the order requests are issued), the draws of [Math.random],
      and how far off each timer fires.  A trace of the requests issued and
      of the timers awaited is kept next to the state so that theorems can
      speak about them.
    - Within one call of the service [await] is sequencing.  Calls of
      [waitForCoinGecko] that overlap -- a second caller entering while the
      first is suspended on its timer -- are the subject of [Limiter]. *)

From Stdlib Require Import ZArith QArith Qcanon Lia String.
From stdpp Require Import base option numbers strings list gmap pretty.

Local Open Scope string_scope.
Local Open Scope list_scope.
Local Open Scope Z_scope.

(** ** JS values found in provider payloads *)

(** A slot of a provider payload where the service expects a number. *)
Inductive JsVal :=
| JNull
| JUndefined
| JNaN
| JNum (q : Qc).

Definition num (z : Z) : Qc := Q2Qc (inject_Z z).

(** Truthiness of a number: everything but [0] (and [NaN]). *)
Definition truthyQ (q : Qc) : bool := negb (bool_decide (q = 0%Qc)).

Definition truthyZ (z : Z) : bool := negb (z =? 0).

(** Global [isNaN(v)], which first converts [v] to a number. *)
Definition isNaN (v : JsVal) : bool :=
  match v with
  | JNull => false
  | JUndefined => true
  | JNaN => true
  | JNum _ => false
  end.

Definition is_null (v : JsVal) : bool :=
  match v with JNull => true | _ => false end.

Definition is_undefined (v : JsVal) : bool :=
  match v with JUndefined => true | _ => false end.

(** [typeof v === 'number'] *)
Definition typeof_number (v : JsVal) : bool :=
  match v with JNaN | JNum _ => true | _ => false end.

(** [val !== null && val !== undefined && !isNaN(val)]: the sample filter of
    both adapters.  A sample that passes is a number that is not [NaN]. *)
Definition validSample (val : JsVal) : option Qc :=
  if negb (is_null val) && negb (is_undefined val) && negb (isNaN val)
  then match val with JNum q => Some q | _ => None end
  else None.

(** [v || d] where [d] is a number. *)
Definition or_num (v : JsVal) (d : Qc) : Qc :=
  match v with
  | JNum q => if truthyQ q then q else d
  | _ => d
  end.

(** [v || null] *)
Definition or_null (v : JsVal) : option Qc :=
  match v with
  | JNum q => if truthyQ q then Some q else None
  | _ => None
  end.

(** [x || d] where [x] is a number or [undefined] (an array read). *)
Definition opt_or (x : option Qc) (d : Qc) : Qc :=
  match x with
  | Some q => if truthyQ q then q else d
  | None => d
  end.

(** [x ?? d] *)
Definition nullish {A} (x : option A) (d : A) : A :=
  match x with Some a => a | None => d end.

(** [Math.max(...xs)] and [Math.min(...xs)] on a list that is not empty. *)
Definition maxQ (a b : Qc) : Qc := if bool_decide (a < b)%Qc then b else a.
Definition minQ (a b : Qc) : Qc := if bool_decide (b < a)%Qc then b else a.

Definition Math_max (xs : list Qc) : Qc :=
  match xs with [] => 0%Qc | x :: r => foldl maxQ x r end.

Definition Math_min (xs : list Qc) : Qc :=
  match xs with [] => 0%Qc | x :: r => foldl minQ x r end.

(** ** Objects held in the cache and returned to the caller

    One record stands for the JS objects the service builds: the asset
    records of both adapters and the crypto detail record, which share the
    cache.  A field that an object does not have is [None]. *)
Record Obj := {
  symbol : option string;
  currency : option string;
  type : option string;
  price : option Qc;
  change : option Qc;
  change24h : option Qc;
  history : option (list Qc);
  timestamps : option (list JsVal);
  open : option Qc;
  previousClose : option Qc;
  high : option Qc;
  low : option Qc;
  high52w : option Qc;
  low52w : option Qc;
  marketCap : option Qc;
  volume : option Qc;
  avgVolume : option Qc;
  pe : option Qc;
  circulatingSupply : option Qc;
  totalSupply : option Qc;
  rank : option Qc;
  timestamp : option Z;
  error : option bool;
  fromCache : option bool;
  (* fields of the crypto detail record only; [None] is also [null] *)
  currentPrice : option Qc;
  high24h : option Qc;
  low24h : option Qc;
  ath : option Qc;
  atl : option Qc;
  volume24h : option Qc
}.

(** [{}]; spreading [undefined] adds nothing to it. *)
Definition emptyObj : Obj :=
  {| symbol := None; currency := None; type := None;
     price := None; change := None; change24h := None;
     history := None; timestamps := None;
     open := None; previousClose := None;
     high := None; low := None; high52w := None; low52w := None;
     marketCap := None; volume := None; avgVolume := None; pe := None;
     circulatingSupply := None; totalSupply := None; rank := None;
     timestamp := None; error := None; fromCache := None;
     currentPrice := None; high24h := None; low24h := None;
     ath := None; atl := None; volume24h := None |}.

(** [{ ...o, fromCache: true }] *)
Definition spreadFromCache (o : Obj) : Obj :=
  {| symbol := symbol o; currency := currency o; type := type o;
     price := price o; change := change o; change24h := change24h o;
     history := history o; timestamps := timestamps o;
     open := open o; previousClose := previousClose o;
     high := high o; low := low o; high52w := high52w o; low52w := low52w o;
     marketCap := marketCap o; volume := volume o; avgVolume := avgVolume o;
     pe := pe o; circulatingSupply := circulatingSupply o;
     totalSupply := totalSupply o; rank := rank o;
     timestamp := timestamp o;
     error := error o;
     fromCache := Some true;
     currentPrice := currentPrice o; high24h := high24h o;
     low24h := low24h o; ath := ath o; atl := atl o;
     volume24h := volume24h o |}.

(** [{ ...o, error: true, fromCache: true }] *)
Definition spreadStale (o : Obj) : Obj :=
  {| symbol := symbol o; currency := currency o; type := type o;
     price := price o; change := change o; change24h := change24h o;
     history := history o; timestamps := timestamps o;
     open := open o; previousClose := previousClose o;
     high := high o; low := low o; high52w := high52w o; low52w := low52w o;
     marketCap := marketCap o; volume := volume o; avgVolume := avgVolume o;
     pe := pe o; circulatingSupply := circulatingSupply o;
     totalSupply := totalSupply o; rank := rank o;
     timestamp := timestamp o;
     error := Some true;
     fromCache := Some true;
     currentPrice := currentPrice o; high24h := high24h o;
     low24h := low24h o; ath := ath o; atl := atl o;
     volume24h := volume24h o |}.

(** ** Provider payloads *)

(** CoinGecko [/coins/{id}/market_chart]: [data.prices], a list of
    [[timestamp, price]] pairs.  A pair that is [null] reads as two
    [undefined]s. *)
Module MarketChart.
Record t := { prices : option (list (JsVal * JsVal)) }.
End MarketChart.

(** CoinGecko [/coins/{id}]: [data.market_data] with the [usd] entries the
    service reads, and [data.market_cap_rank]. *)
Module MarketData.
Record t := {
    current_price_usd : JsVal;
    price_change_percentage_24h : JsVal;
    high_24h_usd : JsVal;
    low_24h_usd : JsVal;
    ath_usd : JsVal;
    atl_usd : JsVal;
    market_cap_usd : JsVal;
    total_volume_usd : JsVal;
    circulating_supply : JsVal;
    total_supply : JsVal
  }.
(** [{}], what [data.market_data || {}] gives when the field is missing *)
Definition empty : t :=
    {| current_price_usd := JUndefined; price_change_percentage_24h := JUndefined;
       high_24h_usd := JUndefined; low_24h_usd := JUndefined;
       ath_usd := JUndefined; atl_usd := JUndefined;
       market_cap_usd := JUndefined; total_volume_usd := JUndefined;
       circulating_supply := JUndefined; total_supply := JUndefined |}.
End MarketData.

Module Coin.
Record t := {
    market_data : option MarketData.t;
    market_cap_rank : JsVal
  }.
End Coin.

(** Yahoo [/v8/finance/chart/{symbol}]: [data.chart.result[0]]. *)
Module Meta.
Record t := {
    regularMarketPrice : JsVal;
    chartPreviousClose : JsVal;
    regularMarketDayHigh : JsVal;
    regularMarketDayLow : JsVal;
    fiftyTwoWeekHigh : JsVal;
    fiftyTwoWeekLow : JsVal;
    regularMarketVolume : JsVal;
    currency : option string;
    instrumentType : option string
  }.
End Meta.

Module ChartResult.
Record t := {
    meta : Meta.t;
    close : option (list JsVal);      (* indicators.quote[0].close *)
    open : option (list JsVal);       (* indicators.quote[0].open *)
    timestamp : option (list JsVal)   (* result.timestamp, in seconds *)
  }.
End ChartResult.

(** Yahoo [/v7/finance/quote]: [data.quoteResponse.result[0]]. *)
Module QuoteData.
Record t := {
    marketCap : JsVal;
    trailingPE : JsVal;
    forwardPE : JsVal;
    averageDailyVolume3Month : JsVal;
    averageDailyVolume10Day : JsVal;
    fiftyTwoWeekHigh : JsVal;
    fiftyTwoWeekLow : JsVal;
    regularMarketOpen : JsVal
  }.
End QuoteData.

(** [response.data] of a request that axios resolved. *)
Inductive Body :=
| BodyNull                                   (* no usable [data] at all *)
| BodyMarketChart (c : MarketChart.t)
| BodyCoin (c : Coin.t)
| BodyYahooChart (r : option ChartResult.t)  (* [None]: no [chart.result[0]] with its parts *)
| BodyYahooQuote (q : option QuoteData.t).   (* [None]: no [quoteResponse.result[0]] *)

(** ** The world *)

Inductive Endpoint :=
| CoinGeckoMarketChart (coinId : string) (days : Z)
| CoinGeckoCoin (coinId : string)
| YahooChart (symbol interval range : string)
| YahooQuote (symbol : string).

(** What [axios.get] does with one request: it resolves with a body, or it
    rejects with an error whose [response.status] is an HTTP status, or is
    missing when no response was received. *)
Inductive Outcome :=
| Responded (b : Body)
| Failed (status : option positive).

Record Reply := { latency : nat; outcome : Outcome }.

Inductive Event :=
| Sleep (ms : Z)        (* [await new Promise(r => setTimeout(r, ms))] *)
| Get (e : Endpoint).   (* one call of [axios.get] *)

Record World := {
  now : Z;                       (* [Date.now()] *)
  lastCoinGeckoCall : Z;
  cache : gmap string Obj;       (* [this.cache] *)
  network : list Reply;          (* replies to the requests still to come *)
  random : list nat;             (* draws of [Math.floor(Math.random() * 300)] *)
  timerSkew : list Z;            (* of the timers still to come: how far from
                                    its delay each one fires, in ms *)
  trace : list Event
}.

Inductive Err :=
| AxiosError (status : option positive)
| TypeError.

(** [e.response?.status] *)
Definition response_status (e : Err) : option positive :=
  match e with AxiosError s => s | TypeError => None end.

Inductive Res (A : Type) :=
| Ok (a : A)
| Throw (e : Err).
Arguments Ok {A} a.
Arguments Throw {A} e.

(** Computations of the service: they read and change the world, and return
    or throw. *)
Definition M (A : Type) : Type := World -> Res A * World.

Definition ret {A} (a : A) : M A := fun w => (Ok a, w).

Definition throw {A} (e : Err) : M A := fun w => (Throw e, w).

Definition bind {A B} (c : M A) (k : A -> M B) : M B :=
  fun w => match c w with
           | (Ok a, w') => k a w'
           | (Throw e, w') => (Throw e, w')
           end.

Definition try_catch {A} (c : M A) (h : Err -> M A) : M A :=
  fun w => match c w with
           | (Ok a, w') => (Ok a, w')
           | (Throw e, w') => h e w'
           end.

Notation "x <- c1 ;; c2" := (bind c1 (fun x => c2))
  (at level 100, c1 at next level, right associativity).
Notation "c1 ;; c2" := (bind c1 (fun _ => c2))
  (at level 100, right associativity).

Definition Date_now : M Z := fun w => (Ok (now w), w).

Definition log (ev : Event) (w : World) : World :=
  {| now := now w; lastCoinGeckoCall := lastCoinGeckoCall w; cache := cache w;
     network := network w; random := random w; timerSkew := timerSkew w;
     trace := trace w ++ [ev] |}.

Definition advance (ms : Z) (w : World) : World :=
  {| now := now w + ms; lastCoinGeckoCall := lastCoinGeckoCall w;
     cache := cache w; network := network w; random := random w;
     timerSkew := timerSkew w; trace := trace w |}.

(** How far the clock has moved when a timer of [ms] has fired and the
    caller runs again: [ms], off by what the world says of this timer (a
    negative skew is a timer whose caller reads the clock early, a positive
    one a timer that fires late).  The clock does not go back. *)
Definition fired (ms : Z) (w : World) : Z :=
  Z.max 0 (ms + default 0 (head (timerSkew w))).

(** [await new Promise(resolve => setTimeout(resolve, ms))] *)
Definition setTimeout (ms : Z) : M unit :=
  fun w =>
    (Ok tt,
     {| now := now w + fired ms w; lastCoinGeckoCall := lastCoinGeckoCall w;
        cache := cache w; network := network w; random := random w;
        timerSkew := tail (timerSkew w);
        trace := trace w ++ [Sleep ms] |}).

(** [Math.floor(Math.random() * 300)] *)
Definition Math_random_300 : M Z :=
  fun w =>
    match random w with
    | [] => (Ok 0, w)
    | r :: rs =>
        (Ok (Z.of_nat (r mod 300)),
         {| now := now w; lastCoinGeckoCall := lastCoinGeckoCall w;
            cache := cache w; network := network w; random := rs;
            timerSkew := timerSkew w; trace := trace w |})
    end.

(** [await axios.get(url, options)]: the next reply of the network, after
    its latency.  A network with nothing left to say does not respond. *)
Definition axios_get (e : Endpoint) : M Body :=
  fun w =>
    let w := log (Get e) w in
    match network w with
    | [] => (Throw (AxiosError None), w)
    | r :: rs =>
        let w' := {| now := now w + Z.of_nat (latency r);
                     lastCoinGeckoCall := lastCoinGeckoCall w;
                     cache := cache w; network := rs; random := random w;
                     timerSkew := timerSkew w; trace := trace w |} in
        match outcome r with
        | Responded b => (Ok b, w')
        | Failed st => (Throw (AxiosError st), w')
        end
    end.

(** ** Rate limiter and retrying fetcher *)

Definition COINGECKO_DELAY : Z := 5000.
Definition CACHE_TTL : Z := 60 * 1000.
Definition DETAIL_TTL : Z := 30 * 60 * 1000.

Definition set_lastCoinGeckoCall (t : Z) : M unit :=
  fun w => (Ok tt,
            {| now := now w; lastCoinGeckoCall := t; cache := cache w;
               network := network w; random := random w;
               timerSkew := timerSkew w; trace := trace w |}).

(** The first half of [waitForCoinGecko], up to its [await]: the delay of
    the timer it sets when less than [COINGECKO_DELAY] has elapsed since
    [last], the value of [lastCoinGeckoCall] it has read. *)
Definition remainingDelay (now0 last : Z) : option Z :=
  let elapsed := now0 - last in
  if elapsed <? COINGECKO_DELAY
  then Some (COINGECKO_DELAY - elapsed)
  else None.

(** [waitForCoinGecko] run by a caller on its own: nothing else runs between
    its two halves. *)
Definition waitForCoinGecko : M unit :=
  fun w =>
    (now0 <- Date_now ;;
     match remainingDelay now0 (lastCoinGeckoCall w) with
     | Some ms => setTimeout ms
     | None => ret tt
     end ;;
     now1 <- Date_now ;;
     set_lastCoinGeckoCall now1) w.

(** ** Callers of the limiter that overlap

    [waitForCoinGecko] reads [lastCoinGeckoCall] before its [await] and
    writes it after.  The dashboard starts a fetch cycle from a timer and
    from its key handlers without waiting for the cycle in progress, so a
    second caller can enter while the first is suspended.  Here every
    caller is a pending timer; the events are the two halves of the
    function, each run to its end as the event loop does.  Within one half
    the clock is taken to stand still: the second [Date.now()] of a caller
    that does not wait reads what the first did (a later reading would only
    widen the gap to the timestamp before). *)
Module Limiter.

Record t := {
  clock : Z;              (* the last reading of [Date.now()] *)
  last : Z;               (* [lastCoinGeckoCall] *)
  waiting : list Z;       (* the suspended callers: when each timer is due *)
  stamps : list Z         (* the timestamps recorded so far, oldest first *)
}.

Inductive Event :=
| Call (at_ : Z)          (* a caller enters when the clock reads [at_] *)
| Wake (i : nat) (at_ : Z).
                          (* the [i]-th suspended caller runs again when the
                             clock reads [at_] *)

(** The module as loaded: [let lastCoinGeckoCall = 0]. *)
Definition init (t0 : Z) : t :=
  {| clock := t0; last := 0; waiting := []; stamps := [] |}.

(** [lastCoinGeckoCall = Date.now()] *)
Definition record (at_ : Z) (s : t) (waiting' : list Z) : t :=
  {| clock := at_; last := at_; waiting := waiting';
     stamps := stamps s ++ [at_] |}.

(** One event; [None] when it cannot happen: the clock does not go back, and
    only a suspended caller runs again. *)
Definition step (s : t) (ev : Event) : option t :=
  match ev with
  | Call at_ =>
      if at_ <? clock s then None
      else match remainingDelay at_ (last s) with
           | Some ms =>
               Some {| clock := at_; last := last s;
                       waiting := waiting s ++ [at_ + ms];
                       stamps := stamps s |}
           | None => Some (record at_ s (waiting s))
           end
  | Wake i at_ =>
      if at_ <? clock s then None
      else match waiting s !! i with
           | Some _ => Some (record at_ s (delete i (waiting s)))
           | None => None
           end
  end.

Fixpoint run (s : t) (evs : list Event) : option t :=
  match evs with
  | [] => Some s
  | ev :: evs' =>
      match step s ev with
      | Some s' => run s' evs'
      | None => None
      end
  end.

(** An event of a run in which callers do not overlap and no timer fires
    early: a caller enters only when none is suspended, and a suspended
    caller runs again no sooner than its timer is due. *)
Definition orderly (s : t) (ev : Event) : bool :=
  match ev with
  | Call _ => bool_decide (waiting s = [])
  | Wake i at_ =>
      match waiting s !! i with
      | Some due => due <=? at_
      | None => false
      end
  end.

Fixpoint orderlyRun (s : t) (evs : list Event) : bool :=
  match evs with
  | [] => true
  | ev :: evs' =>
      orderly s ev
      && match step s ev with
         | Some s' => orderlyRun s' evs'
         | None => false
         end
  end.

(** Every recorded timestamp is at least [COINGECKO_DELAY] after the one
    recorded before it. *)
Definition spaced (l : list Z) : Prop :=
  forall (i : nat) (a b : Z),
    l !! i = Some a -> l !! S i = Some b -> COINGECKO_DELAY <= b - a.

(** The limiter of a world, with no caller suspended. *)
Definition of_world (w : World) : t :=
  {| clock := now w; last := lastCoinGeckoCall w; waiting := [];
     stamps := [] |}.

End Limiter.

(** [status === 429 || (status >= 500) || !status]; an HTTP status is a
    positive number, so [!status] holds exactly when there is none. *)
Definition shouldRetry (status : option positive) : bool :=
  match status with
  | Some s => (s =? 429)%positive || (500 <=? s)%positive
  | None => true
  end.

(** The [for] loop of [axiosGetWithRetry], from iteration [attempt] on;
    [fuel] counts the iterations that [attempt <= retries] still allows.
    Falling out of the loop returns [undefined]. *)
Fixpoint retryLoop (fuel : nat) (e : Endpoint) (retries : nat) (baseDelay : Z)
    (attempt : nat) : M Body :=
  match fuel with
  | O => ret BodyNull
  | S fuel' =>
      try_catch
        (waitForCoinGecko ;; axios_get e)
        (fun err =>
           let status := response_status err in
           if (attempt <? retries)%nat && shouldRetry status
           then
             jitter <- Math_random_300 ;;
             let delay := baseDelay * 2 ^ Z.of_nat attempt + jitter in
             setTimeout delay ;;
             retryLoop fuel' e retries baseDelay (S attempt)
           else throw err)
  end.

Definition axiosGetWithRetry (e : Endpoint) (retries : nat) (baseDelay : Z)
    : M Body :=
  retryLoop (S retries) e retries baseDelay 0.

(** ** The cache *)

(** [isCacheValid(cacheKey, ttl)] *)
Definition isCacheValid (cacheKey : string) (ttl : Z) (w : World) : bool :=
  match cache w !! cacheKey with
  | None => false                         (* [!cached] *)
  | Some cached =>
      match timestamp cached with
      | None => false                     (* [!cached.timestamp] *)
      | Some ts => if truthyZ ts then now w - ts <? ttl else false
      end
  end.

Definition cache_get (key : string) : M (option Obj) :=
  fun w => (Ok (cache w !! key), w).

(** [this.cache.set(key, o)] *)
Definition cache_set (key : string) (o : Obj) : M unit :=
  fun w => (Ok tt,
            {| now := now w; lastCoinGeckoCall := lastCoinGeckoCall w;
               cache := <[key := o]> (cache w);
               network := network w; random := random w;
               timerSkew := timerSkew w; trace := trace w |}).

(** [saveFileCache()] rewrites [cache.json] from the map and swallows its own
    failures; the file is read back only by the constructor, so nothing of
    the running service depends on it. *)
Definition saveFileCache : M unit := ret tt.

(** ** Crypto adapter *)

Definition cryptoKey (symbol : string) (days : Z) : string :=
  "crypto-" +:+ symbol +:+ "-" +:+ pretty days.

Definition detailKey (coinId : string) : string := "detail-" +:+ coinId.

(** [chartResponse.data.prices || []] *)
Definition prices_of_body (b : Body) : M (list (JsVal * JsVal)) :=
  match b with
  | BodyNull => throw TypeError
  | BodyMarketChart c => ret (nullish (MarketChart.prices c) [])
  | _ => ret []
  end.

(** One iteration of [for (const p of pairs)]. *)
Definition pushPair (t : Z) (acc : list JsVal * list Qc) (p : JsVal * JsVal)
    : list JsVal * list Qc :=
  let ts := p.1 in
  let val := p.2 in
  match validSample val with
  | Some v => (acc.1 ++ [if typeof_number ts then ts else JNum (num t)],
               acc.2 ++ [v])
  | None => acc
  end.

(** [if (xs.length === 0) xs.push(0)] *)
Definition seedZero (xs : list Qc) : list Qc :=
  if (length xs =? 0)%nat then xs ++ [0%Qc] else xs.

(** [detailResponse.data], read as the service reads it. *)
Definition coin_of_body (b : Body) : M Coin.t :=
  match b with
  | BodyNull => throw TypeError
  | BodyCoin c => ret c
  | _ => ret {| Coin.market_data := None; Coin.market_cap_rank := JUndefined |}
  end.

(** The [detailData] literal. *)
Definition detailOf (c : Coin.t) (t : Z) : Obj :=
  let md := nullish (Coin.market_data c) MarketData.empty in
  {| symbol := None; currency := None; type := None;
     price := None; change := None;
     change24h := Some (or_num (MarketData.price_change_percentage_24h md) 0%Qc);
     history := None; timestamps := None;
     open := None; previousClose := None;
     high := None; low := None; high52w := None; low52w := None;
     marketCap := Some (or_num (MarketData.market_cap_usd md) 0%Qc);
     volume := None; avgVolume := None; pe := None;
     circulatingSupply := Some (or_num (MarketData.circulating_supply md) 0%Qc);
     totalSupply := Some (or_num (MarketData.total_supply md) 0%Qc);
     rank := Some (or_num (Coin.market_cap_rank c) 0%Qc);
     timestamp := Some t;
     error := None; fromCache := None;
     currentPrice := or_null (MarketData.current_price_usd md);
     high24h := or_null (MarketData.high_24h_usd md);
     low24h := or_null (MarketData.low_24h_usd md);
     ath := or_null (MarketData.ath_usd md);
     atl := or_null (MarketData.atl_usd md);
     volume24h := Some (or_num (MarketData.total_volume_usd md) 0%Qc) |}.

(** [x || d] on numbers. *)
Definition num_or (q d : Qc) : Qc := if truthyQ q then q else d.

(** [(cur - first) / first * 100], guarded by [first > 0]. *)
Definition percentChange (cur first : Qc) : Qc :=
  if bool_decide (0 < first)%Qc
  then ((cur - first) / first * num 100)%Qc
  else 0%Qc.

(** The [result] literal of [fetchCryptoData]. *)
Definition cryptoResult (sym : string) (detailData : option Obj)
    (prices : list Qc) (stamps : list JsVal) (t : Z) : Obj :=
  let validPrices := filter (fun p => (0 < p)%Qc) prices in
  let currentPrice :=
    opt_or (match detailData ≫= currentPrice with
            | Some c => Some c
            | None => prices !! (length prices - 1)%nat
            end) 0%Qc in
  let firstPrice := opt_or (prices !! 0%nat) currentPrice in
  let change := percentChange currentPrice firstPrice in
  {| symbol := Some sym; currency := None; type := Some "crypto";
     price := Some currentPrice;
     change := Some change;
     change24h := Some (nullish (detailData ≫= change24h) 0%Qc);
     history := Some prices;
     timestamps := Some stamps;
     open := Some (opt_or (prices !! 0%nat) 0%Qc);
     previousClose := None;
     high := Some (num_or (nullish (detailData ≫= high24h)
                             (if (0 <? length validPrices)%nat
                              then Math_max validPrices else 0%Qc)) 0%Qc);
     low := Some (num_or (nullish (detailData ≫= low24h)
                            (if (0 <? length validPrices)%nat
                             then Math_min validPrices else 0%Qc)) 0%Qc);
     high52w := Some (nullish (detailData ≫= ath) 0%Qc);
     low52w := Some (nullish (detailData ≫= atl) 0%Qc);
     marketCap := Some (nullish (detailData ≫= marketCap) 0%Qc);
     volume := Some (nullish (detailData ≫= volume24h) 0%Qc);
     avgVolume := None; pe := None;
     circulatingSupply := Some (nullish (detailData ≫= circulatingSupply) 0%Qc);
     totalSupply := Some (nullish (detailData ≫= totalSupply) 0%Qc);
     rank := Some (nullish (detailData ≫= rank) 0%Qc);
     timestamp := Some t;
     error := Some false; fromCache := None;
     currentPrice := None; high24h := None; low24h := None;
     ath := None; atl := None; volume24h := None |}.

(** The placeholder of [fetchCryptoData]'s [catch]. *)
Definition cryptoPlaceholder (sym : string) : Obj :=
  {| symbol := Some sym; currency := None; type := Some "crypto";
     price := Some 0%Qc; change := Some 0%Qc; change24h := Some 0%Qc;
     history := Some [0%Qc]; timestamps := None;
     open := Some 0%Qc; previousClose := None;
     high := Some 0%Qc; low := Some 0%Qc;
     high52w := Some 0%Qc; low52w := Some 0%Qc;
     marketCap := Some 0%Qc; volume := Some 0%Qc;
     avgVolume := None; pe := None;
     circulatingSupply := Some 0%Qc; totalSupply := Some 0%Qc;
     rank := Some 0%Qc;
     timestamp := None;
     error := Some true; fromCache := None;
     currentPrice := None; high24h := None; low24h := None;
     ath := None; atl := None; volume24h := None |}.

(** The inner [try] of [fetchCryptoData]: the detail request, which is
    optional. *)
Definition fetchDetail (coinId : string) : M (option Obj) :=
  try_catch
    (detailResponse <- axiosGetWithRetry (CoinGeckoCoin coinId) 3 1000 ;;
     c <- coin_of_body detailResponse ;;
     t <- Date_now ;;
     let detailData := detailOf c t in
     cache_set (detailKey coinId) detailData ;;
     saveFileCache ;;
     ret (Some detailData))
    (fun _ => ret None).

(** [detailData]: the cached detail record while it is valid, else a fresh
    one, else [null]. *)
Definition lookupDetail (coinId : string) : M (option Obj) :=
  fun w =>
    let detailData :=
      if isCacheValid (detailKey coinId) DETAIL_TTL w
      then cache w !! detailKey coinId
      else None in
    match detailData with
    | Some d => (Ok (Some d), w)
    | None => fetchDetail coinId w
    end.

(** The outer [try] block of [fetchCryptoData]. *)
Definition fetchCryptoTry (sym coinId : string) (days : Z) : M Obj :=
  chartResponse <- axiosGetWithRetry (CoinGeckoMarketChart coinId days) 3 1000 ;;
  pairs <- prices_of_body chartResponse ;;
  t <- Date_now ;;
  let '(stamps, prices) := foldl (pushPair t) ([], []) pairs in
  let prices := seedZero prices in
  detailData <- lookupDetail coinId ;;
  t' <- Date_now ;;
  let result := cryptoResult sym detailData prices stamps t' in
  cache_set (cryptoKey sym days) result ;;
  saveFileCache ;;
  ret result.

(** The [catch] of both adapters: the last record stored under the key, or
    the placeholder. *)
Definition fallback (key : string) (placeholder : Obj) (w : World) : Obj :=
  match cache w !! key with
  | Some cached => spreadStale cached
  | None => placeholder
  end.

Definition fetchCryptoData (sym coinId : string) (days : Z) (w : World)
    : Obj * World :=
  let chartKey := cryptoKey sym days in
  if isCacheValid chartKey CACHE_TTL w
  then (spreadFromCache (nullish (cache w !! chartKey) emptyObj), w)
  else
    match fetchCryptoTry sym coinId days w with
    | (Ok result, w') => (result, w')
    | (Throw _, w') => (fallback chartKey (cryptoPlaceholder sym) w', w')
    end.

(** ** Equity adapter *)

Definition stockKey (sym : string) (days : Z) : string :=
  "stock-" +:+ sym +:+ "-" +:+ pretty days.

(** The [(range, interval)] pair chosen from [days]. *)
Definition rangeInterval (days : Z) : string * string :=
  if days <=? 1 then ("1d", "1h")
  else if days <=? 7 then ("7d", "1d")
  else if days <=? 30 then ("1mo", "1d")
  else ("3mo", "1d").

(** [response.data.chart.result[0]] with [indicators.quote[0]] and [meta]. *)
Definition result_of_body (b : Body) : M ChartResult.t :=
  match b with
  | BodyYahooChart (Some r) => ret r
  | _ => throw TypeError
  end.

(** [ts * 1000] *)
Definition times1000 (ts : JsVal) : JsVal :=
  match ts with
  | JNum q => JNum (q * num 1000)%Qc
  | _ => JNaN
  end.

(** One iteration of [for (let i = 0; i < rawCloses.length; i++)]. *)
Definition pushClose (rawCloses rawTimestamps : list JsVal) (t : Z)
    (acc : list Qc * list JsVal) (i : nat) : list Qc * list JsVal :=
  let val := nullish (rawCloses !! i) JUndefined in
  match validSample val with
  | Some v =>
      let ts := nullish (rawTimestamps !! i) JUndefined in
      (acc.1 ++ [v],
       acc.2 ++ [if typeof_number ts then times1000 ts else JNum (num t)])
  | None => acc
  end.

(** [p !== null && !isNaN(p)], the filter of the open prices. *)
Definition validOpen (p : JsVal) : option Qc :=
  if negb (is_null p) && negb (isNaN p)
  then match p with JNum q => Some q | _ => None end
  else None.

(** The [data] literal of [fetchStockData]. *)
Definition stockData (sym : string) (r : ChartResult.t) (t : Z) : Obj :=
  let meta := ChartResult.meta r in
  let rawCloses := nullish (ChartResult.close r) [] in
  let rawTimestamps := nullish (ChartResult.timestamp r) [] in
  let '(closePrices, stamps) :=
    foldl (pushClose rawCloses rawTimestamps t) ([], [])
          (seq 0 (length rawCloses)) in
  let closePrices := seedZero closePrices in
  let currentPrice :=
    opt_or (match or_null (Meta.regularMarketPrice meta) with
            | Some q => Some q
            | None => closePrices !! (length closePrices - 1)%nat
            end) 0%Qc in
  let previousClose :=
    opt_or (match or_null (Meta.chartPreviousClose meta) with
            | Some q => Some q
            | None => closePrices !! 0%nat
            end) currentPrice in
  let change := percentChange currentPrice previousClose in
  let validPrices := filter (fun p => (0 < p)%Qc) closePrices in
  let openPrices := omap validOpen (nullish (ChartResult.open r) []) in
  let openPrice :=
    opt_or (openPrices !! (length openPrices - 1)%nat) previousClose in
  {| symbol := Some sym;
     currency := Meta.currency meta;
     type := Meta.instrumentType meta;
     price := Some currentPrice;
     change := Some change;
     change24h := Some change;
     history := Some closePrices;
     timestamps := Some stamps;
     open := Some openPrice;
     previousClose := Some previousClose;
     high := Some (or_num (Meta.regularMarketDayHigh meta)
                     (if (0 <? length validPrices)%nat
                      then Math_max validPrices else 0%Qc));
     low := Some (or_num (Meta.regularMarketDayLow meta)
                    (if (0 <? length validPrices)%nat
                     then Math_min validPrices else 0%Qc));
     high52w := Some (or_num (Meta.fiftyTwoWeekHigh meta) 0%Qc);
     low52w := Some (or_num (Meta.fiftyTwoWeekLow meta) 0%Qc);
     marketCap := Some 0%Qc;
     volume := Some (or_num (Meta.regularMarketVolume meta) 0%Qc);
     avgVolume := Some 0%Qc;
     pe := Some 0%Qc;
     circulatingSupply := None; totalSupply := None; rank := None;
     timestamp := Some t;
     error := Some false; fromCache := None;
     currentPrice := None; high24h := None; low24h := None;
     ath := None; atl := None; volume24h := None |}.

(** [v || x] where [x] is a field of [data]. *)
Definition or_field (v : JsVal) (x : option Qc) : option Qc :=
  match or_null v with Some q => Some q | None => x end.

(** The assignments under [if (quoteData)]. *)
Definition applyQuote (data : Obj) (quoteData : QuoteData.t) : Obj :=
  {| symbol := symbol data; currency := currency data; type := type data;
     price := price data; change := change data; change24h := change24h data;
     history := history data; timestamps := timestamps data;
     open := or_field (QuoteData.regularMarketOpen quoteData) (open data);
     previousClose := previousClose data;
     high := high data; low := low data;
     high52w := or_field (QuoteData.fiftyTwoWeekHigh quoteData) (high52w data);
     low52w := or_field (QuoteData.fiftyTwoWeekLow quoteData) (low52w data);
     marketCap := Some (or_num (QuoteData.marketCap quoteData) 0%Qc);
     volume := volume data;
     avgVolume :=
       Some (or_num (QuoteData.averageDailyVolume3Month quoteData)
               (or_num (QuoteData.averageDailyVolume10Day quoteData) 0%Qc));
     pe := Some (or_num (QuoteData.trailingPE quoteData)
                   (or_num (QuoteData.forwardPE quoteData) 0%Qc));
     circulatingSupply := circulatingSupply data;
     totalSupply := totalSupply data; rank := rank data;
     timestamp := timestamp data;
     error := error data; fromCache := fromCache data;
     currentPrice := currentPrice data; high24h := high24h data;
     low24h := low24h data; ath := ath data; atl := atl data;
     volume24h := volume24h data |}.

(** [quoteResponse.data.quoteResponse?.result?.[0]] *)
Definition quote_of_body (b : Body) : M (option QuoteData.t) :=
  match b with
  | BodyNull => throw TypeError
  | BodyYahooQuote q => ret q
  | _ => ret None
  end.

(** The inner [try] of [fetchStockData]: the quote request, which is
    optional. *)
Definition fetchQuote (sym : string) (data : Obj) : M Obj :=
  try_catch
    (quoteResponse <- axios_get (YahooQuote sym) ;;
     quoteData <- quote_of_body quoteResponse ;;
     match quoteData with
     | Some q => ret (applyQuote data q)
     | None => ret data
     end)
    (fun _ => ret data).

(** The placeholder of [fetchStockData]'s [catch]. *)
Definition stockPlaceholder (sym : string) : Obj :=
  {| symbol := Some sym; currency := None; type := Some "stock";
     price := Some 0%Qc; change := Some 0%Qc; change24h := Some 0%Qc;
     history := Some [0%Qc]; timestamps := None;
     open := Some 0%Qc; previousClose := Some 0%Qc;
     high := Some 0%Qc; low := Some 0%Qc;
     high52w := Some 0%Qc; low52w := Some 0%Qc;
     marketCap := Some 0%Qc; volume := Some 0%Qc;
     avgVolume := Some 0%Qc; pe := Some 0%Qc;
     circulatingSupply := None; totalSupply := None; rank := None;
     timestamp := None;
     error := Some true; fromCache := None;
     currentPrice := None; high24h := None; low24h := None;
     ath := None; atl := None; volume24h := None |}.

(** The outer [try] block of [fetchStockData]. *)
Definition fetchStockTry (sym : string) (days : Z) : M Obj :=
  let '(range, interval) := rangeInterval days in
  response <- axios_get (YahooChart sym interval range) ;;
  result <- result_of_body response ;;
  t <- Date_now ;;
  let data := stockData sym result t in
  data <- fetchQuote sym data ;;
  cache_set (stockKey sym days) data ;;
  saveFileCache ;;
  ret data.

Definition fetchStockData (sym : string) (days : Z) (w : World)
    : Obj * World :=
  let cacheKey := stockKey sym days in
  if isCacheValid cacheKey CACHE_TTL w
  then (spreadFromCache (nullish (cache w !! cacheKey) emptyObj), w)
  else
    match fetchStockTry sym days w with
    | (Ok data, w') => (data, w')
    | (Throw _, w') => (fallback cacheKey (stockPlaceholder sym) w', w')
    end.

(** ** Aggregator *)

(** The names of the properties that every object inherits from
    [Object.prototype]. *)
Definition Object_prototype : list string :=
  [ "constructor"; "__defineGetter__"; "__defineSetter__"; "hasOwnProperty";
    "__lookupGetter__"; "__lookupSetter__"; "isPrototypeOf";
    "propertyIsEnumerable"; "toString"; "valueOf"; "__proto__";
    "toLocaleString" ].

(** What a template literal makes of the inherited property [name]:
    [Object] for [constructor], the prototype itself for [__proto__], and a
    built-in function of that name otherwise. *)
Definition inheritedText (name : string) : string :=
  if bool_decide (name = "constructor")
  then "function Object() { [native code] }"
  else if bool_decide (name = "__proto__")
  then "[object Object]"
  else "function " +:+ name +:+ "() { [native code] }".

(** [cryptoIds[ticker]], a property read on the object parsed from
    [config.json], whose own entries [cryptoIds] holds: the ticker's own
    entry, else what the object inherits under that name, else [undefined].
    The adapter uses the value it is given in template literals only, so an
    inherited value stands here as the text they make of it, which is not
    empty. *)
Definition coinIdOf (cryptoIds : gmap string string) (ticker : string)
    : option string :=
  match cryptoIds !! ticker with
  | Some coinId => Some coinId
  | None =>
      if bool_decide (ticker ∈ Object_prototype)
      then Some (inheritedText ticker)
      else None
  end.

(** Truthiness of [cryptoIds[ticker]]: a value that is there and, when it is
    a string, not empty. *)
Definition truthyId (coinId : option string) : bool :=
  match coinId with
  | Some s => negb (bool_decide (s = EmptyString))
  | None => false
  end.

(** One iteration of [for (const ticker of tickers)]. *)
Definition fetchOne (cryptoIds : gmap string string) (days : Z)
    (acc : list Obj * World) (ticker : string) : list Obj * World :=
  let '(results, w) := acc in
  let coinId := coinIdOf cryptoIds ticker in
  if truthyId coinId
  then let '(a, w') := fetchCryptoData ticker (nullish coinId EmptyString) days w in
       (results ++ [a], w')
  else let '(a, w') := fetchStockData ticker days w in
       (results ++ [a], w').

Definition fetchAllAssets (tickers : list string)
    (cryptoIds : gmap string string) (days : Z) (w : World)
    : list Obj * World :=
  foldl (fetchOne cryptoIds days) ([], w) tickers.

(** * Observations used in the statements *)

(** The requests of a trace, in the order they were issued. *)
Definition gets (tr : list Event) : list Endpoint :=
  omap (fun ev => match ev with Get e => Some e | Sleep _ => None end) tr.

(** The timers of a trace. *)
Definition sleeps (tr : list Event) : list Z :=
  omap (fun ev => match ev with Sleep ms => Some ms | Get _ => None end) tr.

(** What the [k]-th request from now on will meet. *)
Definition outcomeAt (script : list Reply) (k : nat) : Outcome :=
  match script !! k with
  | Some r => outcome r
  | None => Failed None
  end.

(** What [axios.get] makes of an outcome. *)
Definition resultOf (o : Outcome) : Res Body :=
  match o with
  | Responded b => Ok b
  | Failed st => Throw (AxiosError st)
  end.

(** The number of retries a script draws from a fetcher that is allowed
    [retries] of them: the failures with a retryable status at its head, but
    no more than [retries]. *)
Fixpoint retriesUsed (retries : nat) (script : list Reply) : nat :=
  match retries with
  | O => O
  | S n =>
      match outcomeAt script 0 with
      | Failed st => if shouldRetry st then S (retriesUsed n (tail script)) else O
      | Responded _ => O
      end
  end.


(** The invariants of an asset record: a history that is not empty and,
    when there are timestamps, one timestamp per sample. *)
Definition asset_ok (a : Obj) : Prop :=
  exists h,
    history a = Some h
    /\ (1 <= length h)%nat
    /\ forall ts, timestamps a = Some ts -> ts <> [] -> length ts = length h.

(** Keys of the crypto detail records, which are not assets. *)
Definition isDetailKey (key : string) : bool := String.prefix "detail-" key.

(** A cache whose asset entries satisfy the invariants: the empty cache, and
    every cache the adapters make of such a cache. *)
Definition cache_ok (w : World) : Prop :=
  forall key o, cache w !! key = Some o -> isDetailKey key = false -> asset_ok o.

(** The body of the aggregator's loop without the [push]: the adapter call
    made for one ticker. *)
Definition dispatch (cryptoIds : gmap string string) (days : Z)
    (ticker : string) (w : World) : Obj * World :=
  if truthyId (coinIdOf cryptoIds ticker)
  then fetchCryptoData ticker (nullish (coinIdOf cryptoIds ticker) EmptyString) days w
  else fetchStockData ticker days w.

(** What a run of the limiter keeps true while callers do not overlap and
    no timer fires early: the timestamps recorded are spaced, the last of
    them is [lastCoinGeckoCall], and a suspended caller, if there is one, is
    due [COINGECKO_DELAY] after it. *)
Definition limiter_inv (s : Limiter.t) : Prop :=
  Limiter.spaced (Limiter.stamps s)
  /\ (forall a, List.last (Limiter.stamps s) 0 = a ->
                Limiter.stamps s <> [] -> a = Limiter.last s)
  /\ (Limiter.waiting s = []
      \/ Limiter.waiting s = [Limiter.last s + COINGECKO_DELAY]).

(** A world none of whose timers fires early. *)
Definition punctual (w : World) : Prop := Forall (fun skew => 0 <= skew) (timerSkew w).

(** ** Example worlds *)

Definition sample (ts price : Z) : JsVal * JsVal := (JNum (num ts), JNum (num price)).

(** A chart of three samples: 100, 105, 110. *)
Definition chart_100_105_110 : Body :=
  BodyMarketChart
    {| MarketChart.prices :=
         Some [sample 1700000000000 100; sample 1700003600000 105;
               sample 1700007200000 110] |}.

Definition start (replies : list Reply) : World :=
  {| now := 1700010000000; lastCoinGeckoCall := 0; cache := ∅;
     network := replies; random := [137%nat; 42%nat]; timerSkew := [];
     trace := [] |}.

(** The network answers 429 once, then serves the chart, then goes silent. *)
Definition world_429_then_chart : World :=
  start [ {| latency := 120; outcome := Failed (Some 429%positive) |};
          {| latency := 250; outcome := Responded chart_100_105_110 |} ].

(** The network does not answer at all. *)
Definition world_offline : World := start [].

(** The same, with a first timer that fires 1 ms early. *)
Definition world_early_timer : World :=
  {| now := 1700010000000; lastCoinGeckoCall := 0; cache := ∅;
     network := []; random := []; timerSkew := [-1]; trace := [] |}.

(** A Yahoo chart of four closes, one of them missing, with its meta block. *)
Definition yahoo_chart : Body :=
  BodyYahooChart
    (Some
       {| ChartResult.meta :=
            {| Meta.regularMarketPrice := JNum (num 110);
               Meta.chartPreviousClose := JNum (num 100);
               Meta.regularMarketDayHigh := JUndefined;
               Meta.regularMarketDayLow := JUndefined;
               Meta.fiftyTwoWeekHigh := JNum (num 150);
               Meta.fiftyTwoWeekLow := JNum (num 80);
               Meta.regularMarketVolume := JNum (num 1000000);
               Meta.currency := Some "USD";
               Meta.instrumentType := Some "EQUITY" |};
          ChartResult.close :=
            Some [JNum (num 100); JNull; JNum (num 105); JNum (num 110)];
          ChartResult.open :=
            Some [JNum (num 99); JNull; JNum (num 104); JNum (num 108)];
          ChartResult.timestamp :=
            Some [JNum (num 1700000000); JNum (num 1700086400);
                  JNum (num 1700172800); JNum (num 1700259200)] |}).

(** The network serves the Yahoo chart, then goes silent. *)
Definition world_yahoo : World :=
  start [ {| latency := 180; outcome := Responded yahoo_chart |} ].

(** The network answers 429 once and would serve the Yahoo chart next. *)
Definition world_429_then_yahoo : World :=
  start [ {| latency := 120; outcome := Failed (Some 429%positive) |};
          {| latency := 180; outcome := Responded yahoo_chart |} ].

(** A detail payload that reports a current price of 0, with a market
    capitalisation and a rank. *)
Definition bitcoin_detail_price_0 : Coin.t :=
  {| Coin.market_data :=
       Some {| MarketData.current_price_usd := JNum 0%Qc;
               MarketData.price_change_percentage_24h := JNum (num 3);
               MarketData.high_24h_usd := JUndefined;
               MarketData.low_24h_usd := JUndefined;
               MarketData.ath_usd := JUndefined;
               MarketData.atl_usd := JUndefined;
               MarketData.market_cap_usd := JNum (num 2000000);
               MarketData.total_volume_usd := JUndefined;
               MarketData.circulating_supply := JUndefined;
               MarketData.total_supply := JUndefined |};
     Coin.market_cap_rank := JNum (num 1) |}.

(** The network serves the chart, then that detail payload. *)
Definition world_chart_then_price_0 : World :=
  start [ {| latency := 250; outcome := Responded chart_100_105_110 |};
          {| latency := 90; outcome := Responded (BodyCoin bitcoin_detail_price_0) |} ].

(** A cache holding one record under [crypto-BTC-7], stored 90 s ago. *)
Definition world_stored_90s_ago : World :=
  {| now := 1700010000000; lastCoinGeckoCall := 0;
     cache := {[ cryptoKey "BTC" 7 :=
                   cryptoResult "BTC" None [num 100; num 105; num 110] []
                     (1700010000000 - 90000) ]};
     network := []; random := []; timerSkew := []; trace := [] |}.

(** ** Requests toward CoinGecko *)

Definition isCoinGecko (e : Endpoint) : bool :=
  match e with
  | CoinGeckoMarketChart _ _ | CoinGeckoCoin _ => true
  | YahooChart _ _ _ | YahooQuote _ => false
  end.

(** How many requests a world has sent to CoinGecko so far. *)
Definition coinGeckoRequests (w : World) : nat :=
  length (filter (fun e => isCoinGecko e = true) (gets (trace w))).

(** From [w] to [w'] the limiter's timestamp moved by at least
    [COINGECKO_DELAY] for every request sent to CoinGecko in between. *)
Definition paced (w w' : World) : Prop :=
  (coinGeckoRequests w <= coinGeckoRequests w')%nat
  /\ COINGECKO_DELAY
     * (Z.of_nat (coinGeckoRequests w') - Z.of_nat (coinGeckoRequests w))
     <= lastCoinGeckoCall w' - lastCoinGeckoCall w.

(** The timers still to come in [w'] are those of [w] less the ones that
    have fired in between. *)
Definition timers_used (w w' : World) : Prop :=
  exists k, timerSkew w' = drop k (timerSkew w).

(** The samples of a chart that pass the filter, and the timestamps pushed
    with them. *)
Definition keptPrices (pairs : list (JsVal * JsVal)) : list Qc :=
  omap (fun p => validSample p.2) pairs.

Definition keptStamps (t : Z) (pairs : list (JsVal * JsVal)) : list JsVal :=
  omap (fun p => match validSample p.2 with
                 | Some _ => Some (if typeof_number p.1 then p.1 else JNum (num t))
                 | None => None
                 end) pairs.

(** The same for the closes of an equity chart, read by index. *)
Definition keptCloses (rawCloses : list JsVal) : list Qc :=
  omap validSample rawCloses.

Definition closeStamp (rawTimestamps : list JsVal) (t : Z) (i : nat) : JsVal :=
  let ts := nullish (rawTimestamps !! i) JUndefined in
  if typeof_number ts then times1000 ts else JNum (num t).

(** ** The dashboard (index.js)

    The state of [StonksDashboard] that its handlers read and write; the
    widgets, the loading spinner and what is drawn are left out. *)
Module Dashboard.

Record Config := {
  tickers : list string;
  cryptoIds : gmap string string;
  updateInterval : Z
}.

Record Period := { label : string; days : Z }.

(** [this.periods] *)
Definition periods : list Period :=
  [ {| label := "1D"; days := 1 |};
    {| label := "7D"; days := 7 |};
    {| label := "30D"; days := 30 |};
    {| label := "90D"; days := 90 |} ].

Record t := {
  config : Config;
  assetsData : list Obj;
  prevAssetsData : list Obj;
  flashIndices : gset (option string);   (* a [Set] of [asset.symbol]s *)
  selectedIndex : Z;
  connectionError : bool;
  currentPeriodIndex : nat
}.

(** The state the constructor leaves. *)
Definition init (cfg : Config) : t :=
  {| config := cfg; assetsData := []; prevAssetsData := [];
     flashIndices := ∅; selectedIndex := 0;
     connectionError := false; currentPeriodIndex := 1 |}.

(** [getAssetCategory(asset)] *)
Definition getAssetCategory (asset : Obj) : string :=
  if bool_decide (type asset = Some "crypto") then "crypto"
  else if bool_decide
            (symbol asset ∈ (Some <$> ["SPY"; "QQQ"; "VOO"; "VTI"; "IWM"; "DIA";
                                       "ARKK"; "XLF"; "XLE"; "GLD"; "SLV"]))
       then "etf"
       else "stock".

(** The three sections of [updateWatchlistTable]. *)
Definition cryptos (d : t) : list Obj :=
  filter (fun a => getAssetCategory a = "crypto") (assetsData d).
Definition stocks (d : t) : list Obj :=
  filter (fun a => getAssetCategory a = "stock") (assetsData d).
Definition etfs (d : t) : list Obj :=
  filter (fun a => getAssetCategory a = "etf") (assetsData d).

(** [Math.abs] *)
Definition Math_abs (q : Qc) : Qc := if bool_decide (q < 0)%Qc then (- q)%Qc else q.

(** [new Map(prevAssetsData.map(a => [a.symbol, a]))]: a later record
    replaces an earlier one with the same symbol. *)
Definition bySymbol (assets : list Obj) : gmap (option string) Obj :=
  foldl (fun m a => <[symbol a := a]> m) ∅ assets.

(** The test under which [fetchData] adds [asset.symbol] to
    [flashIndices].  A price that is missing makes the comparison false. *)
Definition flashes (prevBySymbol : gmap (option string) Obj) (asset : Obj) : bool :=
  match prevBySymbol !! symbol asset with
  | None => false
  | Some prev =>
      match price prev with
      | None => false
      | Some prevPrice =>
          if bool_decide (0 < prevPrice)%Qc
          then match price asset with
               | None => false
               | Some p =>
                   let deltaPct :=
                     (Math_abs ((p - prevPrice) / prevPrice) * num 100)%Qc in
                   bool_decide (num 2 <= deltaPct)%Qc
               end
          else false
      end
  end.

(** [asset.error] as a condition. *)
Definition hasError (asset : Obj) : bool :=
  match error asset with Some b => b | None => false end.

(** [fetchData()].  A period index outside [periods] makes [period.days]
    throw, which the [catch] turns into [connectionError = true]. *)
Definition fetchData (d : t) (w : World) : t * World :=
  match periods !! currentPeriodIndex d with
  | None =>
      ({| config := config d; assetsData := assetsData d;
          prevAssetsData := prevAssetsData d; flashIndices := flashIndices d;
          selectedIndex := selectedIndex d;
          connectionError := true;
          currentPeriodIndex := currentPeriodIndex d |}, w)
  | Some period =>
      let '(newData, w') :=
        fetchAllAssets (tickers (config d)) (cryptoIds (config d))
                       (days period) w in
      let prevBySymbol := bySymbol (prevAssetsData d) in
      let flash :=
        foldl (fun s asset =>
                 if flashes prevBySymbol asset then {[ symbol asset ]} ∪ s else s)
              ∅ newData in
      let len := Z.of_nat (length newData) in
      ({| config := config d;
          assetsData := newData;
          prevAssetsData := assetsData d;
          flashIndices := flash;
          selectedIndex :=
            if len <=? selectedIndex d then Z.max 0 (len - 1)
            else selectedIndex d;
         
          connectionError := existsb hasError newData;
          currentPeriodIndex := currentPeriodIndex d |}, w')
  end.

Definition set_selectedIndex (i : Z) (d : t) : t :=
  {| config := config d; assetsData := assetsData d;
     prevAssetsData := prevAssetsData d; flashIndices := flashIndices d;
     selectedIndex := i;
     connectionError := connectionError d;
     currentPeriodIndex := currentPeriodIndex d |}.

(** What [refreshDisplay()] changes in the state: [updateChartPanel] pulls
    a selection that is past the end back to the last asset. *)
Definition refreshDisplay (d : t) : t :=
  let len := Z.of_nat (length (assetsData d)) in
  if (len =? 0) || (selectedIndex d <? 0) then d
  else if len <=? selectedIndex d then set_selectedIndex (len - 1) d
  else d.

(** The handler of the keys [up] and [k]. *)
Definition keyUp (d : t) : t :=
  if (length (assetsData d) =? 0)%nat then d
  else if 0 <? selectedIndex d
       then refreshDisplay (set_selectedIndex (selectedIndex d - 1) d)
       else d.

(** The handler of the keys [down] and [j]. *)
Definition keyDown (d : t) : t :=
  if (length (assetsData d) =? 0)%nat then d
  else if selectedIndex d <? Z.of_nat (length (assetsData d)) - 1
       then refreshDisplay (set_selectedIndex (selectedIndex d + 1) d)
       else d.

(** [switchPeriod(periodIndex)]; the index is a key's literal, never
    negative. *)
Definition switchPeriod (periodIndex : nat) (d : t) (w : World) : t * World :=
  if (length periods <=? periodIndex)%nat then (d, w)
  else if (currentPeriodIndex d =? periodIndex)%nat then (d, w)
  else
    let d1 :=
      {| config := config d; assetsData := assetsData d;
         prevAssetsData := prevAssetsData d; flashIndices := flashIndices d;
         selectedIndex := selectedIndex d;
         connectionError := connectionError d;
         currentPeriodIndex := periodIndex |} in
    let '(d2, w') := fetchData d1 w in
    (refreshDisplay d2, w').

(** What can happen to a running dashboard: a key, or the timer of
    [startGameLoop]. *)
Inductive Event :=
| KeyUp
| KeyDown
| KeyPeriod (periodIndex : nat)
| Timer.

Definition handle (ev : Event) (s : t * World) : t * World :=
  match ev with
  | KeyUp => (keyUp s.1, s.2)
  | KeyDown => (keyDown s.1, s.2)
  | KeyPeriod i => switchPeriod i s.1 s.2
  | Timer => let '(d, w') := fetchData s.1 s.2 in (refreshDisplay d, w')
  end.

(** The dashboard after a sequence of events, each handled to its end
    before the next. *)
Definition run (evs : list Event) (s : t * World) : t * World :=
  foldl (fun s ev => handle ev s) s evs.

End Dashboard.

(** The timestamps pushed with the closes that pass the filter. *)
Definition keptCloseStamps (rawCloses rawTimestamps : list JsVal) (t : Z)
    : list JsVal :=
  omap (fun i => match validSample (nullish (rawCloses !! i) JUndefined) with
                 | Some _ => Some (closeStamp rawTimestamps t i)
                 | None => None
                 end)
       (seq 0 (length rawCloses)).

(** A detail payload, and a world whose cache holds the detail record made
    of it ten minutes ago while the network serves the chart. *)
Definition bitcoin_detail : Coin.t :=
  {| Coin.market_data :=
       Some {| MarketData.current_price_usd := JNum (num 111);
               MarketData.price_change_percentage_24h := JNum (num 3);
               MarketData.high_24h_usd := JNum (num 112);
               MarketData.low_24h_usd := JNum (num 99);
               MarketData.ath_usd := JNum (num 200);
               MarketData.atl_usd := JNum (num 1);
               MarketData.market_cap_usd := JNum (num 2000000);
               MarketData.total_volume_usd := JNum (num 50000);
               MarketData.circulating_supply := JNum (num 19000);
               MarketData.total_supply := JNum (num 21000) |};
     Coin.market_cap_rank := JNum (num 1) |}.

Definition world_detail_cached : World :=
  {| now := 1700010000000; lastCoinGeckoCall := 0;
     cache := {[ detailKey "bitcoin" :=
                   detailOf bitcoin_detail (1700010000000 - 600000) ]};
     network := [ {| latency := 250; outcome := Responded chart_100_105_110 |} ];
     random := []; timerSkew := []; trace := [] |}.

(** The state a dashboard can be in: the selection is [0] or points at an
    asset, the period index points at a period, and there is no asset yet
    or one per configured ticker. *)
Definition dashboard_ok (cfg : Dashboard.Config) (d : Dashboard.t) : Prop :=
  Dashboard.config d = cfg
  /\ 0 <= Dashboard.selectedIndex d
  /\ (Dashboard.selectedIndex d = 0
      \/ Dashboard.selectedIndex d < Z.of_nat (length (Dashboard.assetsData d)))
  /\ (Dashboard.currentPeriodIndex d < length Dashboard.periods)%nat
  /\ (Dashboard.assetsData d = []
      \/ length (Dashboard.assetsData d) = length (Dashboard.tickers cfg)).

(** The network serves the detail payload. *)
Definition world_detail_served : World :=
  start [ {| latency := 90; outcome := Responded (BodyCoin bitcoin_detail) |} ].

(** A dashboard showing three assets, the second one selected. *)
Definition dashboard_three : Dashboard.t :=
  {| Dashboard.config :=
       {| Dashboard.tickers := ["BTC"; "AAPL"; "SPY"];
          Dashboard.cryptoIds := {[ "BTC" := "bitcoin" ]};
          Dashboard.updateInterval := 120000 |};
     Dashboard.assetsData :=
       [cryptoPlaceholder "BTC"; stockPlaceholder "AAPL"; stockPlaceholder "SPY"];
     Dashboard.prevAssetsData := [];
     Dashboard.flashIndices := ∅;
     Dashboard.selectedIndex := 1;
     Dashboard.connectionError := true;
     Dashboard.currentPeriodIndex := 1 |}.

(** ** The chart panel (index.js, [updateChartPanel])

    What the panel computes for the selected asset: the samples it plots
    and the labels of the X axis.  The label of a timestamp is made with
    [Date], in the local time zone; it is a parameter here. *)
Module ChartPanel.

Section WithDate.

Variable formatDate : JsVal -> Z -> string.

(** The samples plotted: the history, or the single sample [0]. *)
Definition samples (asset : Obj) : list Qc :=
  seedZero (nullish (history asset) []).

(** [hasTimestamps]: as many timestamps as samples in the record. *)
Definition hasTimestamps (asset : Obj) : bool :=
  (length (nullish (timestamps asset) []) =? length (nullish (history asset) []))%nat.

(** [step = Math.max(1, Math.floor(len / Math.min(10, len)))] *)
Definition step (len : nat) : nat := Nat.max 1 (len / Nat.min 10 len).

(** [isTick] *)
Definition isTick (len i : nat) : bool :=
  (i =? 0)%nat || (i =? len - 1)%nat || (i mod step len =? 0)%nat.

(** The label pushed for a position that is a tick. *)
Definition tickLabel (asset : Obj) (days : Z) (i : nat) : string :=
  if hasTimestamps asset
  then formatDate (nullish (nullish (timestamps asset) [] !! i) JUndefined) days
  else if days =? 1 then pretty i +:+ "h" else pretty (i + 1)%nat.

(** The array [x]. *)
Definition labels (asset : Obj) (days : Z) : list string :=
  let len := length (samples asset) in
  (fun i => if negb (isTick len i) then " " else tickLabel asset days i)
    <$> seq 0 len.

End WithDate.

End ChartPanel.
(** * Properties *)

(** ** Rate limiter *)

Section RateLimiter.

Lemma waitForCoinGecko_returns (w : World) : (waitForCoinGecko w).1 = Ok tt.
Proof.
  unfold waitForCoinGecko, bind, Date_now; simpl.
  destruct (remainingDelay (now w) (lastCoinGeckoCall w)); reflexivity.
Qed.

Lemma waitForCoinGecko_stamp (w : World) :
  lastCoinGeckoCall (waitForCoinGecko w).2 = now (waitForCoinGecko w).2.
Proof.
  unfold waitForCoinGecko, bind, Date_now; simpl.
  destruct (remainingDelay (now w) (lastCoinGeckoCall w)); reflexivity.
Qed.

Lemma remainingDelay_short (now0 last : Z) :
  now0 - last < COINGECKO_DELAY ->
  remainingDelay now0 last = Some (COINGECKO_DELAY - (now0 - last)).
Proof.
  intros H. unfold remainingDelay.
  destruct (Z.ltb_spec (now0 - last) COINGECKO_DELAY); [reflexivity | lia].
Qed.

Lemma remainingDelay_long (now0 last : Z) :
  COINGECKO_DELAY <= now0 - last -> remainingDelay now0 last = None.
Proof.
  intros H. unfold remainingDelay.
  destruct (Z.ltb_spec (now0 - last) COINGECKO_DELAY); [lia | reflexivity].
Qed.

Lemma remainingDelay_None (now0 last : Z) :
  remainingDelay now0 last = None -> COINGECKO_DELAY <= now0 - last.
Proof.
  unfold remainingDelay.
  destruct (Z.ltb_spec (now0 - last) COINGECKO_DELAY); [discriminate | auto].
Qed.

Lemma waitForCoinGecko_short (w : World) :
  now w - lastCoinGeckoCall w < COINGECKO_DELAY ->
  let ms := COINGECKO_DELAY - (now w - lastCoinGeckoCall w) in
  trace (waitForCoinGecko w).2 = trace w ++ [Sleep ms]
  /\ now (waitForCoinGecko w).2 = now w + fired ms w
  /\ timerSkew (waitForCoinGecko w).2 = tail (timerSkew w).
Proof.
  intros H ms. unfold waitForCoinGecko, bind, Date_now; simpl.
  rewrite (remainingDelay_short _ _ H). simpl. auto.
Qed.

Lemma waitForCoinGecko_long (w : World) :
  COINGECKO_DELAY <= now w - lastCoinGeckoCall w ->
  trace (waitForCoinGecko w).2 = trace w
  /\ now (waitForCoinGecko w).2 = now w
  /\ timerSkew (waitForCoinGecko w).2 = timerSkew w.
Proof.
  intros H. unfold waitForCoinGecko, bind, Date_now; simpl.
  rewrite (remainingDelay_long _ _ H). simpl. auto.
Qed.

(** A timer that does not fire early has let at least its delay pass. *)
Lemma fired_punctual (ms : Z) (w : World) :
  0 <= default 0 (head (timerSkew w)) -> 0 <= ms -> ms <= fired ms w.
Proof. unfold fired. lia. Qed.

Lemma punctual_head (w : World) : punctual w -> 0 <= default 0 (head (timerSkew w)).
Proof.
  unfold punctual. destruct (timerSkew w) as [|k l]; simpl; [lia|].
  intros H. inversion H; assumption.
Qed.

Lemma waitForCoinGecko_gap (w : World) :
  0 <= default 0 (head (timerSkew w)) ->
  COINGECKO_DELAY <= lastCoinGeckoCall (waitForCoinGecko w).2 - lastCoinGeckoCall w.
Proof.
  intros Hp. rewrite waitForCoinGecko_stamp.
  destruct (Z.lt_ge_cases (now w - lastCoinGeckoCall w) COINGECKO_DELAY) as [H|H].
  - destruct (waitForCoinGecko_short w H) as (_ & -> & _).
    pose proof (fired_punctual (COINGECKO_DELAY - (now w - lastCoinGeckoCall w))
                  w Hp ltac:(lia)).
    lia.
  - destruct (waitForCoinGecko_long w H) as (_ & -> & _). lia.
Qed.

(** The limiter touches neither the cache nor the network, and issues no
    request; it uses up at most one timer. *)
Lemma waitForCoinGecko_frame (w : World) :
  cache (waitForCoinGecko w).2 = cache w
  /\ network (waitForCoinGecko w).2 = network w
  /\ random (waitForCoinGecko w).2 = random w
  /\ gets (trace (waitForCoinGecko w).2) = gets (trace w).
Proof.
  unfold waitForCoinGecko, bind, Date_now; simpl.
  destruct (remainingDelay (now w) (lastCoinGeckoCall w)); simpl;
    repeat split; try reflexivity.
  unfold gets. rewrite omap_app. simpl. apply app_nil_r.
Qed.

Lemma waitForCoinGecko_timers (w : World) :
  exists k, timerSkew (waitForCoinGecko w).2 = drop k (timerSkew w).
Proof.
  unfold waitForCoinGecko, bind, Date_now; simpl.
  destruct (remainingDelay (now w) (lastCoinGeckoCall w)); simpl.
  - exists 1%nat. destruct (timerSkew w); reflexivity.
  - exists 0%nat. reflexivity.
Qed.

End RateLimiter.

(** ** The limiter under callers that may overlap *)

Section LimiterRuns.

Import Limiter.

Lemma spaced_snoc (l : list Z) (b : Z) :
  spaced l ->
  (l <> [] -> COINGECKO_DELAY <= b - List.last l 0) ->
  spaced (l ++ [b]).
Proof.
  intros Hl Hb i x y Hx Hy.
  destruct (decide (S i < length l)%nat) as [Hlt|Hge].
  - rewrite lookup_app_l in Hx by lia. rewrite lookup_app_l in Hy by lia.
    exact (Hl i x y Hx Hy).
  - assert (Hi : S i = length l).
    { apply lookup_lt_Some in Hy. rewrite length_app in Hy. simpl in Hy. lia. }
    rewrite lookup_app_l in Hx by lia.
    rewrite lookup_app_r, Hi, Nat.sub_diag in Hy by lia. injection Hy as <-.
    assert (Hne : l <> []) by (intros ->; discriminate).
    specialize (Hb Hne).
    assert (Hlast : List.last l 0 = x).
    { destruct (exists_last Hne) as (l' & z & ->).
      rewrite List.last_last.
      rewrite length_app in Hi. simpl in Hi.
      rewrite lookup_app_r in Hx by lia.
      replace (i - length l')%nat with 0%nat in Hx by lia.
      injection Hx as <-. reflexivity. }
    rewrite Hlast in Hb. exact Hb.
Qed.

Lemma limiter_inv_record (s : t) (at_ : Z) :
  limiter_inv s ->
  COINGECKO_DELAY <= at_ - Limiter.last s ->
  limiter_inv (record at_ s []).
Proof.
  intros (Hs & Hl & _) Hgap. unfold limiter_inv, record; simpl.
  split; [|split].
  - apply spaced_snoc; [exact Hs|]. intros Hne.
    rewrite (Hl _ eq_refl Hne). exact Hgap.
  - intros a Ha _. rewrite List.last_last in Ha. congruence.
  - left; reflexivity.
Qed.

Lemma limiter_inv_step (s s' : t) (ev : Event) :
  limiter_inv s -> step s ev = Some s' -> orderly s ev = true -> limiter_inv s'.
Proof.
  intros Hinv Hstep Hord. destruct ev as [at_|i at_]; simpl in Hstep, Hord.
  - apply bool_decide_eq_true in Hord.
    destruct (at_ <? clock s); [discriminate|].
    unfold remainingDelay in Hstep.
    destruct (Z.ltb_spec (at_ - Limiter.last s) COINGECKO_DELAY) as [Hlt|Hge].
    + injection Hstep as <-. destruct Hinv as (Hs & Hl & _).
      unfold limiter_inv; simpl. split; [exact Hs|]. split; [exact Hl|].
      right. rewrite Hord. simpl. f_equal. lia.
    + injection Hstep as <-. rewrite Hord. apply limiter_inv_record; assumption.
  - destruct (at_ <? clock s); [discriminate|].
    destruct (waiting s !! i) as [due|] eqn:Hi; [|discriminate].
    injection Hstep as <-. apply Z.leb_le in Hord.
    destruct Hinv as (Hs & Hl & [Hw|Hw]); rewrite Hw in Hi.
    + discriminate.
    + destruct i as [|i]; [|discriminate]. injection Hi as <-.
      rewrite Hw. simpl.
      apply limiter_inv_record; [|lia].
      split; [exact Hs|]. split; [exact Hl|]. right; exact Hw.
Qed.

Lemma limiter_inv_run (evs : list Event) :
  forall s s',
    limiter_inv s -> run s evs = Some s' -> orderlyRun s evs = true ->
    limiter_inv s'.
Proof.
  induction evs as [|ev evs IH]; intros s s' Hinv Hrun Hord; simpl in *.
  - injection Hrun as <-. exact Hinv.
  - apply andb_true_iff in Hord as [Hev Hord].
    destruct (step s ev) as [s1|] eqn:Hstep; [|discriminate].
    exact (IH s1 s' (limiter_inv_step s s1 ev Hinv Hstep Hev) Hrun Hord).
Qed.

Lemma limiter_inv_init (t0 : Z) : limiter_inv (init t0).
Proof.
  unfold limiter_inv, init; simpl. split; [|split].
  - intros i a b Ha. discriminate.
  - intros a _ H. congruence.
  - left; reflexivity.
Qed.

(** A caller on its own, as the sequential [waitForCoinGecko] runs it, is
    the run of its two halves with nothing in between. *)
Lemma waitForCoinGecko_as_run (w : World) :
  let w2 := (waitForCoinGecko w).2 in
  let evs := match remainingDelay (now w) (lastCoinGeckoCall w) with
             | Some _ => [Call (now w); Wake 0 (now w2)]
             | None => [Call (now w)]
             end in
  run (of_world w) evs
  = Some {| clock := now w2; Limiter.last := lastCoinGeckoCall w2;
            waiting := []; stamps := [lastCoinGeckoCall w2] |}.
Proof.
  intros w2 evs. subst w2 evs.
  assert (Hstamp := waitForCoinGecko_stamp w).
  assert (Hmono : now w <= now (waitForCoinGecko w).2).
  { destruct (Z.lt_ge_cases (now w - lastCoinGeckoCall w) COINGECKO_DELAY) as [H|H].
    - destruct (waitForCoinGecko_short w H) as (_ & -> & _). unfold fired. lia.
    - destruct (waitForCoinGecko_long w H) as (_ & -> & _). lia. }
  destruct (remainingDelay (now w) (lastCoinGeckoCall w)) as [ms|] eqn:E.
  - cbn [run step of_world clock Limiter.last waiting stamps].
    rewrite Z.ltb_irrefl, E.
    cbn [clock Limiter.last waiting stamps app lookup list_lookup].
    rewrite (proj2 (Z.ltb_ge _ _) Hmono). unfold record. simpl.
    rewrite Hstamp. reflexivity.
  - cbn [run step of_world clock Limiter.last waiting stamps].
    rewrite Z.ltb_irrefl, E. unfold record. simpl.
    apply remainingDelay_None in E.
    destruct (waitForCoinGecko_long w E) as (_ & Hn & _).
    rewrite Hstamp, Hn. reflexivity.
Qed.

End LimiterRuns.

(** C4 (amended). In a run of the limiter in which callers do not overlap
    and no timer fires early, any two timestamps recorded one after the
    other are at least [COINGECKO_DELAY] = 5000 ms apart.  A caller that
    enters less than 5000 ms after the last recorded call is suspended on a
    timer of exactly the remaining difference, and the new timestamp is
    recorded only when it runs again; a caller that enters later records at
    once.  The sequential [waitForCoinGecko] is the run of one such caller:
    it awaits that one timer, and records the clock as it reads after it. *)
Theorem waitForCoinGecko_spacing
    (t0 : Z) (evs : list Limiter.Event) (s : Limiter.t) :
  Limiter.run (Limiter.init t0) evs = Some s ->
  Limiter.orderlyRun (Limiter.init t0) evs = true ->
  COINGECKO_DELAY = 5000
  /\ Limiter.spaced (Limiter.stamps s)
  /\ (forall (s0 : Limiter.t) (at_ : Z),
        Limiter.clock s0 <= at_ ->
        let elapsed := at_ - Limiter.last s0 in
        (elapsed < COINGECKO_DELAY ->
         Limiter.step s0 (Limiter.Call at_)
         = Some {| Limiter.clock := at_; Limiter.last := Limiter.last s0;
                   Limiter.waiting :=
                     Limiter.waiting s0 ++ [at_ + (COINGECKO_DELAY - elapsed)];
                   Limiter.stamps := Limiter.stamps s0 |})
        /\ (COINGECKO_DELAY <= elapsed ->
            Limiter.step s0 (Limiter.Call at_)
            = Some {| Limiter.clock := at_; Limiter.last := at_;
                      Limiter.waiting := Limiter.waiting s0;
                      Limiter.stamps := Limiter.stamps s0 ++ [at_] |}))
  /\ (forall w : World,
        let w2 := (waitForCoinGecko w).2 in
        let elapsed := now w - lastCoinGeckoCall w in
        lastCoinGeckoCall w2 = now w2
        /\ (elapsed < COINGECKO_DELAY ->
            trace w2 = trace w ++ [Sleep (COINGECKO_DELAY - elapsed)]
            /\ now w2 = now w + fired (COINGECKO_DELAY - elapsed) w
            /\ Limiter.run (Limiter.of_world w)
                 [Limiter.Call (now w); Limiter.Wake 0 (now w2)]
               = Some {| Limiter.clock := now w2;
                         Limiter.last := lastCoinGeckoCall w2;
                         Limiter.waiting := [];
                         Limiter.stamps := [lastCoinGeckoCall w2] |})
        /\ (COINGECKO_DELAY <= elapsed -> trace w2 = trace w /\ now w2 = now w)
        /\ (0 <= default 0 (head (timerSkew w)) ->
            COINGECKO_DELAY <= lastCoinGeckoCall w2 - lastCoinGeckoCall w)).
Proof.
  intros Hrun Hord. split; [reflexivity|]. split; [|split].
  - exact (proj1 (limiter_inv_run evs _ _ (limiter_inv_init t0) Hrun Hord)).
  - intros s0 at_ Hclock elapsed. subst elapsed. simpl.
    assert (Hc : (at_ <? Limiter.clock s0) = false) by (apply Z.ltb_ge; lia).
    rewrite Hc. split; intros H.
    + rewrite (remainingDelay_short _ _ H). reflexivity.
    + rewrite (remainingDelay_long _ _ H). reflexivity.
  - intros w w2 elapsed. subst w2 elapsed.
    split; [apply waitForCoinGecko_stamp|]. split; [|split].
    + intros H. destruct (waitForCoinGecko_short w H) as (Ht & Hn & _).
      split; [exact Ht|]. split; [exact Hn|].
      pose proof (waitForCoinGecko_as_run w) as Hr. cbn zeta in Hr.
      rewrite (remainingDelay_short _ _ H) in Hr. exact Hr.
    + intros H. destruct (waitForCoinGecko_long w H) as (Ht & Hn & _). auto.
    + apply waitForCoinGecko_gap.
Qed.

(** The specification promises the spacing for any two consecutive
    completions.  Two callers that enter while a third is suspended record
    the same timestamp as it does, although each timer fires exactly when
    it is due; and a caller on its own whose timer fires 1 ms early records
    a timestamp 4999 ms after the last one. *)
Lemma waitForCoinGecko_gap_below_5000 :
  let t0 := 1700010000000 in
  (exists s,
      Limiter.run (Limiter.init t0)
        [Limiter.Call t0; Limiter.Call (t0 + 1200); Limiter.Call (t0 + 2500);
         Limiter.Wake 0 (t0 + 5000); Limiter.Wake 0 (t0 + 5000)] = Some s
      /\ Limiter.stamps s = [t0; t0 + 5000; t0 + 5000]
      /\ ~ Limiter.spaced (Limiter.stamps s))
  /\ (let w1 := (waitForCoinGecko world_early_timer).2 in
      let w2 := (waitForCoinGecko (advance 1200 w1)).2 in
      trace w2 = [Sleep 3800]
      /\ lastCoinGeckoCall w2 - lastCoinGeckoCall w1 = 4999).
Proof.
  intros t0. split.
  - eexists. split; [reflexivity|]. split; [reflexivity|].
    intros H. specialize (H 1%nat (t0 + 5000) (t0 + 5000) eq_refl eq_refl).
    vm_compute in H. apply H. reflexivity.
  - split; reflexivity.
Qed.

(** ** Retrying fetcher *)

Section RetryingFetcher.

Variable e : Endpoint.
Variable retries : nat.
Variable baseDelay : Z.

Lemma shouldRetry_iff (st : option positive) :
  shouldRetry st = true
  <-> st = Some 429%positive
      \/ (exists s, st = Some s /\ (500 <= s)%positive)
      \/ st = None.
Proof.
  destruct st as [s|]; cbn [shouldRetry].
  - rewrite orb_true_iff, Pos.eqb_eq, Pos.leb_le. split.
    + intros [->|H]; [left; reflexivity | right; left; eauto].
    + intros [H|[(s' & H & Hs)|H]]; try discriminate.
      * left; congruence.
      * right; congruence.
  - split; auto.
Qed.

(** One attempt: the limiter, then the request. *)
Lemma attempt_spec (w : World) :
  let r := (waitForCoinGecko ;; axios_get e) w in
  r.1 = resultOf (outcomeAt (network w) 0)
  /\ network r.2 = tail (network w)
  /\ cache r.2 = cache w
  /\ gets (trace r.2) = gets (trace w) ++ [e].
Proof.
  unfold bind. pose proof (waitForCoinGecko_returns w) as Hr.
  destruct (waitForCoinGecko_frame w) as (Hc & Hn & _ & Hg).
  destruct (waitForCoinGecko w) as [r1 w1]; simpl in *; subst r1.
  unfold axios_get, outcomeAt; simpl. rewrite Hn.
  assert (Hg' : gets (trace w1 ++ [Get e]) = gets (trace w) ++ [e]).
  { unfold gets in *. rewrite omap_app, Hg. reflexivity. }
  destruct (network w) as [|rep rest]; simpl; [auto|].
  destruct (outcome rep); simpl; auto.
Qed.

(** The backoff between two attempts: one draw, one timer. *)
Lemma backoff_spec {A} (delay : Z -> Z) (k : M A) (w : World) :
  exists w',
    (jitter <- Math_random_300 ;; setTimeout (delay jitter) ;; k) w = k w'
    /\ network w' = network w
    /\ cache w' = cache w
    /\ gets (trace w') = gets (trace w).
Proof.
  unfold bind, Math_random_300, setTimeout.
  destruct (random w) as [|j js]; simpl; eexists; (split; [reflexivity|]);
    simpl; repeat split; unfold gets; rewrite omap_app; apply app_nil_r.
Qed.

Lemma retriesUsed_le (n : nat) (script : list Reply) :
  (retriesUsed n script <= n)%nat.
Proof.
  revert script; induction n as [|n IH]; intros script; simpl; [lia|].
  destruct (outcomeAt script 0) as [|st]; [lia|].
  destruct (shouldRetry st); [|lia]. specialize (IH (tail script)); lia.
Qed.

Lemma outcomeAt_tail (script : list Reply) (i : nat) :
  outcomeAt (tail script) i = outcomeAt script (S i).
Proof. destruct script; reflexivity. Qed.

Lemma retriesUsed_earlier (n : nat) (script : list Reply) (i : nat) :
  (i < retriesUsed n script)%nat ->
  exists st, outcomeAt script i = Failed st /\ shouldRetry st = true.
Proof.
  revert script i; induction n as [|n IH]; intros script i; simpl; [lia|].
  destruct (outcomeAt script 0) as [|st] eqn:E; [lia|].
  destruct (shouldRetry st) eqn:R; [|lia].
  destruct i as [|i]; intros H; [eauto|].
  rewrite <- outcomeAt_tail. apply IH; lia.
Qed.

Lemma retriesUsed_stop (n : nat) (script : list Reply) (st : option positive) :
  outcomeAt script (retriesUsed n script) = Failed st ->
  shouldRetry st = true ->
  retriesUsed n script = n.
Proof.
  revert script; induction n as [|n IH]; intros script; simpl; [reflexivity|].
  destruct (outcomeAt script 0) as [|st0] eqn:E.
  - rewrite E; discriminate.
  - destruct (shouldRetry st0) eqn:R.
    + rewrite <- outcomeAt_tail. intros H1 H2. f_equal. eauto.
    + rewrite E. intros [= ->]. congruence.
Qed.

Lemma drop_tail {A} (n : nat) (l : list A) : drop n (tail l) = drop (S n) l.
Proof. destruct l; simpl; [apply drop_nil | reflexivity]. Qed.

Lemma retryLoop_S (fuel attempt : nat) :
  retryLoop (S fuel) e retries baseDelay attempt
  = try_catch
      (waitForCoinGecko ;; axios_get e)
      (fun err =>
         if (attempt <? retries)%nat && shouldRetry (response_status err)
         then
           jitter <- Math_random_300 ;;
           setTimeout (baseDelay * 2 ^ Z.of_nat attempt + jitter) ;;
           retryLoop fuel e retries baseDelay (S attempt)
         else throw err).
Proof. reflexivity. Qed.

(** The loop from iteration [attempt] on, with [left] retries left. *)
Lemma retryLoop_spec (left : nat) :
  forall (attempt : nat) (w : World),
    (attempt + left = retries)%nat ->
    let k := retriesUsed left (network w) in
    let r := retryLoop (S left) e retries baseDelay attempt w in
    r.1 = resultOf (outcomeAt (network w) k)
    /\ network r.2 = drop (S k) (network w)
    /\ cache r.2 = cache w
    /\ gets (trace r.2) = gets (trace w) ++ replicate (S k) e.
Proof.
  induction left as [|left IH]; intros attempt w Hleft; cbn zeta.
  - (* last iteration: [attempt < retries] is false *)
    assert (Hlt : (attempt <? retries)%nat = false) by (apply Nat.ltb_ge; lia).
    rewrite retryLoop_S. cbn [retriesUsed]. unfold try_catch.
    destruct (attempt_spec w) as (Hr & Hn & Hc & Hg).
    destruct ((waitForCoinGecko;; axios_get e) w) as [r w1]; simpl in *.
    rewrite <- drop_tail, drop_0.
    destruct r as [b|err]; simpl.
    + auto.
    + rewrite Hlt; simpl. auto.
  - assert (Hlt : (attempt <? retries)%nat = true) by (apply Nat.ltb_lt; lia).
    rewrite retryLoop_S. unfold try_catch.
    destruct (attempt_spec w) as (Hr & Hn & Hc & Hg).
    destruct ((waitForCoinGecko;; axios_get e) w) as [r w1]; simpl in Hr, Hn, Hc, Hg.
    cbn [retriesUsed].
    destruct (outcomeAt (network w) 0) as [b|st] eqn:E; simpl in Hr; subst r.
    + simpl. rewrite E, <- drop_tail, drop_0. auto.
    + rewrite Hlt; cbn [response_status andb].
      destruct (shouldRetry st) eqn:R.
      * destruct (backoff_spec
                    (fun jitter => baseDelay * 2 ^ Z.of_nat attempt + jitter)
                    (retryLoop (S left) e retries baseDelay (S attempt)) w1)
          as (w2 & -> & Hn2 & Hc2 & Hg2).
        destruct (IH (S attempt) w2 ltac:(lia)) as (Ir & In & Ic & Ig).
        rewrite Hn2, Hn in Ir, In, Ig.
        rewrite Ir, In, Ic, Ig, Hc2, Hc, Hg2, Hg.
        rewrite outcomeAt_tail. repeat split.
        -- apply drop_tail.
        -- rewrite <- app_assoc. reflexivity.
      * simpl. rewrite E, <- drop_tail, drop_0. auto.
Qed.

End RetryingFetcher.

(** C3. [axiosGetWithRetry] retries a failed attempt exactly when its status
    is 429, or at least 500, or missing, and fewer than [retries] retries
    have been used.  With [k] the number of retries a run uses: [k] is at
    most [retries]; the run issues [k + 1] requests; each of the first [k]
    met a retryable failure; the run ends with what the last request met --
    its body, or its error thrown to the caller -- and that is a retryable
    failure only when [k = retries].  In particular any other status (a 4xx
    that is not 429) at the first attempt is thrown after that one request. *)
Theorem axiosGetWithRetry_policy
    (e : Endpoint) (retries : nat) (baseDelay : Z) (w : World) :
  let k := retriesUsed retries (network w) in
  let r := axiosGetWithRetry e retries baseDelay w in
  (forall st, shouldRetry st = true
              <-> st = Some 429%positive
                  \/ (exists s, st = Some s /\ (500 <= s)%positive)
                  \/ st = None)
  /\ (k <= retries)%nat
  /\ gets (trace r.2) = gets (trace w) ++ replicate (S k) e
  /\ (forall i, (i < k)%nat ->
        exists st, outcomeAt (network w) i = Failed st /\ shouldRetry st = true)
  /\ r.1 = resultOf (outcomeAt (network w) k)
  /\ (forall st, outcomeAt (network w) k = Failed st ->
                 shouldRetry st = true -> k = retries)
  /\ (forall s, outcomeAt (network w) 0 = Failed (Some s) ->
                (400 <= s < 500)%positive -> s <> 429%positive ->
                r.1 = Throw (AxiosError (Some s))
                /\ gets (trace r.2) = gets (trace w) ++ [e]).
Proof.
  intros k r.
  destruct (retryLoop_spec e retries baseDelay retries 0%nat w eq_refl)
    as (Hr & _ & _ & Hg).
  fold k in Hr, Hg. change (retryLoop _ _ _ _ _ _) with r in Hr, Hg.
  split; [apply shouldRetry_iff|].
  split; [apply retriesUsed_le|].
  split; [exact Hg|].
  split; [apply retriesUsed_earlier|].
  split; [exact Hr|].
  split; [apply retriesUsed_stop|].
  intros s E [Hlo Hhi] Hne.
  assert (R : shouldRetry (Some s) = false).
  { cbn [shouldRetry]. apply orb_false_iff. split.
    - apply Pos.eqb_neq; exact Hne.
    - apply Pos.leb_gt; exact Hhi. }
  assert (Hk : k = 0%nat).
  { subst k. destruct retries; simpl; [reflexivity|]. rewrite E, R. reflexivity. }
  rewrite Hk in Hr, Hg. rewrite Hr, Hg, E. auto.
Qed.

(** ** What the requests of the adapters leave behind *)

Section Effects.

Lemma axiosGetWithRetry_cache (e : Endpoint) (retries : nat) (baseDelay : Z)
    (w : World) :
  cache (axiosGetWithRetry e retries baseDelay w).2 = cache w.
Proof.
  destruct (retryLoop_spec e retries baseDelay retries 0%nat w eq_refl)
    as (_ & _ & Hc & _).
  exact Hc.
Qed.

Lemma axios_get_spec (e : Endpoint) (w : World) :
  (axios_get e w).1 = resultOf (outcomeAt (network w) 0)
  /\ trace (axios_get e w).2 = trace w ++ [Get e]
  /\ cache (axios_get e w).2 = cache w
  /\ lastCoinGeckoCall (axios_get e w).2 = lastCoinGeckoCall w.
Proof.
  unfold axios_get, outcomeAt; simpl.
  destruct (network w) as [|rep rest]; simpl; [auto|].
  destruct (outcome rep); simpl; auto.
Qed.

(** The detail request never throws; it leaves the cache as it was or adds
    the detail record under its key. *)
Lemma fetchDetail_spec (coinId : string) (w : World) :
  exists dd w',
    fetchDetail coinId w = (Ok dd, w')
    /\ (cache w' = cache w
        \/ exists d, cache w' = <[detailKey coinId := d]> (cache w)).
Proof.
  unfold fetchDetail, try_catch, bind.
  pose proof (axiosGetWithRetry_cache (CoinGeckoCoin coinId) 3 1000 w) as Hc.
  destruct (axiosGetWithRetry (CoinGeckoCoin coinId) 3 1000 w) as [[b|err] w1];
    simpl in Hc.
  - destruct b; simpl; rewrite <- Hc; eauto 6.
  - simpl. eauto.
Qed.

Lemma lookupDetail_spec (coinId : string) (w : World) :
  exists dd w',
    lookupDetail coinId w = (Ok dd, w')
    /\ (cache w' = cache w
        \/ exists d, cache w' = <[detailKey coinId := d]> (cache w)).
Proof.
  unfold lookupDetail.
  destruct (if isCacheValid (detailKey coinId) DETAIL_TTL w
            then cache w !! detailKey coinId else None) as [d|].
  - eauto.
  - apply fetchDetail_spec.
Qed.

(** The quote request never throws, touches neither the cache nor the
    limiter, and is one request. *)
Lemma fetchQuote_spec (sym : string) (data : Obj) (w : World) :
  exists data' w',
    fetchQuote sym data w = (Ok data', w')
    /\ (data' = data \/ exists q, data' = applyQuote data q)
    /\ trace w' = trace w ++ [Get (YahooQuote sym)]
    /\ cache w' = cache w
    /\ lastCoinGeckoCall w' = lastCoinGeckoCall w.
Proof.
  unfold fetchQuote, try_catch, bind.
  destruct (axios_get_spec (YahooQuote sym) w) as (_ & Ht & Hc & Hl).
  destruct (axios_get (YahooQuote sym) w) as [[b|err] w1]; simpl in *.
  - destruct b as [| | | |[q|]]; simpl; eauto 10.
  - eauto 10.
Qed.

End Effects.

(** ** The two outer [try] blocks, case by case *)

Section TryBlocks.

(** [fetchCryptoTry] throws when the chart request does, or when its
    response has no data, and then the cache is as it was; otherwise it
    returns the record built from the chart and the detail data. *)
Lemma fetchCryptoTry_cases (sym coinId : string) (days : Z) (w : World) :
  let r1 := axiosGetWithRetry (CoinGeckoMarketChart coinId days) 3 1000 w in
  (exists err, fetchCryptoTry sym coinId days w = (Throw err, r1.2)
               /\ (r1.1 = Throw err \/ r1.1 = Ok BodyNull))
  \/ (exists b pairs dd w2,
        r1.1 = Ok b
        /\ prices_of_body b r1.2 = (Ok pairs, r1.2)
        /\ lookupDetail coinId r1.2 = (Ok dd, w2)
        /\ let sp := foldl (pushPair (now r1.2)) ([], []) pairs in
           let result := cryptoResult sym dd (seedZero sp.2) sp.1 (now w2) in
           fetchCryptoTry sym coinId days w
           = (Ok result, (cache_set (cryptoKey sym days) result w2).2)).
Proof.
  intros r1. subst r1. unfold fetchCryptoTry, bind. cbn beta.
  destruct (axiosGetWithRetry (CoinGeckoMarketChart coinId days) 3 1000 w)
    as [[b|err] w1]; simpl fst; simpl snd; [|left; eauto].
  assert (Hb : b = BodyNull
               \/ exists pairs, prices_of_body b = ret pairs).
  { destruct b; simpl; eauto. }
  destruct Hb as [->|[pairs Hp]].
  - left. exists TypeError. split; [reflexivity | auto].
  - right. exists b, pairs.
    destruct (lookupDetail_spec coinId w1) as (dd & w2 & Hd & _).
    exists dd, w2. rewrite Hp. split; [reflexivity|].
    split; [reflexivity|]. split; [exact Hd|].
    unfold ret, Date_now.
    destruct (foldl (pushPair (now w1)) ([], []) pairs) as [stamps prices].
    rewrite Hd. reflexivity.
Qed.

(** [fetchStockTry] throws when the chart request does, or when its response
    has no [chart.result[0]]; otherwise it returns the record built from the
    chart, with the quote's fields when there is a quote. *)
Lemma fetchStockTry_cases (sym : string) (days : Z) (w : World) :
  let req := YahooChart sym (rangeInterval days).2 (rangeInterval days).1 in
  let r1 := axios_get req w in
  (exists err, fetchStockTry sym days w = (Throw err, r1.2)
               /\ (r1.1 = Throw err
                   \/ exists b, r1.1 = Ok b
                                /\ forall res, b <> BodyYahooChart (Some res)))
  \/ (exists res data w2,
        r1.1 = Ok (BodyYahooChart (Some res))
        /\ fetchQuote sym (stockData sym res (now r1.2)) r1.2 = (Ok data, w2)
        /\ (data = stockData sym res (now r1.2)
            \/ exists q, data = applyQuote (stockData sym res (now r1.2)) q)
        /\ fetchStockTry sym days w
           = (Ok data, (cache_set (stockKey sym days) data w2).2)).
Proof.
  intros req r1. subst req r1. unfold fetchStockTry.
  destruct (rangeInterval days) as [range interval]; simpl fst; simpl snd.
  unfold bind. cbn beta.
  destruct (axios_get (YahooChart sym interval range) w) as [[b|err] w1];
    simpl fst; simpl snd; [|left; eauto].
  assert (Hb : (exists res, b = BodyYahooChart (Some res))
               \/ (result_of_body b = throw TypeError
                   /\ forall res, b <> BodyYahooChart (Some res))).
  { destruct b as [| | |[res|]|]; simpl; eauto; right; split; congruence. }
  destruct Hb as [[res ->]|[Hb Hne]].
  - right. exists res.
    destruct (fetchQuote_spec sym (stockData sym res (now w1)) w1)
      as (data & w2 & Hq & Hdata & _).
    exists data, w2. split; [reflexivity|]. split; [exact Hq|].
    split; [exact Hdata|].
    unfold result_of_body, ret, Date_now. cbv beta iota zeta.
    rewrite Hq. reflexivity.
  - left. exists TypeError. rewrite Hb. split; [reflexivity|]. right. eauto.
Qed.

End TryBlocks.

(** ** Failure of an adapter *)

Section Fallback.

Lemma fetchCryptoTry_throw_cache (sym coinId : string) (days : Z)
    (w w' : World) (err : Err) :
  fetchCryptoTry sym coinId days w = (Throw err, w') -> cache w' = cache w.
Proof.
  intros H.
  destruct (fetchCryptoTry_cases sym coinId days w)
    as [(err' & E & _)|(b & pairs & dd & w2 & _ & _ & _ & E)];
    rewrite E in H; [|discriminate].
  injection H as _ <-. apply axiosGetWithRetry_cache.
Qed.

Lemma fetchStockTry_throw_cache (sym : string) (days : Z)
    (w w' : World) (err : Err) :
  fetchStockTry sym days w = (Throw err, w') -> cache w' = cache w.
Proof.
  intros H.
  destruct (fetchStockTry_cases sym days w)
    as [(err' & E & _)|(res & data & w2 & _ & _ & _ & E)];
    rewrite E in H; [|discriminate].
  injection H as _ <-. apply axios_get_spec.
Qed.

End Fallback.

(** C2 (amended). When the [try] block of an adapter throws, the adapter
    returns instead of throwing.  If the cache holds a record under the
    asset's key, the result is that record with [error = true] and
    [fromCache = true]; otherwise it is the placeholder, with [price = 0],
    [error = true] and no [fromCache] field at all. *)
Theorem adapters_fall_back (w : World) (sym : string) (days : Z) :
  (forall coinId err w',
      isCacheValid (cryptoKey sym days) CACHE_TTL w = false ->
      fetchCryptoTry sym coinId days w = (Throw err, w') ->
      let a := (fetchCryptoData sym coinId days w).1 in
      match cache w !! cryptoKey sym days with
      | Some cached =>
          a = spreadStale cached /\ error a = Some true /\ fromCache a = Some true
      | None =>
          a = cryptoPlaceholder sym
          /\ price a = Some 0%Qc /\ error a = Some true /\ fromCache a = None
      end)
  /\ (forall err w',
      isCacheValid (stockKey sym days) CACHE_TTL w = false ->
      fetchStockTry sym days w = (Throw err, w') ->
      let a := (fetchStockData sym days w).1 in
      match cache w !! stockKey sym days with
      | Some cached =>
          a = spreadStale cached /\ error a = Some true /\ fromCache a = Some true
      | None =>
          a = stockPlaceholder sym
          /\ price a = Some 0%Qc /\ error a = Some true /\ fromCache a = None
      end).
Proof.
  split.
  - intros coinId err w' Hv Ht a. subst a. unfold fetchCryptoData.
    rewrite Hv, Ht. cbn [fst]. unfold fallback.
    rewrite (fetchCryptoTry_throw_cache _ _ _ _ _ _ Ht).
    destruct (cache w !! cryptoKey sym days); repeat split.
  - intros err w' Hv Ht a. subst a. unfold fetchStockData.
    rewrite Hv, Ht. cbn [fst]. unfold fallback.
    rewrite (fetchStockTry_throw_cache _ _ _ _ _ Ht).
    destruct (cache w !! stockKey sym days); repeat split.
Qed.

(** The scenario of the specification: the request fails, nothing is
    cached. *)
Lemma adapters_fall_back_offline :
  (let a := (fetchCryptoData "BTC" "bitcoin" 7 world_offline).1 in
   a = cryptoPlaceholder "BTC"
   /\ price a = Some 0%Qc /\ error a = Some true /\ fromCache a = None)
  /\ (let a := (fetchStockData "AAPL" 30 world_offline).1 in
      a = stockPlaceholder "AAPL"
      /\ price a = Some 0%Qc /\ error a = Some true /\ fromCache a = None).
Proof.
  split.
  - apply (proj1 (adapters_fall_back world_offline "BTC" 7) "bitcoin"
             (AxiosError None)
             (fetchCryptoTry "BTC" "bitcoin" 7 world_offline).2);
      vm_compute; reflexivity.
  - apply (proj2 (adapters_fall_back world_offline "AAPL" 30)
             (AxiosError None)
             (fetchStockTry "AAPL" 30 world_offline).2);
      vm_compute; reflexivity.
Defined.

(** The specification's scenario expects [fromCache = false] on the
    placeholder; the placeholder has no such field. *)
Lemma placeholder_fromCache_is_not_false :
  isCacheValid (stockKey "AAPL" 30) CACHE_TTL world_offline = false
  /\ (fetchStockTry "AAPL" 30 world_offline).1 = Throw (AxiosError None)
  /\ cache world_offline !! stockKey "AAPL" 30 = None
  /\ fromCache (fetchStockData "AAPL" 30 world_offline).1 <> Some false.
Proof. repeat split; vm_compute; discriminate. Qed.

(** ** Invariants of the asset records *)

Section Invariants.

Lemma pushPair_lengths (t : Z) (pairs : list (JsVal * JsVal))
    (acc : list JsVal * list Qc) :
  length acc.1 = length acc.2 ->
  length (foldl (pushPair t) acc pairs).1 = length (foldl (pushPair t) acc pairs).2.
Proof.
  revert acc; induction pairs as [|p pairs IH]; intros acc H; simpl; [exact H|].
  apply IH. unfold pushPair. destruct (validSample p.2); [|exact H].
  simpl. rewrite !length_app, H. reflexivity.
Qed.

Lemma pushClose_lengths (rawCloses rawTimestamps : list JsVal) (t : Z)
    (idx : list nat) (acc : list Qc * list JsVal) :
  length acc.2 = length acc.1 ->
  length (foldl (pushClose rawCloses rawTimestamps t) acc idx).2
  = length (foldl (pushClose rawCloses rawTimestamps t) acc idx).1.
Proof.
  revert acc; induction idx as [|i idx IH]; intros acc H; simpl; [exact H|].
  apply IH. unfold pushClose.
  destruct (validSample (nullish (rawCloses !! i) JUndefined)); [|exact H].
  simpl. rewrite !length_app, H. reflexivity.
Qed.

(** A record whose history is the seeded list of samples and whose
    timestamps were pushed along with the samples. *)
Lemma asset_ok_seeded (a : Obj) (stamps : list JsVal) (samples : list Qc) :
  history a = Some (seedZero samples) ->
  timestamps a = Some stamps ->
  length stamps = length samples ->
  asset_ok a.
Proof.
  intros Hh Ht Hlen. exists (seedZero samples). split; [exact Hh|].
  unfold seedZero. destruct samples as [|x samples]; simpl.
  - split; [lia|]. intros ts Hts Hne. rewrite Ht in Hts. injection Hts as <-.
    destruct stamps; [congruence | discriminate].
  - split; [lia|]. intros ts Hts _. rewrite Ht in Hts. injection Hts as <-.
    exact Hlen.
Qed.

Lemma asset_ok_cryptoResult (sym : string) (dd : option Obj)
    (pairs : list (JsVal * JsVal)) (t t' : Z) :
  let sp := foldl (pushPair t) ([], []) pairs in
  asset_ok (cryptoResult sym dd (seedZero sp.2) sp.1 t').
Proof.
  intros sp. apply (asset_ok_seeded _ sp.1 sp.2); [reflexivity..|].
  apply pushPair_lengths. reflexivity.
Qed.

Lemma asset_ok_stockData (sym : string) (res : ChartResult.t) (t : Z) :
  asset_ok (stockData sym res t).
Proof.
  unfold stockData.
  pose proof (pushClose_lengths (nullish (ChartResult.close res) [])
                (nullish (ChartResult.timestamp res) []) t
                (seq 0 (length (nullish (ChartResult.close res) [])))
                ([], []) eq_refl) as Hlen.
  destruct (foldl _ _ _) as [closePrices stamps]. simpl in Hlen.
  apply (asset_ok_seeded _ stamps closePrices); [reflexivity..|exact Hlen].
Qed.

Lemma asset_ok_applyQuote (data : Obj) (q : QuoteData.t) :
  asset_ok data -> asset_ok (applyQuote data q).
Proof. intros H; exact H. Qed.

Lemma asset_ok_spreadFromCache (o : Obj) : asset_ok o -> asset_ok (spreadFromCache o).
Proof. intros H; exact H. Qed.

Lemma asset_ok_spreadStale (o : Obj) : asset_ok o -> asset_ok (spreadStale o).
Proof. intros H; exact H. Qed.

Lemma asset_ok_placeholders (sym : string) :
  asset_ok (cryptoPlaceholder sym) /\ asset_ok (stockPlaceholder sym).
Proof.
  split; exists [0%Qc]; (split; [reflexivity|]); (split; [simpl; lia|]);
    intros ts H; discriminate.
Qed.

Lemma isDetailKey_cryptoKey (sym : string) (days : Z) :
  isDetailKey (cryptoKey sym days) = false.
Proof. reflexivity. Qed.

Lemma isDetailKey_stockKey (sym : string) (days : Z) :
  isDetailKey (stockKey sym days) = false.
Proof. reflexivity. Qed.

Lemma isDetailKey_detailKey (coinId : string) :
  isDetailKey (detailKey coinId) = true.
Proof. unfold isDetailKey, detailKey. simpl. destruct coinId; reflexivity. Qed.

Lemma cache_ok_same (w w' : World) :
  cache w' = cache w -> cache_ok w -> cache_ok w'.
Proof. unfold cache_ok. intros ->. auto. Qed.

Lemma cache_ok_detail (w w' : World) (coinId : string) (d : Obj) :
  cache w' = <[detailKey coinId := d]> (cache w) -> cache_ok w -> cache_ok w'.
Proof.
  unfold cache_ok. intros -> H key o Hk Hd.
  destruct (decide (key = detailKey coinId)) as [->|Hne].
  - rewrite isDetailKey_detailKey in Hd. discriminate.
  - rewrite lookup_insert_ne in Hk by congruence. eauto.
Qed.

Lemma cache_ok_set (w : World) (key : string) (a : Obj) :
  asset_ok a -> cache_ok w -> cache_ok (cache_set key a w).2.
Proof.
  unfold cache_ok. simpl. intros Ha H k o Hk Hd.
  destruct (decide (k = key)) as [->|Hne].
  - rewrite lookup_insert_eq in Hk. injection Hk as <-. exact Ha.
  - rewrite lookup_insert_ne in Hk by congruence. eauto.
Qed.

Lemma isCacheValid_lookup (key : string) (ttl : Z) (w : World) :
  isCacheValid key ttl w = true -> exists o, cache w !! key = Some o.
Proof.
  unfold isCacheValid. destruct (cache w !! key); [eauto | discriminate].
Qed.

Lemma fetchCryptoData_ok (sym coinId : string) (days : Z) (w : World) :
  cache_ok w ->
  asset_ok (fetchCryptoData sym coinId days w).1
  /\ cache_ok (fetchCryptoData sym coinId days w).2.
Proof.
  intros Hw. unfold fetchCryptoData.
  destruct (isCacheValid (cryptoKey sym days) CACHE_TTL w) eqn:Hv.
  - destruct (isCacheValid_lookup _ _ _ Hv) as [o Ho]. rewrite Ho. simpl.
    split; [|exact Hw]. apply asset_ok_spreadFromCache.
    exact (Hw _ _ Ho (isDetailKey_cryptoKey sym days)).
  - pose proof (axiosGetWithRetry_cache
                  (CoinGeckoMarketChart coinId days) 3 1000 w) as Hc.
    destruct (fetchCryptoTry_cases sym coinId days w)
      as [(err & -> & _)|(b & pairs & dd & w2 & _ & _ & Hd & ->)].
    + cbn [fst snd]. pose proof (cache_ok_same _ _ Hc Hw) as Hw1.
      split; [|exact Hw1]. unfold fallback.
      destruct (cache _ !! cryptoKey sym days) as [o|] eqn:Ho.
      * apply asset_ok_spreadStale.
        exact (Hw1 _ _ Ho (isDetailKey_cryptoKey sym days)).
      * apply asset_ok_placeholders.
    + cbn [fst snd].
      assert (Hw2 : cache_ok w2).
      { destruct (lookupDetail_spec coinId
                    (axiosGetWithRetry (CoinGeckoMarketChart coinId days) 3 1000 w).2)
          as (dd' & w2' & Hd' & Hcache).
        rewrite Hd in Hd'. injection Hd' as _ <-.
        pose proof (cache_ok_same _ _ Hc Hw) as Hw1.
        destruct Hcache as [E|[d E]];
          [exact (cache_ok_same _ _ E Hw1) | exact (cache_ok_detail _ _ _ _ E Hw1)]. }
      split; [apply asset_ok_cryptoResult|].
      apply cache_ok_set; [apply asset_ok_cryptoResult | exact Hw2].
Qed.

Lemma fetchStockData_ok (sym : string) (days : Z) (w : World) :
  cache_ok w ->
  asset_ok (fetchStockData sym days w).1
  /\ cache_ok (fetchStockData sym days w).2.
Proof.
  intros Hw. unfold fetchStockData.
  destruct (isCacheValid (stockKey sym days) CACHE_TTL w) eqn:Hv.
  - destruct (isCacheValid_lookup _ _ _ Hv) as [o Ho]. rewrite Ho. simpl.
    split; [|exact Hw]. apply asset_ok_spreadFromCache.
    exact (Hw _ _ Ho (isDetailKey_stockKey sym days)).
  - destruct (axios_get_spec
                (YahooChart sym (rangeInterval days).2 (rangeInterval days).1) w)
      as (_ & _ & Hc & _).
    destruct (fetchStockTry_cases sym days w)
      as [(err & -> & _)|(res & data & w2 & _ & Hq & Hdata & ->)].
    + cbn [fst snd]. pose proof (cache_ok_same _ _ Hc Hw) as Hw1.
      split; [|exact Hw1]. unfold fallback.
      destruct (cache _ !! stockKey sym days) as [o|] eqn:Ho.
      * apply asset_ok_spreadStale.
        exact (Hw1 _ _ Ho (isDetailKey_stockKey sym days)).
      * apply asset_ok_placeholders.
    + cbn [fst snd].
      assert (Hdok : asset_ok data).
      { destruct Hdata as [->|[q ->]];
          [|apply asset_ok_applyQuote]; apply asset_ok_stockData. }
      assert (Hw2 : cache_ok w2).
      { destruct (fetchQuote_spec sym (stockData sym res
                    (now (axios_get (YahooChart sym (rangeInterval days).2
                                       (rangeInterval days).1) w).2))
                    (axios_get (YahooChart sym (rangeInterval days).2
                                  (rangeInterval days).1) w).2)
          as (data' & w2' & Hq' & _ & _ & Hc2 & _).
        rewrite Hq in Hq'. injection Hq' as _ <-.
        apply (cache_ok_same _ _ Hc2). exact (cache_ok_same _ _ Hc Hw). }
      split; [exact Hdok|]. apply cache_ok_set; assumption.
Qed.

End Invariants.

(** ** Aggregator *)

Section Aggregator.

Variable cryptoIds : gmap string string.
Variable days : Z.

Lemma fetchOne_eq (results : list Obj) (w : World) (ticker : string) :
  fetchOne cryptoIds days (results, w) ticker
  = (results ++ [(dispatch cryptoIds days ticker w).1],
     (dispatch cryptoIds days ticker w).2).
Proof.
  unfold fetchOne, dispatch.
  destruct (truthyId (coinIdOf cryptoIds ticker)).
  - destruct (fetchCryptoData _ _ _ _); reflexivity.
  - destruct (fetchStockData _ _ _); reflexivity.
Qed.

Lemma fetchAll_acc (tickers : list string) :
  forall (acc : list Obj) (w : World),
    foldl (fetchOne cryptoIds days) (acc, w) tickers
    = (acc ++ (fetchAllAssets tickers cryptoIds days w).1,
       (fetchAllAssets tickers cryptoIds days w).2).
Proof.
  induction tickers as [|t ts IH]; intros acc w.
  - simpl. rewrite app_nil_r. reflexivity.
  - unfold fetchAllAssets. cbn [foldl]. rewrite !fetchOne_eq, !IH.
    simpl. rewrite <- app_assoc. reflexivity.
Qed.

Lemma fetchAll_cons (t : string) (ts : list string) (w : World) :
  fetchAllAssets (t :: ts) cryptoIds days w
  = ((dispatch cryptoIds days t w).1
       :: (fetchAllAssets ts cryptoIds days (dispatch cryptoIds days t w).2).1,
     (fetchAllAssets ts cryptoIds days (dispatch cryptoIds days t w).2).2).
Proof.
  unfold fetchAllAssets at 1. cbn [foldl]. rewrite fetchOne_eq, fetchAll_acc.
  reflexivity.
Qed.

Lemma fetchAll_app (l1 l2 : list string) (w : World) :
  fetchAllAssets (l1 ++ l2) cryptoIds days w
  = ((fetchAllAssets l1 cryptoIds days w).1
       ++ (fetchAllAssets l2 cryptoIds days (fetchAllAssets l1 cryptoIds days w).2).1,
     (fetchAllAssets l2 cryptoIds days (fetchAllAssets l1 cryptoIds days w).2).2).
Proof.
  unfold fetchAllAssets at 1. rewrite foldl_app.
  fold (fetchAllAssets l1 cryptoIds days w).
  destruct (fetchAllAssets l1 cryptoIds days w) as [r1 w1]. apply fetchAll_acc.
Qed.

Lemma fetchAll_length (tickers : list string) (w : World) :
  length (fetchAllAssets tickers cryptoIds days w).1 = length tickers.
Proof.
  revert w; induction tickers as [|t ts IH]; intros w; [reflexivity|].
  rewrite fetchAll_cons. simpl. rewrite IH. reflexivity.
Qed.

Lemma fetchAll_lookup (tickers : list string) (w : World) (i : nat) (t : string) :
  tickers !! i = Some t ->
  (fetchAllAssets tickers cryptoIds days w).1 !! i
  = Some (dispatch cryptoIds days t
            (fetchAllAssets (take i tickers) cryptoIds days w).2).1.
Proof.
  intros Hi.
  rewrite <- (take_drop_middle tickers i t Hi) at 1.
  rewrite fetchAll_app. cbn [fst].
  assert (Hlen : length (fetchAllAssets (take i tickers) cryptoIds days w).1 = i).
  { rewrite fetchAll_length, length_take. apply lookup_lt_Some in Hi. lia. }
  rewrite lookup_app_r by lia. rewrite Hlen, Nat.sub_diag.
  rewrite fetchAll_cons. reflexivity.
Qed.

Lemma dispatch_ok (t : string) (w : World) :
  cache_ok w ->
  asset_ok (dispatch cryptoIds days t w).1
  /\ cache_ok (dispatch cryptoIds days t w).2.
Proof.
  intros Hw. unfold dispatch. destruct (truthyId (coinIdOf cryptoIds t)).
  - apply fetchCryptoData_ok, Hw.
  - apply fetchStockData_ok, Hw.
Qed.

Lemma fetchAll_ok (tickers : list string) (w : World) :
  cache_ok w ->
  Forall asset_ok (fetchAllAssets tickers cryptoIds days w).1
  /\ cache_ok (fetchAllAssets tickers cryptoIds days w).2.
Proof.
  revert w; induction tickers as [|t ts IH]; intros w Hw.
  - split; [constructor | exact Hw].
  - rewrite fetchAll_cons. cbn [fst snd].
    destruct (dispatch_ok t w Hw) as [Ha Hw1].
    destruct (IH _ Hw1) as [Hall Hw2].
    split; [constructor; assumption | exact Hw2].
Qed.

End Aggregator.

(** A ticker that has no entry of its own but is the name of a property
    every object inherits -- [constructor], [toString], ... -- reads that
    property, which is truthy, and goes to the crypto adapter with it. *)
Lemma fetchAll_inherited
    (tickers : list string) (cryptoIds : gmap string string) (days : Z)
    (w : World) (i : nat) (ticker : string) :
  tickers !! i = Some ticker ->
  cryptoIds !! ticker = None ->
  ticker ∈ Object_prototype ->
  (fetchAllAssets tickers cryptoIds days w).1 !! i
  = Some (fetchCryptoData ticker (inheritedText ticker) days
            (fetchAllAssets (take i tickers) cryptoIds days w).2).1.
Proof.
  intros Hi Hid Hin. rewrite (fetchAll_lookup _ _ _ _ _ _ Hi).
  unfold dispatch, coinIdOf. rewrite Hid, (bool_decide_eq_true_2 _ Hin).
  assert (Hne : inheritedText ticker <> EmptyString).
  { unfold inheritedText. repeat case_bool_decide; discriminate. }
  cbn [truthyId nullish]. rewrite (bool_decide_eq_false_2 _ Hne). reflexivity.
Qed.

Example fetchAll_constructor :
  gets (trace (fetchAllAssets ["constructor"] ∅ 7 world_offline).2)
  = replicate 4 (CoinGeckoMarketChart "function Object() { [native code] }" 7).
Proof. reflexivity. Qed.

(** C1 (amended). [fetchAllAssets] returns one record per input ticker, in
    the order of the input.  The record at position [i] is what the crypto
    adapter returns for the [i]-th ticker and its id when [cryptoIds] maps
    the ticker to an id that is not the empty string, and what the equity
    adapter returns when the entry is the empty string, or when there is no
    entry and the ticker is not the name of a property that every object
    inherits; either adapter is called in the world the earlier tickers left
    behind.  Adapters return a record in every case, so no ticker is left
    out. *)
Theorem fetchAllAssets_spec
    (tickers : list string) (cryptoIds : gmap string string) (days : Z)
    (w : World) :
  let results := (fetchAllAssets tickers cryptoIds days w).1 in
  length results = length tickers
  /\ forall (i : nat) (ticker : string),
       tickers !! i = Some ticker ->
       let wi := (fetchAllAssets (take i tickers) cryptoIds days w).2 in
       (forall coinId,
           cryptoIds !! ticker = Some coinId -> coinId <> EmptyString ->
           results !! i = Some (fetchCryptoData ticker coinId days wi).1)
       /\ (cryptoIds !! ticker = Some EmptyString
           \/ (cryptoIds !! ticker = None /\ ticker ∉ Object_prototype) ->
           results !! i = Some (fetchStockData ticker days wi).1).
Proof.
  intros results. subst results. split; [apply fetchAll_length|].
  intros i ticker Hi wi. subst wi.
  rewrite (fetchAll_lookup _ _ _ _ _ _ Hi). unfold dispatch, coinIdOf. split.
  - intros coinId Hid Hne. rewrite Hid. simpl.
    rewrite bool_decide_eq_false_2 by exact Hne. reflexivity.
  - intros [Hid|[Hid Hnot]]; rewrite Hid; [reflexivity|].
    rewrite (bool_decide_eq_false_2 _ Hnot). reflexivity.
Qed.

(** The specification sends every ticker with an entry in the id map to
    the crypto adapter.  An entry that is the empty string goes to the
    equity adapter. *)
Lemma fetchAllAssets_empty_id_is_equity :
  let cryptoIds : gmap string string := {[ "DOGE" := EmptyString ]} in
  let r := fetchAllAssets ["DOGE"] cryptoIds 7 world_429_then_chart in
  cryptoIds !! "DOGE" = Some EmptyString
  /\ r.1 = [(fetchStockData "DOGE" 7 world_429_then_chart).1]
  /\ r.1 <> [(fetchCryptoData "DOGE" EmptyString 7 world_429_then_chart).1]
  /\ gets (trace r.2) = [YahooChart "DOGE" "1d" "7d"].
Proof.
  repeat split.
  intros H. apply (f_equal (fun l => head l ≫= error)) in H.
  vm_compute in H. discriminate.
Qed.

(** C9. If every asset record in the cache has a history of at least one
    sample and, when it has timestamps, as many timestamps as samples --
    as in the empty cache -- then so has every record an adapter returns,
    be it fresh, cached or the placeholder, the cache the adapter leaves
    behind is again such a cache, and so has every record of a run of
    [fetchAllAssets].  When no sample passes the filter the history of a
    fresh record is the single sample [0], and it has no timestamps. *)
Theorem adapters_keep_invariants (w : World) :
  cache_ok w ->
  (forall sym coinId days,
      asset_ok (fetchCryptoData sym coinId days w).1
      /\ cache_ok (fetchCryptoData sym coinId days w).2)
  /\ (forall sym days,
      asset_ok (fetchStockData sym days w).1
      /\ cache_ok (fetchStockData sym days w).2)
  /\ (forall tickers cryptoIds days,
      Forall asset_ok (fetchAllAssets tickers cryptoIds days w).1)
  /\ (forall sym detailData t t' pairs,
      (foldl (pushPair t) ([], []) pairs).2 = [] ->
      let sp := foldl (pushPair t) ([], []) pairs in
      history (cryptoResult sym detailData (seedZero sp.2) sp.1 t') = Some [0%Qc]
      /\ timestamps (cryptoResult sym detailData (seedZero sp.2) sp.1 t') = Some []).
Proof.
  intros Hw. split; [|split; [|split]].
  - intros; apply fetchCryptoData_ok, Hw.
  - intros; apply fetchStockData_ok, Hw.
  - intros; apply fetchAll_ok, Hw.
  - intros sym detailData t t' pairs Hnone sp.
    pose proof (pushPair_lengths t pairs ([], []) eq_refl) as Hlen.
    fold sp in Hlen. subst sp. rewrite Hnone in Hlen |- *.
    cbn [history timestamps cryptoResult]. split; [reflexivity|].
    destruct (foldl (pushPair t) ([], []) pairs).1; [reflexivity | discriminate].
Qed.

(** C8. [isCacheValid] is false when the key is absent and when the stored
    entry has no timestamp (for the source, a timestamp of [0] is none).
    For an entry stored at [storedAt] -- not [0], or with a clock that has
    run for at least [ttl] -- it is true exactly when
    [now - storedAt < ttl], and false exactly when [now - storedAt >= ttl]. *)
Theorem isCacheValid_spec (w : World) (key : string) (ttl : Z) :
  (cache w !! key = None -> isCacheValid key ttl w = false)
  /\ (forall entry,
        cache w !! key = Some entry ->
        timestamp entry = None \/ timestamp entry = Some 0 ->
        isCacheValid key ttl w = false)
  /\ (forall entry storedAt,
        cache w !! key = Some entry ->
        timestamp entry = Some storedAt ->
        storedAt <> 0 \/ ttl <= now w ->
        (isCacheValid key ttl w = true <-> now w - storedAt < ttl)
        /\ (isCacheValid key ttl w = false <-> ttl <= now w - storedAt)).
Proof.
  unfold isCacheValid. split; [|split].
  - intros ->. reflexivity.
  - intros entry -> [->| ->]; reflexivity.
  - intros entry storedAt -> -> Hts. unfold truthyZ.
    destruct (Z.eqb_spec storedAt 0) as [->|Hne]; simpl.
    + destruct Hts as [?|?]; [congruence|]. split; split; [discriminate|lia|lia|auto].
    + rewrite Z.ltb_lt, Z.ltb_ge. split; reflexivity.
Qed.

(** The scenario of the specification: [crypto-BTC-7] stored 90 s ago is not
    valid for a TTL of 60 s. *)
Lemma isCacheValid_spec_90s :
  exists entry,
    cache world_stored_90s_ago !! cryptoKey "BTC" 7 = Some entry
    /\ timestamp entry = Some (now world_stored_90s_ago - 90000)
    /\ CACHE_TTL = 60000
    /\ isCacheValid (cryptoKey "BTC" 7) CACHE_TTL world_stored_90s_ago = false.
Proof.
  eexists. split; [reflexivity|]. split; [reflexivity|]. split; [reflexivity|].
  apply (proj2 (proj2 (isCacheValid_spec world_stored_90s_ago
                         (cryptoKey "BTC" 7) CACHE_TTL))
           _ (now world_stored_90s_ago - 90000) eq_refl eq_refl).
  - left. vm_compute. discriminate.
  - vm_compute. discriminate.
Defined.

(** ** Requests of the equity adapter *)

Section EquityRequests.

Variable sym : string.
Variable days : Z.

Local Abbreviation chart :=
  (YahooChart sym (rangeInterval days).2 (rangeInterval days).1).

(** Without a valid cache entry the adapter issues the chart request, then
    at most the quote request; it awaits no timer and leaves the limiter
    alone. *)
Lemma fetchStockData_trace (w : World) :
  isCacheValid (stockKey sym days) CACHE_TTL w = false ->
  (trace (fetchStockData sym days w).2 = trace w ++ [Get chart]
   \/ trace (fetchStockData sym days w).2
      = trace w ++ [Get chart; Get (YahooQuote sym)])
  /\ lastCoinGeckoCall (fetchStockData sym days w).2 = lastCoinGeckoCall w.
Proof.
  intros Hv. unfold fetchStockData. rewrite Hv.
  destruct (axios_get_spec chart w) as (_ & Ht & _ & Hl).
  destruct (fetchStockTry_cases sym days w)
    as [(err & -> & _)|(res & data & w2 & _ & Hq & _ & ->)]; cbn [fst snd].
  - auto.
  - destruct (fetchQuote_spec sym
                (stockData sym res (now (axios_get chart w).2))
                (axios_get chart w).2)
      as (data' & w2' & Hq' & _ & Ht2 & _ & Hl2).
    rewrite Hq in Hq'. injection Hq' as _ <-.
    simpl. rewrite Ht2, Ht, Hl2, Hl, <- app_assoc. auto.
Qed.

(** A chart request that fails, whatever its status, is not repeated: the
    adapter goes to its fallback. *)
Lemma fetchStockData_chart_failed (w : World) (st : option positive) :
  isCacheValid (stockKey sym days) CACHE_TTL w = false ->
  outcomeAt (network w) 0 = Failed st ->
  trace (fetchStockData sym days w).2 = trace w ++ [Get chart]
  /\ (fetchStockData sym days w).1
     = fallback (stockKey sym days) (stockPlaceholder sym) w.
Proof.
  intros Hv Hst. unfold fetchStockData. rewrite Hv.
  destruct (axios_get_spec chart w) as (Hr & Ht & Hc & _).
  rewrite Hst in Hr. simpl in Hr.
  destruct (fetchStockTry_cases sym days w)
    as [(err & -> & _)|(res & data & w2 & Hok & _)]; cbn [fst snd].
  - split; [exact Ht|]. unfold fallback. rewrite Hc. reflexivity.
  - rewrite Hr in Hok. discriminate.
Qed.

End EquityRequests.

(** C7. When [fetchStockData] goes to the provider, the first request it
    issues is the chart request with the [(range, interval)] pair of the
    policy: [days <= 1] gives (1d, 1h), [days <= 7] gives (7d, 1d),
    [days <= 30] gives (1mo, 1d), anything larger gives (3mo, 1d); 30 days
    give range 1mo and interval 1d. *)
Theorem fetchStockData_range_policy (w : World) (sym : string) (days : Z) :
  isCacheValid (stockKey sym days) CACHE_TTL w = false ->
  exists range interval rest,
    trace (fetchStockData sym days w).2
    = trace w ++ Get (YahooChart sym interval range) :: rest
    /\ (range, interval) = rangeInterval days
    /\ (days <= 1 -> (range, interval) = ("1d", "1h"))
    /\ (1 < days <= 7 -> (range, interval) = ("7d", "1d"))
    /\ (7 < days <= 30 -> (range, interval) = ("1mo", "1d"))
    /\ (30 < days -> (range, interval) = ("3mo", "1d"))
    /\ rangeInterval 30 = ("1mo", "1d").
Proof.
  intros Hv.
  destruct (fetchStockData_trace sym days w Hv) as [[Ht|Ht] _].
  all: exists (rangeInterval days).1, (rangeInterval days).2.
  all: eexists; split; [rewrite Ht; reflexivity|].
  all: split; [destruct (rangeInterval days); reflexivity|].
  all: unfold rangeInterval.
  all: destruct (Z.leb_spec days 1), (Z.leb_spec days 7), (Z.leb_spec days 30).
  all: simpl; repeat split; intros; try reflexivity; lia.
Qed.

(** The scenario of the specification: AAPL over 30 days. *)
Lemma fetchStockData_range_policy_AAPL_30 :
  isCacheValid (stockKey "AAPL" 30) CACHE_TTL world_yahoo = false
  /\ exists range interval rest,
       trace (fetchStockData "AAPL" 30 world_yahoo).2
       = trace world_yahoo ++ Get (YahooChart "AAPL" interval range) :: rest
       /\ (range, interval) = ("1mo", "1d").
Proof.
  split; [reflexivity|].
  destruct (fetchStockData_range_policy world_yahoo "AAPL" 30 eq_refl)
    as (range & interval & rest & Ht & _ & _ & _ & H30 & _).
  exists range, interval, rest. split; [exact Ht | apply H30; lia].
Defined.

(** C5 (amended). The equity adapter issues its requests directly: it never
    consults the rate limiter and awaits no timer, and a run issues nothing,
    or the chart request alone, or the chart request and then the quote
    request.  A chart request that fails -- with 429, with a 5xx, without a
    response, or otherwise -- is the only attempt: the adapter goes straight
    to its fallback and returns a record marked [error = true]. *)
Theorem fetchStockData_single_attempt (w : World) (sym : string) (days : Z) :
  let r := fetchStockData sym days w in
  let chart := YahooChart sym (rangeInterval days).2 (rangeInterval days).1 in
  lastCoinGeckoCall r.2 = lastCoinGeckoCall w
  /\ (trace r.2 = trace w
      \/ trace r.2 = trace w ++ [Get chart]
      \/ trace r.2 = trace w ++ [Get chart; Get (YahooQuote sym)])
  /\ (isCacheValid (stockKey sym days) CACHE_TTL w = false ->
      forall st, outcomeAt (network w) 0 = Failed st ->
        trace r.2 = trace w ++ [Get chart]
        /\ r.1 = fallback (stockKey sym days) (stockPlaceholder sym) w
        /\ error r.1 = Some true).
Proof.
  intros r chart. subst r chart.
  destruct (isCacheValid (stockKey sym days) CACHE_TTL w) eqn:Hv.
  - unfold fetchStockData. rewrite Hv. simpl. split; [reflexivity|].
    split; [left; reflexivity | discriminate].
  - destruct (fetchStockData_trace sym days w Hv) as [Ht Hl].
    split; [exact Hl|]. split; [destruct Ht; auto|].
    intros _ st Hst.
    destruct (fetchStockData_chart_failed sym days w st Hv Hst) as [Ht1 Hr].
    split; [exact Ht1|]. split; [exact Hr|].
    rewrite Hr. unfold fallback.
    destruct (cache w !! stockKey sym days); reflexivity.
Qed.

(** The chart request of the equity adapter meets a 429 and the provider
    would serve the chart at the next attempt; there is no next attempt. *)
Lemma fetchStockData_single_attempt_429 :
  isCacheValid (stockKey "AAPL" 30) CACHE_TTL world_429_then_yahoo = false
  /\ outcomeAt (network world_429_then_yahoo) 0 = Failed (Some 429%positive)
  /\ trace (fetchStockData "AAPL" 30 world_429_then_yahoo).2
     = [Get (YahooChart "AAPL" "1d" "1mo")]
  /\ (fetchStockData "AAPL" 30 world_429_then_yahoo).1 = stockPlaceholder "AAPL"
  /\ error (fetchStockData "AAPL" 30 world_429_then_yahoo).1 = Some true.
Proof.
  assert (Hv : isCacheValid (stockKey "AAPL" 30) CACHE_TTL world_429_then_yahoo
               = false) by reflexivity.
  assert (Hst : outcomeAt (network world_429_then_yahoo) 0
                = Failed (Some 429%positive)) by reflexivity.
  destruct (fetchStockData_single_attempt world_429_then_yahoo "AAPL" 30)
    as (_ & _ & H).
  destruct (H Hv _ Hst) as (Ht & Hr & He).
  split; [exact Hv|]. split; [exact Hst|].
  split; [exact Ht|]. split; [exact Hr | exact He].
Defined.

(** The specification has the equity chart request retried through the
    retrying fetcher, behind the rate limiter.  Here its first attempt meets
    a retryable 429 and the second would succeed: the adapter makes one
    request, without the limiter and without a timer, and returns the
    placeholder.  The crypto adapter, in the same situation, asks again. *)
Lemma equity_chart_is_not_retried :
  let r := fetchStockData "AAPL" 30 world_429_then_yahoo in
  outcomeAt (network world_429_then_yahoo) 0 = Failed (Some 429%positive)
  /\ shouldRetry (Some 429%positive) = true
  /\ outcomeAt (network world_429_then_yahoo) 1 = Responded yahoo_chart
  /\ gets (trace r.2) = [YahooChart "AAPL" "1d" "1mo"]
  /\ sleeps (trace r.2) = []
  /\ lastCoinGeckoCall r.2 = lastCoinGeckoCall world_429_then_yahoo
  /\ outcomeAt (network r.2) 0 = Responded yahoo_chart
  /\ error r.1 = Some true
  /\ take 2 (gets (trace (fetchCryptoData "BTC" "bitcoin" 7 world_429_then_chart).2))
     = [CoinGeckoMarketChart "bitcoin" 7; CoinGeckoMarketChart "bitcoin" 7]
  /\ error (fetchCryptoData "BTC" "bitcoin" 7 world_429_then_chart).1 = Some false.
Proof. repeat split. Qed.

(** ** Prices and changes *)

Section ChartSamples.

Lemma foldl_pushPair (t : Z) (pairs : list (JsVal * JsVal))
    (acc : list JsVal * list Qc) :
  foldl (pushPair t) acc pairs
  = (acc.1 ++ keptStamps t pairs, acc.2 ++ keptPrices pairs).
Proof.
  revert acc; induction pairs as [|p pairs IH]; intros [stamps prices].
  - simpl. rewrite !app_nil_r. reflexivity.
  - cbn [foldl]. rewrite IH. unfold pushPair, keptStamps, keptPrices.
    cbn [omap list_omap]. destruct (validSample p.2); simpl.
    + rewrite <- !app_assoc. reflexivity.
    + reflexivity.
Qed.

Lemma keptPrices_numbers (pairs : list (JsVal * JsVal)) :
  keptPrices pairs
  = omap (fun p : JsVal * JsVal =>
            match p.2 with JNum q => Some q | _ => None end) pairs.
Proof.
  unfold keptPrices. induction pairs as [|[ts v] pairs IH]; [reflexivity|].
  cbn [omap list_omap] in *. rewrite IH. destruct v; reflexivity.
Qed.

Lemma keptStamps_numbers (t : Z) (pairs : list (JsVal * JsVal)) :
  keptStamps t pairs
  = omap (fun p : JsVal * JsVal =>
            match p.2 with
            | JNum _ => Some (match p.1 with
                              | JNum _ | JNaN => p.1
                              | _ => JNum (num t)
                              end)
            | _ => None
            end) pairs.
Proof.
  unfold keptStamps. induction pairs as [|[ts v] pairs IH]; [reflexivity|].
  cbn [omap list_omap] in *. rewrite IH.
  destruct v; try reflexivity. destruct ts; reflexivity.
Qed.

Lemma seedZero_cases (xs : list Qc) :
  seedZero xs = if decide (xs = []) then [0%Qc] else xs.
Proof. destruct xs; reflexivity. Qed.

(** What the adapter reads as [chartResponse.data.prices || []]. *)
Lemma prices_of_body_cases (b : Body) (w w1 : World)
    (pairs : list (JsVal * JsVal)) :
  prices_of_body b w = (Ok pairs, w1) ->
  b <> BodyNull
  /\ pairs = match b with
             | BodyMarketChart c => nullish (MarketChart.prices c) []
             | _ => []
             end.
Proof.
  destruct b; simpl; unfold ret, throw; intros H; try discriminate;
    injection H as <- _; split; congruence.
Qed.

End ChartSamples.

Section Prices.

Lemma opt_or_zero (q : Qc) : opt_or (Some q) 0%Qc = q.
Proof. unfold opt_or, truthyQ. case_bool_decide; simpl; congruence. Qed.

Lemma Qclt_0_0 : ~ (0 < 0)%Qc.
Proof. intros H. vm_compute in H. discriminate. Qed.

(** With [first] the first sample: [first || cur] as the base of the change
    gives [(cur - first) / first * 100] when [first > 0] and [0] otherwise. *)
Lemma percentChange_first (cur first : Qc) :
  percentChange cur (opt_or (Some first) cur)
  = if bool_decide (0 < first)%Qc
    then ((cur - first) / first * num 100)%Qc
    else 0%Qc.
Proof.
  unfold opt_or, truthyQ.
  destruct (decide (first = 0%Qc)) as [->|Hne].
  - rewrite (bool_decide_eq_true_2 _ eq_refl). cbn [negb].
    case_bool_decide as H0; [destruct (Qclt_0_0 H0)|].
    unfold percentChange. case_bool_decide; [|reflexivity].
    unfold Qcdiv. ring.
  - rewrite (bool_decide_eq_false_2 _ Hne). reflexivity.
Qed.

Lemma cryptoResult_price_change (sym : string) (dd : option Obj)
    (prices : list Qc) (stamps : list JsVal) (t : Z) (first lst : Qc) :
  prices !! 0%nat = Some first ->
  last prices = Some lst ->
  let cur := match dd ≫= currentPrice with Some c => c | None => lst end in
  price (cryptoResult sym dd prices stamps t) = Some cur
  /\ change (cryptoResult sym dd prices stamps t)
     = Some (if bool_decide (0 < first)%Qc
             then ((cur - first) / first * num 100)%Qc
             else 0%Qc).
Proof.
  intros Hfirst Hlast cur.
  assert (Hcur : opt_or (match dd ≫= currentPrice with
                         | Some c => Some c
                         | None => prices !! (length prices - 1)%nat
                         end) 0%Qc = cur).
  { subst cur. rewrite Nat.sub_1_r, <- last_lookup, Hlast.
    destruct (dd ≫= currentPrice); apply opt_or_zero. }
  unfold cryptoResult. cbn [price change]. rewrite Hcur, Hfirst.
  split; [reflexivity|]. f_equal. apply percentChange_first.
Qed.

Lemma seedZero_first_last (xs : list Qc) :
  exists first lst, seedZero xs !! 0%nat = Some first /\ last (seedZero xs) = Some lst.
Proof.
  unfold seedZero. destruct xs as [|x xs]; simpl; [eauto|].
  exists x. destruct (last (x :: xs)) as [l|] eqn:E; [eauto|].
  apply last_None in E. discriminate.
Qed.

End Prices.

Section DetailPrice.

(** What the detail request yields: the record made of the payload of its
    reply, when there is one. *)
Lemma fetchDetail_result (coinId : string) (w : World) :
  let r2 := axiosGetWithRetry (CoinGeckoCoin coinId) 3 1000 w in
  (fetchDetail coinId w).1
  = Ok (match r2.1 with
        | Ok (BodyCoin c) => Some (detailOf c (now r2.2))
        | Ok BodyNull => None
        | Ok _ => Some (detailOf {| Coin.market_data := None;
                                    Coin.market_cap_rank := JUndefined |}
                          (now r2.2))
        | Throw _ => None
        end).
Proof.
  unfold fetchDetail, try_catch, bind.
  destruct (axiosGetWithRetry (CoinGeckoCoin coinId) 3 1000 w) as [[b|err] w1];
    simpl; [destruct b|]; reflexivity.
Qed.

Lemma or_null_number (p : Qc) : p <> 0%Qc -> or_null (JNum p) = Some p.
Proof.
  intros Hp. unfold or_null, truthyQ.
  rewrite (bool_decide_eq_false_2 _ Hp). reflexivity.
Qed.

Lemma or_null_zero : or_null (JNum 0%Qc) = None.
Proof. reflexivity. Qed.

(** The current price of the detail data in effect for a fetch that sends
    the detail request. *)
Lemma fetched_currentPrice (coinId : string) (w : World) :
  let r2 := axiosGetWithRetry (CoinGeckoCoin coinId) 3 1000 w in
  exists dd,
    (fetchDetail coinId w).1 = Ok dd
    /\ (forall c md p,
          r2.1 = Ok (BodyCoin c) -> Coin.market_data c = Some md ->
          MarketData.current_price_usd md = JNum p -> p <> 0%Qc ->
          dd ≫= currentPrice = Some p)
    /\ ((forall c md p,
            r2.1 = Ok (BodyCoin c) -> Coin.market_data c = Some md ->
            MarketData.current_price_usd md = JNum p -> p = 0%Qc) ->
        dd ≫= currentPrice = None).
Proof.
  intros r2. subst r2. rewrite fetchDetail_result.
  eexists. split; [reflexivity|].
  destruct (axiosGetWithRetry (CoinGeckoCoin coinId) 3 1000 w) as [[b|err] w1];
    cbn [fst snd].
  - destruct b as [|mc|c|yc|yq]; (split; [intros c' md p H; try discriminate|]);
      try (intros _; reflexivity).
    + injection H as <-. intros Hmd Hp Hne. cbn [mbind option_bind detailOf currentPrice].
      rewrite Hmd. cbn [nullish]. rewrite Hp. apply or_null_number, Hne.
    + intros H. cbn [mbind option_bind detailOf currentPrice].
      destruct (Coin.market_data c) as [md|] eqn:Hmd; cbn [nullish];
        [|reflexivity].
      destruct (MarketData.current_price_usd md) as [| | |p] eqn:Hp;
        try reflexivity.
      rewrite (H c md p eq_refl Hmd Hp). reflexivity.
  - split; [intros c md p H; discriminate | intros _; reflexivity].
Qed.

End DetailPrice.

(** C6 (amended). On the successful path of [fetchCryptoData] the history
    of the returned record is made of the prices of the chart reply that are
    numbers.  Its price is the current price that the reply to the detail
    request reports when that is a number other than 0 -- or, while a
    detail record in the cache is valid, the current price of that record
    -- and the last sample of the history otherwise: when the detail
    request fails, or its reply reports no current price, or reports 0.
    Its change is [(price - first) / first * 100] when the first sample of
    the history is positive and [0] otherwise.  For the samples 100, 105,
    110 and no detail data the price is 110 and the change is 10. *)
Theorem fetchCryptoData_price_change
    (w w' : World) (sym coinId : string) (days : Z) (a : Obj) :
  isCacheValid (cryptoKey sym days) CACHE_TTL w = false ->
  fetchCryptoTry sym coinId days w = (Ok a, w') ->
  let r1 := axiosGetWithRetry (CoinGeckoMarketChart coinId days) 3 1000 w in
  let r2 := axiosGetWithRetry (CoinGeckoCoin coinId) 3 1000 r1.2 in
  let cached := isCacheValid (detailKey coinId) DETAIL_TTL r1.2 in
  fetchCryptoData sym coinId days w = (a, w')
  /\ (exists b samples first lst cur,
        r1.1 = Ok b
        /\ samples
           = (let kept :=
                omap (fun p : JsVal * JsVal =>
                        match p.2 with JNum q => Some q | _ => None end)
                     (match b with
                      | BodyMarketChart c => nullish (MarketChart.prices c) []
                      | _ => []
                      end) in
              if decide (kept = []) then [0%Qc] else kept)
        /\ history a = Some samples
        /\ samples !! 0%nat = Some first
        /\ last samples = Some lst
        /\ price a = Some cur
        /\ change a = Some (if bool_decide (0 < first)%Qc
                            then ((cur - first) / first * num 100)%Qc
                            else 0%Qc)
        /\ (cached = false ->
            forall c md p,
              r2.1 = Ok (BodyCoin c) -> Coin.market_data c = Some md ->
              MarketData.current_price_usd md = JNum p -> p <> 0%Qc ->
              cur = p)
        /\ (cached = false ->
            (forall c md p,
                r2.1 = Ok (BodyCoin c) -> Coin.market_data c = Some md ->
                MarketData.current_price_usd md = JNum p -> p = 0%Qc) ->
            cur = lst)
        /\ (cached = true ->
            forall d, cache r1.2 !! detailKey coinId = Some d ->
                      cur = match currentPrice d with
                            | Some p => p
                            | None => lst
                            end))
  /\ (forall stamps t,
        let r := cryptoResult sym None [num 100; num 105; num 110] stamps t in
        price r = Some (num 110) /\ change r = Some (num 10)).
Proof.
  intros Hv Ht r1 r2 cached.
  split; [unfold fetchCryptoData; rewrite Hv, Ht; reflexivity|].
  split.
  - destruct (fetchCryptoTry_cases sym coinId days w)
      as [(err & E & _)|(b & pairs & dd & w2 & Hb & Hp & Hd & E)];
      rewrite E in Ht; [discriminate|].
    destruct (prices_of_body_cases _ _ _ _ Hp) as [_ Hpairs].
    injection Ht as <- _.
    set (sp := foldl _ _ pairs).
    assert (Hsp : sp.2 = omap (fun p : JsVal * JsVal =>
                                 match p.2 with JNum q => Some q | _ => None end)
                               pairs).
    { subst sp. rewrite foldl_pushPair. cbn [snd app].
      apply keptPrices_numbers. }
    destruct (seedZero_first_last sp.2) as (first & lst & Hfirst & Hlast).
    exists b, (seedZero sp.2), first, lst,
      (match dd ≫= currentPrice with Some c => c | None => lst end).
    split; [exact Hb|].
    split; [cbv zeta; rewrite <- Hpairs, <- Hsp; apply seedZero_cases|].
    split; [reflexivity|]. split; [exact Hfirst|]. split; [exact Hlast|].
    destruct (cryptoResult_price_change sym dd (seedZero sp.2) sp.1 (now w2)
                first lst Hfirst Hlast) as [Hprice Hchange].
    split; [exact Hprice|]. split; [exact Hchange|].
    fold r1 in Hd. unfold lookupDetail in Hd. fold cached in Hd.
    destruct (fetched_currentPrice coinId r1.2) as (dd' & Hdd & Hnum & Hnone).
    fold r2 in Hnum, Hnone.
    split; [|split].
    + intros Hc c md p H1 H2 H3 H4. rewrite Hc in Hd.
      rewrite Hd in Hdd. injection Hdd as ->.
      rewrite (Hnum c md p H1 H2 H3 H4). reflexivity.
    + intros Hc Hall. rewrite Hc in Hd.
      rewrite Hd in Hdd. injection Hdd as ->.
      rewrite (Hnone Hall). reflexivity.
    + intros Hc d Hcache. rewrite Hc, Hcache in Hd. injection Hd as <- _.
      reflexivity.
  - intros stamps t r. subst r. split; [reflexivity|].
    vm_compute. f_equal. apply Qc_is_canon. reflexivity.
Qed.

(** The specification takes the detail endpoint's current price whenever it
    is present.  A reply that reports a current price of 0 -- next to a
    market capitalisation, which the record takes over -- has its price
    replaced by the last sample of the history. *)
Lemma fetchCryptoData_price_0_is_dropped :
  let w := world_chart_then_price_0 in
  let r := fetchCryptoData "BTC" "bitcoin" 7 w in
  gets (trace r.2) = [CoinGeckoMarketChart "bitcoin" 7; CoinGeckoCoin "bitcoin"]
  /\ outcomeAt (network w) 1 = Responded (BodyCoin bitcoin_detail_price_0)
  /\ MarketData.current_price_usd <$> Coin.market_data bitcoin_detail_price_0
     = Some (JNum 0%Qc)
  /\ marketCap r.1 = Some (num 2000000)
  /\ history r.1 = Some [num 100; num 105; num 110]
  /\ price r.1 = Some (num 110)
  /\ price r.1 <> Some 0%Qc.
Proof.
  intros w r. repeat split.
  intros H. vm_compute in H. discriminate.
Qed.

(** The scenario of the specification: BTC over 7 days, a 429 and then the
    chart 100, 105, 110, no detail data. *)
Lemma fetchCryptoData_price_change_BTC :
  let a := (fetchCryptoData "BTC" "bitcoin" 7 world_429_then_chart).1 in
  history a = Some [num 100; num 105; num 110]
  /\ price a = Some (num 110)
  /\ change a = Some (num 10).
Proof.
  intros a.
  assert (Hv : isCacheValid (cryptoKey "BTC" 7) CACHE_TTL world_429_then_chart
               = false) by reflexivity.
  assert (Ht : fetchCryptoTry "BTC" "bitcoin" 7 world_429_then_chart
               = (Ok a, (fetchCryptoTry "BTC" "bitcoin" 7 world_429_then_chart).2))
    by (vm_compute; reflexivity).
  destruct (fetchCryptoData_price_change world_429_then_chart _ "BTC" "bitcoin"
              7 a Hv Ht)
    as (_ & (b & samples & first & lst & cur & Hb & Hs & Hh & Hfirst & Hlast
             & Hprice & Hchange & _ & Hnone & _) & _).
  assert (E : (axiosGetWithRetry (CoinGeckoMarketChart "bitcoin" 7) 3 1000
                 world_429_then_chart).1 = Ok chart_100_105_110)
    by reflexivity.
  rewrite E in Hb. injection Hb as <-.
  assert (Hsamples : samples = [num 100; num 105; num 110]) by exact Hs.
  subst samples. injection Hfirst as <-. injection Hlast as <-.
  assert (Hcur : cur = num 110).
  { apply Hnone; [reflexivity|]. intros c md p H.
    match type of H with
    | ?r = _ => assert (E2 : r = Throw (AxiosError None))
                  by (vm_compute; reflexivity)
    end.
    rewrite E2 in H. discriminate H. }
  subst cur. split; [exact Hh|]. split; [exact Hprice|].
  rewrite Hchange. vm_compute. f_equal. apply Qc_is_canon. reflexivity.
Defined.

(** The same run, in figures: one retry of the chart request, price 110,
    change 10. *)
Example fetchCryptoData_BTC_figures :
  let r := fetchCryptoData "BTC" "bitcoin" 7 world_429_then_chart in
  take 2 (gets (trace r.2))
  = [CoinGeckoMarketChart "bitcoin" 7; CoinGeckoMarketChart "bitcoin" 7]
  /\ drop 2 (gets (trace r.2)) = replicate 4 (CoinGeckoCoin "bitcoin")
  /\ history r.1 = Some [num 100; num 105; num 110]
  /\ price r.1 = Some (num 110)
  /\ change r.1 = Some (num 10)
  /\ error r.1 = Some false.
Proof.
  repeat split.
  vm_compute. f_equal. apply Qc_is_canon. reflexivity.
Qed.

(** ** The change of an equity record *)

Section EquityChange.

Lemma stockData_change (sym : string) (res : ChartResult.t) (t : Z) :
  let d := stockData sym res t in
  change24h d = change d
  /\ exists cur prev,
       price d = Some cur
       /\ previousClose d = Some prev
       /\ change d = Some (if bool_decide (0 < prev)%Qc
                           then ((cur - prev) / prev * num 100)%Qc
                           else 0%Qc).
Proof.
  unfold stockData. destruct (foldl _ _ _) as [closePrices stamps].
  cbn [change24h change price previousClose].
  split; [reflexivity|]. eexists _, _. repeat split.
Qed.

End EquityChange.

(** C10. On the successful path of [fetchStockData] the field [change24h]
    of the returned record is its field [change]: the percent change of the
    price against the previous close of the chart that was requested for
    the lookback window, [(price - previousClose) / previousClose * 100]
    when the previous close is positive and [0] otherwise.  Nothing else is
    computed for [change24h], whatever the window. *)
Theorem fetchStockData_change24h
    (w w' : World) (sym : string) (days : Z) (a : Obj) :
  isCacheValid (stockKey sym days) CACHE_TTL w = false ->
  fetchStockTry sym days w = (Ok a, w') ->
  fetchStockData sym days w = (a, w')
  /\ change24h a = change a
  /\ exists cur prev,
       price a = Some cur
       /\ previousClose a = Some prev
       /\ change a = Some (if bool_decide (0 < prev)%Qc
                           then ((cur - prev) / prev * num 100)%Qc
                           else 0%Qc).
Proof.
  intros Hv Ht. split; [unfold fetchStockData; rewrite Hv, Ht; reflexivity|].
  destruct (fetchStockTry_cases sym days w)
    as [(err & E & _)|(res & data & w2 & _ & _ & Hdata & E)];
    rewrite E in Ht; [discriminate|].
  injection Ht as <- _.
  destruct Hdata as [->|[q ->]]; apply stockData_change.
Qed.

(** AAPL over 30 days: the change over the window is also [change24h]. *)
Lemma fetchStockData_change24h_AAPL_30 :
  let a := (fetchStockData "AAPL" 30 world_yahoo).1 in
  isCacheValid (stockKey "AAPL" 30) CACHE_TTL world_yahoo = false
  /\ fetchStockTry "AAPL" 30 world_yahoo
     = (Ok a, (fetchStockTry "AAPL" 30 world_yahoo).2)
  /\ change24h a = change a
  /\ change a = Some (num 10).
Proof.
  intros a.
  assert (Hv : isCacheValid (stockKey "AAPL" 30) CACHE_TTL world_yahoo = false)
    by reflexivity.
  assert (Ht : fetchStockTry "AAPL" 30 world_yahoo
               = (Ok a, (fetchStockTry "AAPL" 30 world_yahoo).2))
    by (vm_compute; reflexivity).
  split; [exact Hv|]. split; [exact Ht|].
  split.
  - exact (proj1 (proj2 (fetchStockData_change24h world_yahoo _ "AAPL" 30 a Hv Ht))).
  - vm_compute. f_equal. apply Qc_is_canon. reflexivity.
Defined.

(** ** The theorems at work on the example worlds *)

(** Two callers 1200 ms apart, the second one entering after the first has
    recorded its timestamp: it is suspended until 5000 ms after it. *)
Lemma waitForCoinGecko_spacing_1200 :
  let t0 := 1700010000000 in
  let evs := [Limiter.Call t0; Limiter.Call (t0 + 1200);
              Limiter.Wake 0 (t0 + 5000)] in
  exists s,
    Limiter.run (Limiter.init t0) evs = Some s
    /\ Limiter.stamps s = [t0; t0 + 5000]
    /\ Limiter.spaced (Limiter.stamps s).
Proof.
  intros t0 evs.
  exists {| Limiter.clock := t0 + 5000; Limiter.last := t0 + 5000;
            Limiter.waiting := []; Limiter.stamps := [t0; t0 + 5000] |}.
  assert (Hrun : Limiter.run (Limiter.init t0) evs
                 = Some {| Limiter.clock := t0 + 5000;
                           Limiter.last := t0 + 5000;
                           Limiter.waiting := [];
                           Limiter.stamps := [t0; t0 + 5000] |})
    by reflexivity.
  assert (Hord : Limiter.orderlyRun (Limiter.init t0) evs = true)
    by reflexivity.
  split; [exact Hrun|]. split; [reflexivity|].
  exact (proj1 (proj2 (waitForCoinGecko_spacing t0 evs _ Hrun Hord))).
Defined.

(** A 429, then the chart: one retry, two requests, the chart returned. *)
Lemma axiosGetWithRetry_policy_429 :
  let e := CoinGeckoMarketChart "bitcoin" 7 in
  let r := axiosGetWithRetry e 3 1000 world_429_then_chart in
  retriesUsed 3 (network world_429_then_chart) = 1%nat
  /\ gets (trace r.2) = [e; e]
  /\ r.1 = Ok chart_100_105_110.
Proof.
  intros e r.
  destruct (axiosGetWithRetry_policy e 3 1000 world_429_then_chart)
    as (_ & _ & Hg & _ & Hr & _).
  split; [reflexivity|]. split; [exact Hg | exact Hr].
Defined.

(** BTC has an id, AAPL has none: crypto adapter first, then equity. *)
Lemma fetchAllAssets_spec_BTC_AAPL :
  let cryptoIds : gmap string string := {[ "BTC" := "bitcoin" ]} in
  let w := world_429_then_chart in
  let results := (fetchAllAssets ["BTC"; "AAPL"] cryptoIds 7 w).1 in
  length results = 2%nat
  /\ results !! 0%nat = Some (fetchCryptoData "BTC" "bitcoin" 7 w).1
  /\ results !! 1%nat
     = Some (fetchStockData "AAPL" 7
               (fetchAllAssets ["BTC"] cryptoIds 7 w).2).1.
Proof.
  intros cryptoIds w results.
  destruct (fetchAllAssets_spec ["BTC"; "AAPL"] cryptoIds 7 w) as [Hlen Hi].
  split; [exact Hlen|]. split.
  - apply (proj1 (Hi 0%nat "BTC" eq_refl) "bitcoin"); [reflexivity | discriminate].
  - apply (proj2 (Hi 1%nat "AAPL" eq_refl)). right. split; [reflexivity|].
    apply (proj1 (bool_decide_eq_false _)). vm_compute. reflexivity.
Defined.

(** From the empty cache every record of a run satisfies the invariants. *)
Lemma adapters_keep_invariants_fresh :
  cache_ok world_429_then_chart
  /\ asset_ok (fetchCryptoData "BTC" "bitcoin" 7 world_429_then_chart).1
  /\ asset_ok (fetchStockData "AAPL" 30 world_429_then_chart).1
  /\ Forall asset_ok
       (fetchAllAssets ["BTC"; "AAPL"] {[ "BTC" := "bitcoin" ]} 7
          world_429_then_chart).1.
Proof.
  assert (Hw : cache_ok world_429_then_chart).
  { intros key o H. vm_compute in H. discriminate. }
  destruct (adapters_keep_invariants world_429_then_chart Hw)
    as (Hc & Hs & Ha & _).
  split; [exact Hw|]. split; [apply Hc|]. split; [apply Hs | apply Ha].
Defined.

(** * Further properties of the service *)

(** ** Backoff and pacing of the retrying fetcher *)

Section Pacing.

Lemma timers_used_refl (w : World) : timers_used w w.
Proof. exists 0%nat. reflexivity. Qed.

Lemma timers_used_trans (w1 w2 w3 : World) :
  timers_used w1 w2 -> timers_used w2 w3 -> timers_used w1 w3.
Proof.
  intros [k1 H1] [k2 H2]. exists (k1 + k2)%nat.
  rewrite H2, H1, drop_drop. reflexivity.
Qed.

Lemma timers_used_same (w w' : World) :
  timerSkew w' = timerSkew w -> timers_used w w'.
Proof. intros H. exists 0%nat. exact H. Qed.

Lemma punctual_later (w w' : World) :
  timers_used w w' -> punctual w -> punctual w'.
Proof.
  intros [k H]. unfold punctual. rewrite H. apply Forall_drop.
Qed.

Lemma axios_get_timers (e : Endpoint) (w : World) :
  timerSkew (axios_get e w).2 = timerSkew w.
Proof.
  unfold axios_get; simpl. destruct (network w) as [|rep rest]; simpl; [auto|].
  destruct (outcome rep); reflexivity.
Qed.

Lemma attempt_timers (e : Endpoint) (w : World) :
  timers_used w ((waitForCoinGecko ;; axios_get e) w).2.
Proof.
  unfold bind. pose proof (waitForCoinGecko_returns w) as Hr.
  pose proof (waitForCoinGecko_timers w) as Ht.
  destruct (waitForCoinGecko w) as [r1 w1]; simpl in *; subst r1.
  apply (timers_used_trans _ w1); [exact Ht|].
  apply timers_used_same, axios_get_timers.
Qed.

Lemma attempt_limiter (e : Endpoint) (w : World) :
  0 <= default 0 (head (timerSkew w)) ->
  COINGECKO_DELAY
  <= lastCoinGeckoCall ((waitForCoinGecko ;; axios_get e) w).2
     - lastCoinGeckoCall w.
Proof.
  intros Hp. unfold bind. pose proof (waitForCoinGecko_returns w) as Hr.
  pose proof (waitForCoinGecko_gap w Hp) as Hgap.
  destruct (waitForCoinGecko w) as [r1 w1]; simpl in *; subst r1.
  destruct (axios_get_spec e w1) as (_ & _ & _ & ->). exact Hgap.
Qed.

(** The backoff: one draw below 300, one timer of [delay jitter]. *)
Lemma backoff_effects {A} (delay : Z -> Z) (k : M A) (w : World) :
  exists jitter w',
    0 <= jitter < 300
    /\ (j <- Math_random_300 ;; setTimeout (delay j) ;; k) w = k w'
    /\ trace w' = trace w ++ [Sleep (delay jitter)]
    /\ now w' = now w + fired (delay jitter) w
    /\ lastCoinGeckoCall w' = lastCoinGeckoCall w
    /\ network w' = network w
    /\ cache w' = cache w
    /\ timerSkew w' = tail (timerSkew w).
Proof.
  unfold bind, Math_random_300, setTimeout.
  destruct (random w) as [|j js]; simpl.
  - exists 0. eexists. split; [lia|]. split; [reflexivity|]. simpl. auto 10.
  - exists (Z.of_nat (j mod 300)). eexists.
    split; [pose proof (Nat.mod_upper_bound j 300); lia|].
    split; [reflexivity|]. simpl. auto 10.
Qed.

Lemma gets_snoc_Sleep (tr : list Event) (ms : Z) :
  gets (tr ++ [Sleep ms]) = gets tr.
Proof. unfold gets. rewrite omap_app. simpl. apply app_nil_r. Qed.

Lemma gets_snoc_Get (tr : list Event) (e : Endpoint) :
  gets (tr ++ [Get e]) = gets tr ++ [e].
Proof. unfold gets. rewrite omap_app. reflexivity. Qed.

Lemma retryLoop_timers (e : Endpoint) (retries : nat) (baseDelay : Z)
    (fuel : nat) :
  forall (attempt : nat) (w : World),
    timers_used w (retryLoop fuel e retries baseDelay attempt w).2.
Proof.
  induction fuel as [|fuel IH]; intros attempt w; [apply timers_used_refl|].
  rewrite retryLoop_S. unfold try_catch.
  pose proof (attempt_timers e w) as Ht.
  destruct ((waitForCoinGecko;; axios_get e) w) as [[b|err] w1];
    simpl in Ht |- *; [exact Ht|].
  destruct ((attempt <? retries)%nat && shouldRetry (response_status err));
    [|exact Ht].
  destruct (backoff_effects
              (fun jitter => baseDelay * 2 ^ Z.of_nat attempt + jitter)
              (retryLoop fuel e retries baseDelay (S attempt)) w1)
    as (jitter & w2 & _ & -> & _ & _ & _ & _ & _ & Hs).
  apply (timers_used_trans _ w1); [exact Ht|].
  apply (timers_used_trans _ w2); [|apply IH].
  exists 1%nat. rewrite Hs. destruct (timerSkew w1); reflexivity.
Qed.

(** When no timer fires early, every attempt of the loop moves the
    limiter's timestamp by at least [COINGECKO_DELAY]. *)
Lemma retryLoop_limiter (e : Endpoint) (retries : nat) (baseDelay : Z)
    (left : nat) :
  forall (attempt : nat) (w : World),
    (attempt + left = retries)%nat ->
    punctual w ->
    COINGECKO_DELAY * Z.of_nat (S (retriesUsed left (network w)))
    <= lastCoinGeckoCall (retryLoop (S left) e retries baseDelay attempt w).2
       - lastCoinGeckoCall w.
Proof.
  induction left as [|left IH]; intros attempt w Hleft Hp.
  - assert (Hlt : (attempt <? retries)%nat = false) by (apply Nat.ltb_ge; lia).
    rewrite retryLoop_S. cbn [retriesUsed]. unfold try_catch.
    pose proof (attempt_limiter e w (punctual_head w Hp)) as Hl.
    destruct ((waitForCoinGecko;; axios_get e) w) as [[b|err] w1]; simpl in *.
    + lia.
    + rewrite Hlt. simpl. lia.
  - assert (Hlt : (attempt <? retries)%nat = true) by (apply Nat.ltb_lt; lia).
    rewrite retryLoop_S. unfold try_catch.
    pose proof (attempt_limiter e w (punctual_head w Hp)) as Hl.
    pose proof (punctual_later _ _ (attempt_timers e w) Hp) as Hp1.
    destruct (attempt_spec e w) as (Hr & Hn & _ & _).
    destruct ((waitForCoinGecko;; axios_get e) w) as [r w1];
      simpl in Hr, Hn, Hl, Hp1.
    cbn [retriesUsed].
    destruct (outcomeAt (network w) 0) as [b|st] eqn:E; simpl in Hr; subst r.
    + simpl. lia.
    + rewrite Hlt; cbn [response_status andb].
      destruct (shouldRetry st) eqn:R; [|simpl; lia].
      destruct (backoff_effects
                  (fun jitter => baseDelay * 2 ^ Z.of_nat attempt + jitter)
                  (retryLoop (S left) e retries baseDelay (S attempt)) w1)
        as (jitter & w2 & _ & -> & _ & _ & Hl2 & Hn2 & _ & Hs2).
      assert (Hp2 : punctual w2).
      { apply (punctual_later w1); [|exact Hp1].
        exists 1%nat. rewrite Hs2. destruct (timerSkew w1); reflexivity. }
      specialize (IH (S attempt) w2 ltac:(lia) Hp2).
      rewrite Hn2, Hn, Hl2 in IH. unfold COINGECKO_DELAY in *. lia.
Qed.

End Pacing.

(** X1. A retried attempt is followed by exactly one backoff timer before
    the next attempt, of [baseDelay * 2 ^ attempt] ms plus a jitter of less
    than 300 ms; the next attempt starts when that timer has fired, which
    is that many ms later when the timer fires on time. *)
Theorem retryLoop_backoff
    (e : Endpoint) (retries : nat) (baseDelay : Z) (fuel attempt : nat)
    (w : World) (st : option positive) :
  outcomeAt (network w) 0 = Failed st ->
  shouldRetry st = true ->
  (attempt < retries)%nat ->
  let w1 := ((waitForCoinGecko ;; axios_get e) w).2 in
  exists d w2,
    baseDelay * 2 ^ Z.of_nat attempt <= d < baseDelay * 2 ^ Z.of_nat attempt + 300
    /\ trace w2 = trace w1 ++ [Sleep d]
    /\ now w2 = now w1 + fired d w1
    /\ (default 0 (head (timerSkew w1)) = 0 -> 0 <= baseDelay ->
        now w2 = now w1 + d)
    /\ retryLoop (S fuel) e retries baseDelay attempt w
       = retryLoop fuel e retries baseDelay (S attempt) w2.
Proof.
  intros Hst Hretry Hlt w1. subst w1.
  rewrite retryLoop_S. unfold try_catch.
  destruct (attempt_spec e w) as (Hr & _).
  destruct ((waitForCoinGecko;; axios_get e) w) as [r w1]; simpl in Hr |- *.
  rewrite Hst in Hr. simpl in Hr. subst r.
  cbn [response_status]. rewrite Hretry.
  rewrite (proj2 (Nat.ltb_lt attempt retries) Hlt). cbn [andb].
  destruct (backoff_effects
              (fun jitter => baseDelay * 2 ^ Z.of_nat attempt + jitter)
              (retryLoop fuel e retries baseDelay (S attempt)) w1)
    as (jitter & w2 & Hj & -> & Ht & Hnow & _).
  exists (baseDelay * 2 ^ Z.of_nat attempt + jitter), w2.
  split; [lia|]. split; [exact Ht|]. split; [exact Hnow|].
  split; [|reflexivity].
  intros Hskew Hbase. rewrite Hnow. unfold fired. rewrite Hskew.
  pose proof (Z.pow_nonneg 2 (Z.of_nat attempt) ltac:(lia)). nia.
Qed.

(** After a 429 the first backoff is 1000 ms plus the jitter drawn, 137. *)
Lemma retryLoop_backoff_429 :
  let e := CoinGeckoMarketChart "bitcoin" 7 in
  let w1 := ((waitForCoinGecko ;; axios_get e) world_429_then_chart).2 in
  exists d w2,
    1000 <= d < 1300
    /\ trace w2 = trace w1 ++ [Sleep d]
    /\ retryLoop 4 e 3 1000 0 world_429_then_chart = retryLoop 3 e 3 1000 1 w2.
Proof.
  intros e w1.
  destruct (retryLoop_backoff e 3 1000 3 0 world_429_then_chart
              (Some 429%positive) eq_refl eq_refl ltac:(lia))
    as (d & w2 & Hd & Ht & _ & _ & Heq).
  exists d, w2. split; [exact Hd|]. split; [exact Ht | exact Heq].
Defined.

(** ** Requests and the limiter, adapter by adapter *)

Section Requests.

Lemma filter_replicate_length {A} (P : A -> Prop) `{forall x, Decision (P x)}
    (n : nat) (x : A) :
  length (filter P (replicate n x)) = if decide (P x) then n else 0%nat.
Proof.
  induction n as [|n IH]; simpl; [destruct (decide (P x)); reflexivity|].
  rewrite filter_cons. destruct (decide (P x)); simpl; rewrite IH; reflexivity.
Qed.

Lemma coinGeckoRequests_app (w w' : World) (extra : list Endpoint) :
  gets (trace w') = gets (trace w) ++ extra ->
  coinGeckoRequests w'
  = (coinGeckoRequests w
     + length (filter (fun e => isCoinGecko e = true) extra))%nat.
Proof.
  intros H. unfold coinGeckoRequests. rewrite H, filter_app, length_app.
  reflexivity.
Qed.

Lemma paced_refl (w : World) : paced w w.
Proof. unfold paced. split; [lia|]. unfold COINGECKO_DELAY. lia. Qed.

Lemma paced_trans (w1 w2 w3 : World) : paced w1 w2 -> paced w2 w3 -> paced w1 w3.
Proof. unfold paced, COINGECKO_DELAY. intros [? ?] [? ?]. split; lia. Qed.

Lemma paced_by_gets (w w' : World) (extra : list Endpoint) :
  gets (trace w') = gets (trace w) ++ extra ->
  COINGECKO_DELAY * Z.of_nat (length extra)
  <= lastCoinGeckoCall w' - lastCoinGeckoCall w ->
  paced w w'.
Proof.
  intros Hg Hl. unfold paced. rewrite (coinGeckoRequests_app _ _ _ Hg).
  pose proof (length_filter (fun e => isCoinGecko e = true) extra).
  unfold COINGECKO_DELAY in *. split; lia.
Qed.

Lemma paced_quiet (w w' : World) (extra : list Endpoint) :
  gets (trace w') = gets (trace w) ++ extra ->
  Forall (fun e => isCoinGecko e = false) extra ->
  lastCoinGeckoCall w' = lastCoinGeckoCall w ->
  paced w w'.
Proof.
  intros Hg Hq Hl. unfold paced. rewrite (coinGeckoRequests_app _ _ _ Hg), Hl.
  assert (E : filter (fun e => isCoinGecko e = true) extra = []).
  { clear Hg. induction Hq as [|e l He _ IH]; [reflexivity|].
    rewrite filter_cons_False by congruence. exact IH. }
  rewrite E. simpl. unfold COINGECKO_DELAY. split; lia.
Qed.

(** A run of the retrying fetcher: at most [retries + 1] requests, all for
    the same endpoint, each behind the limiter. *)
Lemma axiosGetWithRetry_effects (e : Endpoint) (retries : nat) (baseDelay : Z)
    (w : World) :
  exists n,
    (1 <= n <= S retries)%nat
    /\ gets (trace (axiosGetWithRetry e retries baseDelay w).2)
       = gets (trace w) ++ replicate n e
    /\ (punctual w ->
        COINGECKO_DELAY * Z.of_nat n
        <= lastCoinGeckoCall (axiosGetWithRetry e retries baseDelay w).2
           - lastCoinGeckoCall w)
    /\ timers_used w (axiosGetWithRetry e retries baseDelay w).2.
Proof.
  exists (S (retriesUsed retries (network w))).
  pose proof (retriesUsed_le retries (network w)).
  destruct (retryLoop_spec e retries baseDelay retries 0%nat w eq_refl)
    as (_ & _ & _ & Hg).
  split; [lia|]. split; [exact Hg|]. split.
  - apply (retryLoop_limiter e retries baseDelay retries 0%nat w eq_refl).
  - apply retryLoop_timers.
Qed.

(** The detail request leaves the trace, the limiter and the timers as its
    run of the retrying fetcher left them. *)
Lemma fetchDetail_world (coinId : string) (w : World) :
  let r := axiosGetWithRetry (CoinGeckoCoin coinId) 3 1000 w in
  trace (fetchDetail coinId w).2 = trace r.2
  /\ lastCoinGeckoCall (fetchDetail coinId w).2 = lastCoinGeckoCall r.2
  /\ timerSkew (fetchDetail coinId w).2 = timerSkew r.2.
Proof.
  unfold fetchDetail, try_catch, bind.
  destruct (axiosGetWithRetry (CoinGeckoCoin coinId) 3 1000 w) as [[b|err] w1];
    simpl; [destruct b|]; simpl; auto.
Qed.

Lemma lookupDetail_effects (coinId : string) (w : World) :
  exists n,
    (n <= 4)%nat
    /\ gets (trace (lookupDetail coinId w).2)
       = gets (trace w) ++ replicate n (CoinGeckoCoin coinId)
    /\ (punctual w ->
        COINGECKO_DELAY * Z.of_nat n
        <= lastCoinGeckoCall (lookupDetail coinId w).2 - lastCoinGeckoCall w)
    /\ (isCacheValid (detailKey coinId) DETAIL_TTL w = true -> n = 0%nat)
    /\ timers_used w (lookupDetail coinId w).2.
Proof.
  unfold lookupDetail.
  destruct (isCacheValid (detailKey coinId) DETAIL_TTL w) eqn:Hv.
  - destruct (isCacheValid_lookup _ _ _ Hv) as [o ->]. exists 0%nat. simpl.
    rewrite app_nil_r. unfold COINGECKO_DELAY.
    repeat split; try lia. apply timers_used_refl.
  - destruct (axiosGetWithRetry_effects (CoinGeckoCoin coinId) 3 1000 w)
      as (n & Hn & Hg & Hl & Ht).
    destruct (fetchDetail_world coinId w) as (Htr & Hlast & Hsk).
    exists n. rewrite Htr, Hlast. split; [lia|]. split; [exact Hg|].
    split; [exact Hl|]. split; [discriminate|].
    destruct Ht as [k Hk]. exists k. rewrite Hsk. exact Hk.
Qed.

(** The crypto adapter: chart requests, then detail requests, at most four
    of each, and none of the second kind without one of the first. *)
Lemma fetchCryptoData_effects (sym coinId : string) (days : Z) (w : World) :
  exists n1 n2,
    (n1 <= 4)%nat /\ (n2 <= 4)%nat /\ (n1 = 0%nat -> n2 = 0%nat)
    /\ gets (trace (fetchCryptoData sym coinId days w).2)
       = gets (trace w)
         ++ replicate n1 (CoinGeckoMarketChart coinId days)
         ++ replicate n2 (CoinGeckoCoin coinId)
    /\ (punctual w ->
        COINGECKO_DELAY * Z.of_nat (n1 + n2)
        <= lastCoinGeckoCall (fetchCryptoData sym coinId days w).2
           - lastCoinGeckoCall w)
    /\ (isCacheValid (cryptoKey sym days) CACHE_TTL w = true -> n1 = 0%nat)
    /\ timers_used w (fetchCryptoData sym coinId days w).2.
Proof.
  unfold fetchCryptoData.
  destruct (isCacheValid (cryptoKey sym days) CACHE_TTL w) eqn:Hv.
  { exists 0%nat, 0%nat. simpl. rewrite app_nil_r. unfold COINGECKO_DELAY.
    repeat split; try lia. apply timers_used_refl. }
  destruct (axiosGetWithRetry_effects (CoinGeckoMarketChart coinId days) 3 1000 w)
    as (n1 & Hn1 & Hg1 & Hl1 & Ht1).
  destruct (fetchCryptoTry_cases sym coinId days w)
    as [(err & -> & _)|(b & pairs & dd & w2 & _ & _ & Hd & ->)]; cbn [fst snd].
  - exists n1, 0%nat. simpl. rewrite app_nil_r, Nat.add_0_r.
    repeat split; try lia; try assumption; discriminate.
  - destruct (lookupDetail_effects coinId
                (axiosGetWithRetry (CoinGeckoMarketChart coinId days) 3 1000 w).2)
      as (n2 & Hn2 & Hg2 & Hl2 & _ & Ht2).
    rewrite Hd in Hg2, Hl2, Ht2. cbn [snd] in Hg2, Hl2, Ht2.
    exists n1, n2. simpl. rewrite Hg2, Hg1, <- app_assoc.
    split; [lia|]. split; [lia|]. split; [lia|]. split; [reflexivity|].
    split; [|split; [discriminate|]].
    + intros Hp. specialize (Hl1 Hp).
      specialize (Hl2 (punctual_later _ _ Ht1 Hp)).
      unfold COINGECKO_DELAY in *. lia.
    + exact (timers_used_trans _ _ _ Ht1 Ht2).
Qed.

(** The equity adapter: Yahoo requests only, the limiter and the timers
    untouched. *)
Lemma fetchStockData_effects (sym : string) (days : Z) (w : World) :
  exists extra,
    gets (trace (fetchStockData sym days w).2) = gets (trace w) ++ extra
    /\ Forall (fun e => isCoinGecko e = false) extra
    /\ lastCoinGeckoCall (fetchStockData sym days w).2 = lastCoinGeckoCall w.
Proof.
  destruct (isCacheValid (stockKey sym days) CACHE_TTL w) eqn:Hv.
  - unfold fetchStockData. rewrite Hv. exists []. simpl.
    rewrite app_nil_r. auto.
  - destruct (fetchStockData_trace sym days w Hv) as [[Ht|Ht] Hl];
      rewrite Ht; unfold gets; rewrite omap_app; simpl;
      eexists; (split; [reflexivity|]); (split; [|exact Hl]);
      repeat constructor.
Qed.

Lemma fetchQuote_timers (sym : string) (data : Obj) (w : World) :
  timerSkew (fetchQuote sym data w).2 = timerSkew w.
Proof.
  unfold fetchQuote, try_catch, bind.
  pose proof (axios_get_timers (YahooQuote sym) w) as Ht.
  destruct (axios_get (YahooQuote sym) w) as [[b|err] w1]; simpl in *;
    [|exact Ht].
  destruct b as [| | | |[q|]]; simpl; exact Ht.
Qed.

Lemma fetchStockData_timers (sym : string) (days : Z) (w : World) :
  timerSkew (fetchStockData sym days w).2 = timerSkew w.
Proof.
  unfold fetchStockData.
  destruct (isCacheValid (stockKey sym days) CACHE_TTL w); [reflexivity|].
  destruct (fetchStockTry_cases sym days w)
    as [(err & -> & _)|(res & data & w2 & _ & Hq & _ & ->)]; cbn [fst snd].
  - apply axios_get_timers.
  - simpl. pose proof (fetchQuote_timers sym
             (stockData sym res
                (now (axios_get (YahooChart sym (rangeInterval days).2
                                   (rangeInterval days).1) w).2))
             (axios_get (YahooChart sym (rangeInterval days).2
                           (rangeInterval days).1) w).2) as Ht.
    rewrite Hq in Ht. simpl in Ht. rewrite Ht. apply axios_get_timers.
Qed.

Lemma dispatch_timers (cryptoIds : gmap string string) (days : Z)
    (ticker : string) (w : World) :
  timers_used w (dispatch cryptoIds days ticker w).2.
Proof.
  unfold dispatch. destruct (truthyId (coinIdOf cryptoIds ticker)).
  - destruct (fetchCryptoData_effects ticker
                (nullish (coinIdOf cryptoIds ticker) EmptyString) days w)
      as (n1 & n2 & _ & _ & _ & _ & _ & _ & Ht).
    exact Ht.
  - apply timers_used_same, fetchStockData_timers.
Qed.

Lemma dispatch_paced (cryptoIds : gmap string string) (days : Z)
    (ticker : string) (w : World) :
  punctual w -> paced w (dispatch cryptoIds days ticker w).2.
Proof.
  intros Hp. unfold dispatch. destruct (truthyId (coinIdOf cryptoIds ticker)).
  - destruct (fetchCryptoData_effects ticker
                (nullish (coinIdOf cryptoIds ticker) EmptyString) days w)
      as (n1 & n2 & _ & _ & _ & Hg & Hl & _).
    apply (paced_by_gets _ _ _ Hg). rewrite length_app, !length_replicate.
    exact (Hl Hp).
  - destruct (fetchStockData_effects ticker days w) as (extra & Hg & Hq & Hl).
    exact (paced_quiet _ _ _ Hg Hq Hl).
Qed.

Lemma fetchAll_paced (cryptoIds : gmap string string) (days : Z)
    (tickers : list string) :
  forall w, punctual w -> paced w (fetchAllAssets tickers cryptoIds days w).2.
Proof.
  induction tickers as [|t ts IH]; intros w Hp; [apply paced_refl|].
  rewrite fetchAll_cons. cbn [snd].
  apply (paced_trans _ _ _ (dispatch_paced cryptoIds days t w Hp)).
  apply IH. exact (punctual_later _ _ (dispatch_timers cryptoIds days t w) Hp).
Qed.

End Requests.

(** X2. A call of the crypto adapter sends at most four chart requests and
    then at most four detail requests, all to CoinGecko and for the given
    coin id, and never a detail request without a chart request; with a
    valid chart entry in the cache it sends nothing. *)
Theorem fetchCryptoData_requests (sym coinId : string) (days : Z) (w : World) :
  exists n1 n2,
    (n1 <= 4)%nat /\ (n2 <= 4)%nat /\ (n1 = 0%nat -> n2 = 0%nat)
    /\ gets (trace (fetchCryptoData sym coinId days w).2)
       = gets (trace w)
         ++ replicate n1 (CoinGeckoMarketChart coinId days)
         ++ replicate n2 (CoinGeckoCoin coinId)
    /\ (isCacheValid (cryptoKey sym days) CACHE_TTL w = true -> n1 = 0%nat).
Proof.
  destruct (fetchCryptoData_effects sym coinId days w)
    as (n1 & n2 & H1 & H2 & H0 & Hg & _ & Hv & _).
  exists n1, n2. auto.
Qed.

(** X3. In a fetch cycle that runs on its own and whose timers do not fire
    early, the limiter's timestamp moves by at least 5000 ms for every
    request sent to CoinGecko: [n] such requests put [lastCoinGeckoCall] at
    least [5000 * n] ms further.  A ticker served by the equity adapter
    sends no request to CoinGecko and leaves the timestamp where it was. *)
Theorem fetchAllAssets_paced
    (tickers : list string) (cryptoIds : gmap string string) (days : Z)
    (w : World) :
  Forall (fun skew => 0 <= skew) (timerSkew w) ->
  let w' := (fetchAllAssets tickers cryptoIds days w).2 in
  (coinGeckoRequests w <= coinGeckoRequests w')%nat
  /\ 5000 * (Z.of_nat (coinGeckoRequests w') - Z.of_nat (coinGeckoRequests w))
     <= lastCoinGeckoCall w' - lastCoinGeckoCall w
  /\ (forall (ticker : string) (w0 : World),
        let r := fetchStockData ticker days w0 in
        lastCoinGeckoCall r.2 = lastCoinGeckoCall w0
        /\ coinGeckoRequests r.2 = coinGeckoRequests w0
        /\ timerSkew r.2 = timerSkew w0)
  /\ (forall (i : nat) (ticker : string),
        tickers !! i = Some ticker ->
        truthyId (coinIdOf cryptoIds ticker) = false ->
        let wi := (fetchAllAssets (take i tickers) cryptoIds days w).2 in
        (fetchAllAssets (take (S i) tickers) cryptoIds days w).2
        = (fetchStockData ticker days wi).2).
Proof.
  intros Hp w'. subst w'.
  destruct (fetchAll_paced cryptoIds days tickers w Hp) as [H1 H2].
  split; [exact H1|]. split; [exact H2|]. split.
  - intros ticker w0 r. subst r.
    destruct (fetchStockData_effects ticker days w0) as (extra & Hg & Hq & Hl).
    split; [exact Hl|]. split; [|apply fetchStockData_timers].
    rewrite (coinGeckoRequests_app _ _ _ Hg).
    assert (E : filter (fun e => isCoinGecko e = true) extra = []).
    { clear Hg. induction Hq as [|e l He _ IH]; [reflexivity|].
      rewrite filter_cons_False by congruence. exact IH. }
    rewrite E. simpl. lia.
  - intros i ticker Hi Hfalse wi. subst wi.
    rewrite (take_S_r _ _ _ Hi), fetchAll_app. cbn [snd].
    rewrite fetchAll_cons. cbn [snd fetchAllAssets foldl].
    unfold dispatch. rewrite Hfalse. reflexivity.
Qed.

(** BTC and AAPL with on-time timers: two chart and four detail requests go
    to CoinGecko, and the limiter's timestamp moves by at least 30 s. *)
Lemma fetchAllAssets_paced_BTC_AAPL :
  let cryptoIds : gmap string string := {[ "BTC" := "bitcoin" ]} in
  let w := world_429_then_chart in
  let w' := (fetchAllAssets ["BTC"; "AAPL"] cryptoIds 7 w).2 in
  coinGeckoRequests w' = 6%nat
  /\ 5000 * 6 <= lastCoinGeckoCall w' - lastCoinGeckoCall w.
Proof.
  intros cryptoIds w w'.
  assert (Hp : Forall (fun skew => 0 <= skew) (timerSkew w)) by constructor.
  destruct (fetchAllAssets_paced ["BTC"; "AAPL"] cryptoIds 7 w Hp)
    as (_ & Hl & _).
  assert (Hn : coinGeckoRequests w' = 6%nat) by reflexivity.
  split; [exact Hn|].
  fold w' in Hl. rewrite Hn in Hl. exact Hl.
Defined.

(** ** What the adapters do to the cache *)

Section CacheEffects.

Lemma fetchQuote_world (sym : string) (data : Obj) (w : World) :
  (fetchQuote sym data w).2 = (axios_get (YahooQuote sym) w).2.
Proof.
  unfold fetchQuote, try_catch, bind.
  destruct (axios_get (YahooQuote sym) w) as [[b|err] w1]; simpl; [|reflexivity].
  destruct b as [| | | |[q|]]; reflexivity.
Qed.

Lemma axios_get_now (e : Endpoint) (w : World) : now w <= now (axios_get e w).2.
Proof.
  unfold axios_get; simpl. destruct (network w) as [|rep rest]; simpl; [lia|].
  destruct (outcome rep); simpl; lia.
Qed.

(** The cache after a call of the crypto adapter: as before, or with the
    record under the chart key, and perhaps a detail record under the
    detail key. *)
Lemma fetchCryptoData_cache (sym coinId : string) (days : Z) (w : World) :
  let r := fetchCryptoData sym coinId days w in
  cache r.2 = cache w
  \/ cache r.2 = <[cryptoKey sym days := r.1]> (cache w)
  \/ exists d,
       cache r.2
       = <[cryptoKey sym days := r.1]> (<[detailKey coinId := d]> (cache w)).
Proof.
  cbn zeta. unfold fetchCryptoData.
  destruct (isCacheValid (cryptoKey sym days) CACHE_TTL w); [left; reflexivity|].
  pose proof (axiosGetWithRetry_cache
                (CoinGeckoMarketChart coinId days) 3 1000 w) as Hc.
  destruct (fetchCryptoTry_cases sym coinId days w)
    as [(err & -> & _)|(b & pairs & dd & w2 & _ & _ & Hd & ->)]; cbn [fst snd].
  - left. exact Hc.
  - right.
    destruct (lookupDetail_spec coinId
                (axiosGetWithRetry (CoinGeckoMarketChart coinId days) 3 1000 w).2)
      as (dd' & w2' & Hd' & Hcache).
    rewrite Hd in Hd'. injection Hd' as _ <-. simpl.
    destruct Hcache as [E|[d E]]; rewrite E, Hc; eauto.
Qed.

Lemma fetchStockData_cache (sym : string) (days : Z) (w : World) :
  let r := fetchStockData sym days w in
  cache r.2 = cache w \/ cache r.2 = <[stockKey sym days := r.1]> (cache w).
Proof.
  cbn zeta. unfold fetchStockData.
  destruct (isCacheValid (stockKey sym days) CACHE_TTL w); [left; reflexivity|].
  destruct (axios_get_spec
              (YahooChart sym (rangeInterval days).2 (rangeInterval days).1) w)
    as (_ & _ & Hc & _).
  destruct (fetchStockTry_cases sym days w)
    as [(err & -> & _)|(res & data & w2 & _ & Hq & _ & ->)]; cbn [fst snd].
  - left. exact Hc.
  - right. simpl. apply (f_equal snd) in Hq. rewrite fetchQuote_world in Hq.
    simpl in Hq. subst w2.
    destruct (axios_get_spec (YahooQuote sym)
                (axios_get (YahooChart sym (rangeInterval days).2
                              (rangeInterval days).1) w).2)
      as (_ & _ & -> & _).
    rewrite Hc. reflexivity.
Qed.

Lemma dispatch_dom (cryptoIds : gmap string string) (days : Z)
    (ticker : string) (w : World) :
  dom (cache w) ⊆ dom (cache (dispatch cryptoIds days ticker w).2).
Proof.
  unfold dispatch. destruct (truthyId (coinIdOf cryptoIds ticker)).
  - destruct (fetchCryptoData_cache ticker
                (nullish (coinIdOf cryptoIds ticker) EmptyString) days w)
      as [->|[->|[d ->]]]; [reflexivity| |]; rewrite ?dom_insert; set_solver.
  - destruct (fetchStockData_cache ticker days w) as [->| ->];
      [reflexivity|]. rewrite dom_insert. set_solver.
Qed.

End CacheEffects.

(** X4. The cache only grows: every key the cache holds before a batch it
    still holds after it.  Nothing is evicted, whatever fails. *)
Theorem fetchAllAssets_cache_grows
    (tickers : list string) (cryptoIds : gmap string string) (days : Z)
    (w : World) :
  dom (cache w) ⊆ dom (cache (fetchAllAssets tickers cryptoIds days w).2).
Proof.
  revert w; induction tickers as [|t ts IH]; intros w; [reflexivity|].
  rewrite fetchAll_cons. cbn [snd].
  etransitivity; [apply (dispatch_dom cryptoIds days t w) | apply IH].
Qed.

(** X5. A fresh record is stored under the asset's key with the time of its
    making, and while less than [CACHE_TTL] = 60 s have passed since then a
    further call for the same symbol and window returns that record marked
    [fromCache = true], without any request and without touching the
    world.  (For the equity adapter the time of the making is the time the
    chart arrived, before the quote request.) *)
Theorem fetch_then_cache_hit (sym : string) (days : Z) (w w' : World) (a : Obj) :
  (forall coinId,
      isCacheValid (cryptoKey sym days) CACHE_TTL w = false ->
      fetchCryptoTry sym coinId days w = (Ok a, w') ->
      timestamp a = Some (now w')
      /\ cache w' !! cryptoKey sym days = Some a
      /\ forall later coinId',
           cache later !! cryptoKey sym days = Some a ->
           now w' <> 0 ->
           now later - now w' < CACHE_TTL ->
           fetchCryptoData sym coinId' days later = (spreadFromCache a, later))
  /\ (isCacheValid (stockKey sym days) CACHE_TTL w = false ->
      fetchStockTry sym days w = (Ok a, w') ->
      exists t,
        timestamp a = Some t /\ now w <= t <= now w'
        /\ t = now (axios_get (YahooChart sym (rangeInterval days).2
                                 (rangeInterval days).1) w).2
        /\ cache w' !! stockKey sym days = Some a
        /\ forall later,
             cache later !! stockKey sym days = Some a ->
             t <> 0 ->
             now later - t < CACHE_TTL ->
             fetchStockData sym days later = (spreadFromCache a, later)).
Proof.
  split.
  - intros coinId _ Ht.
    destruct (fetchCryptoTry_cases sym coinId days w)
      as [(err & E & _)|(b & pairs & dd & w2 & _ & _ & _ & E)];
      rewrite E in Ht; [discriminate|].
    injection Ht as <- <-. split; [reflexivity|].
    split; [simpl; apply lookup_insert_eq|].
    intros later coinId' Hc Hnz Hfresh. unfold fetchCryptoData.
    assert (Hv : isCacheValid (cryptoKey sym days) CACHE_TTL later = true).
    { unfold isCacheValid. rewrite Hc. cbn [timestamp cryptoResult].
      unfold truthyZ. simpl in Hnz, Hfresh.
      rewrite (proj2 (Z.eqb_neq _ _) Hnz). simpl. apply Z.ltb_lt. exact Hfresh. }
    rewrite Hv, Hc. reflexivity.
  - intros _ Ht.
    set (chart := YahooChart sym (rangeInterval days).2 (rangeInterval days).1).
    destruct (fetchStockTry_cases sym days w)
      as [(err & E & _)|(res & data & w2 & _ & Hq & Hdata & E)];
      rewrite E in Ht; [discriminate|].
    injection Ht as <- <-. fold chart in Hq, Hdata.
    exists (now (axios_get chart w).2).
    split; [destruct Hdata as [->|[q ->]]; unfold stockData;
            destruct (foldl _ _ _); reflexivity|].
    split.
    { apply (f_equal snd) in Hq. rewrite fetchQuote_world in Hq. simpl in Hq.
      subst w2. simpl.
      pose proof (axios_get_now chart w).
      pose proof (axios_get_now (YahooQuote sym) (axios_get chart w).2). lia. }
    split; [reflexivity|].
    split; [simpl; apply lookup_insert_eq|].
    intros later Hc Hnz Hfresh. unfold fetchStockData.
    assert (Hts : timestamp data = Some (now (axios_get chart w).2)).
    { destruct Hdata as [->|[q ->]]; unfold stockData;
        destruct (foldl _ _ _); reflexivity. }
    assert (Hv : isCacheValid (stockKey sym days) CACHE_TTL later = true).
    { unfold isCacheValid. rewrite Hc, Hts. unfold truthyZ.
      rewrite (proj2 (Z.eqb_neq _ _) Hnz). simpl. apply Z.ltb_lt. exact Hfresh. }
    rewrite Hv, Hc. reflexivity.
Qed.

(** BTC fetched, then asked for again 30 s later. *)
Lemma fetch_then_cache_hit_BTC :
  let r := fetchCryptoData "BTC" "bitcoin" 7 world_429_then_chart in
  let later := advance 30000 r.2 in
  fetchCryptoData "BTC" "bitcoin" 7 later = (spreadFromCache r.1, later).
Proof.
  intros r later.
  assert (Hv : isCacheValid (cryptoKey "BTC" 7) CACHE_TTL world_429_then_chart
               = false) by reflexivity.
  assert (Ht : fetchCryptoTry "BTC" "bitcoin" 7 world_429_then_chart = (Ok r.1, r.2))
    by (vm_compute; reflexivity).
  destruct (proj1 (fetch_then_cache_hit "BTC" 7 world_429_then_chart r.2 r.1)
              "bitcoin" Hv Ht) as (_ & _ & Hhit).
  assert (Hc : cache later !! cryptoKey "BTC" 7 = Some r.1)
    by (vm_compute; reflexivity).
  assert (Hnz : now r.2 <> 0) by (vm_compute; discriminate).
  assert (Hfresh : now later - now r.2 < CACHE_TTL) by (vm_compute; reflexivity).
  exact (Hhit later "bitcoin" Hc Hnz Hfresh).
Defined.

(** X6. A call of an adapter that fails leaves the cache exactly as it was,
    so the record it falls back to stays in place for the next failure. *)
Theorem failed_fetch_keeps_cache (sym : string) (days : Z) (w : World) :
  (forall coinId err w',
      isCacheValid (cryptoKey sym days) CACHE_TTL w = false ->
      fetchCryptoTry sym coinId days w = (Throw err, w') ->
      cache (fetchCryptoData sym coinId days w).2 = cache w)
  /\ (forall err w',
      isCacheValid (stockKey sym days) CACHE_TTL w = false ->
      fetchStockTry sym days w = (Throw err, w') ->
      cache (fetchStockData sym days w).2 = cache w).
Proof.
  split.
  - intros coinId err w' Hv Ht. unfold fetchCryptoData. rewrite Hv, Ht.
    exact (fetchCryptoTry_throw_cache _ _ _ _ _ _ Ht).
  - intros err w' Hv Ht. unfold fetchStockData. rewrite Hv, Ht.
    exact (fetchStockTry_throw_cache _ _ _ _ _ Ht).
Qed.

(** Offline, the cache stays empty. *)
Lemma failed_fetch_keeps_cache_offline :
  cache (fetchCryptoData "BTC" "bitcoin" 7 world_offline).2 = cache world_offline
  /\ cache (fetchStockData "AAPL" 30 world_offline).2 = cache world_offline.
Proof.
  split.
  - apply (proj1 (failed_fetch_keeps_cache "BTC" 7 world_offline) "bitcoin"
             (AxiosError None) (fetchCryptoTry "BTC" "bitcoin" 7 world_offline).2);
      vm_compute; reflexivity.
  - apply (proj2 (failed_fetch_keeps_cache "AAPL" 30 world_offline)
             (AxiosError None) (fetchStockTry "AAPL" 30 world_offline).2);
      vm_compute; reflexivity.
Defined.

(** ** The samples an adapter keeps *)

Section Samples.

Lemma validSample_Some (v : JsVal) (q : Qc) :
  validSample v = Some q <-> v = JNum q.
Proof.
  unfold validSample. destruct v; simpl; split; intros H;
    try discriminate; congruence.
Qed.

Lemma foldl_pushClose (rawCloses rawTimestamps : list JsVal) (t : Z)
    (idx : list nat) (acc : list Qc * list JsVal) :
  foldl (pushClose rawCloses rawTimestamps t) acc idx
  = (acc.1 ++ omap (fun i => validSample (nullish (rawCloses !! i) JUndefined)) idx,
     acc.2 ++ omap (fun i =>
                      match validSample (nullish (rawCloses !! i) JUndefined) with
                      | Some _ => Some (closeStamp rawTimestamps t i)
                      | None => None
                      end) idx).
Proof.
  revert acc; induction idx as [|i idx IH]; intros [closes stamps].
  - simpl. rewrite !app_nil_r. reflexivity.
  - cbn [foldl]. rewrite IH. unfold pushClose, closeStamp.
    cbn [omap list_omap].
    destruct (validSample (nullish (rawCloses !! i) JUndefined)); simpl.
    + rewrite <- !app_assoc. reflexivity.
    + reflexivity.
Qed.

(** Reading a list by its indices is reading the list. *)
Lemma omap_by_index {A B} (f : option A -> option B) (pre l : list A) :
  omap (fun i => f ((pre ++ l) !! i)) (seq (length pre) (length l))
  = omap (fun x => f (Some x)) l.
Proof.
  revert pre; induction l as [|x l IH]; intros pre; [reflexivity|].
  cbn [length seq omap list_omap].
  rewrite (list_lookup_middle pre l x (length pre) eq_refl).
  specialize (IH (pre ++ [x])).
  rewrite length_app, <- app_assoc in IH. simpl in IH.
  rewrite Nat.add_1_r in IH. rewrite IH. reflexivity.
Qed.

Lemma keptCloses_by_index (rawCloses : list JsVal) :
  omap (fun i => validSample (nullish (rawCloses !! i) JUndefined))
       (seq 0 (length rawCloses))
  = keptCloses rawCloses.
Proof.
  exact (omap_by_index (fun o => validSample (nullish o JUndefined)) [] rawCloses).
Qed.

Lemma stockData_samples (sym : string) (res : ChartResult.t) (t : Z) :
  let rawCloses := nullish (ChartResult.close res) [] in
  let rawTimestamps := nullish (ChartResult.timestamp res) [] in
  history (stockData sym res t) = Some (seedZero (keptCloses rawCloses))
  /\ timestamps (stockData sym res t)
     = Some (keptCloseStamps rawCloses rawTimestamps t).
Proof.
  intros rawCloses rawTimestamps. unfold stockData.
  fold rawCloses rawTimestamps. rewrite foldl_pushClose.
  cbn [fst snd app history timestamps].
  rewrite keptCloses_by_index. split; reflexivity.
Qed.

End Samples.

(** X7. The history of a fresh crypto record is the list of the prices of
    the chart the provider sent -- [data.prices] of the reply to the chart
    request -- that are numbers, in the order of the chart, or the single
    sample [0] when there is none: a pair whose price is [null],
    [undefined] or [NaN] is dropped together with its timestamp, and no
    other pair is.  A kept pair keeps its timestamp when that is a number
    and gets the time of the fetch otherwise. *)
Theorem fetchCryptoData_history
    (w w' : World) (sym coinId : string) (days : Z) (a : Obj) :
  fetchCryptoTry sym coinId days w = (Ok a, w') ->
  let r1 := axiosGetWithRetry (CoinGeckoMarketChart coinId days) 3 1000 w in
  exists b,
    r1.1 = Ok b
    /\ b <> BodyNull
    /\ let pairs := match b with
                    | BodyMarketChart c => nullish (MarketChart.prices c) []
                    | _ => []
                    end in
       let kept := omap (fun p : JsVal * JsVal =>
                           match p.2 with JNum q => Some q | _ => None end)
                        pairs in
       (history a = Some (if decide (kept = []) then [0%Qc] else kept)
        /\ timestamps a
           = Some (omap (fun p : JsVal * JsVal =>
                           match p.2 with
                           | JNum _ => Some (match p.1 with
                                             | JNum _ | JNaN => p.1
                                             | _ => JNum (num (now r1.2))
                                             end)
                           | _ => None
                           end) pairs)
        /\ (forall q, q ∈ kept <-> exists ts, (ts, JNum q) ∈ pairs))
       /\ (isCacheValid (cryptoKey sym days) CACHE_TTL w = false ->
           fetchCryptoData sym coinId days w = (a, w')).
Proof.
  intros Ht r1. subst r1.
  assert (Hfd : isCacheValid (cryptoKey sym days) CACHE_TTL w = false ->
                fetchCryptoData sym coinId days w = (a, w')).
  { intros Hv. unfold fetchCryptoData. rewrite Hv, Ht. reflexivity. }
  destruct (fetchCryptoTry_cases sym coinId days w)
    as [(err & E & _)|(b & pairs & dd & w2 & Hb & Hp & _ & E)];
    rewrite E in Ht; [discriminate|].
  destruct (prices_of_body_cases _ _ _ _ Hp) as [Hnull Hpairs].
  exists b. split; [exact Hb|]. split; [exact Hnull|].
  cbv zeta. rewrite <- Hpairs. split; [|exact Hfd]. clear Hfd.
  injection Ht as <- _.
  rewrite foldl_pushPair. cbn [fst snd app].
  rewrite <- keptPrices_numbers, <- keptStamps_numbers, <- seedZero_cases.
  split; [reflexivity|]. split; [reflexivity|].
  intros q. unfold keptPrices. rewrite list_elem_of_omap. split.
  - intros ([ts v] & Hin & Hv). apply validSample_Some in Hv.
    simpl in Hv. subst v. eauto.
  - intros (ts & Hin). exists (ts, JNum q). split; [exact Hin | reflexivity].
Qed.

(** The chart 100, 105, 110 served after a 429: the three samples are kept
    with their timestamps. *)
Lemma fetchCryptoData_history_BTC :
  let a := (fetchCryptoData "BTC" "bitcoin" 7 world_429_then_chart).1 in
  history a = Some [num 100; num 105; num 110]
  /\ timestamps a
     = Some [JNum (num 1700000000000); JNum (num 1700003600000);
             JNum (num 1700007200000)].
Proof.
  intros a.
  assert (Ht : fetchCryptoTry "BTC" "bitcoin" 7 world_429_then_chart
               = (Ok a, (fetchCryptoTry "BTC" "bitcoin" 7 world_429_then_chart).2))
    by (vm_compute; reflexivity).
  destruct (fetchCryptoData_history world_429_then_chart _ "BTC" "bitcoin" 7 a Ht)
    as (b & Hb & _ & (Hh & Hs & _) & _).
  assert (E : (axiosGetWithRetry (CoinGeckoMarketChart "bitcoin" 7) 3 1000
                 world_429_then_chart).1 = Ok chart_100_105_110)
    by reflexivity.
  rewrite E in Hb. injection Hb as <-.
  split; [exact Hh | exact Hs].
Defined.

(** X8. The history of a fresh equity record is the list of the chart's
    closes that are numbers, in order, or the single sample [0]; the
    timestamp kept with the close at index [i] is the chart's timestamp at
    the same index times 1000 (seconds to milliseconds) when that is a
    number, and the time of the fetch otherwise.  The quote does not change
    either list. *)
Theorem fetchStockData_history
    (w w' : World) (sym : string) (days : Z) (a : Obj) :
  fetchStockTry sym days w = (Ok a, w') ->
  let r1 := axios_get (YahooChart sym (rangeInterval days).2
                         (rangeInterval days).1) w in
  exists res,
    r1.1 = Ok (BodyYahooChart (Some res))
    /\ let rawCloses := nullish (ChartResult.close res) [] in
       let rawTimestamps := nullish (ChartResult.timestamp res) [] in
       history a = Some (seedZero (keptCloses rawCloses))
       /\ timestamps a = Some (keptCloseStamps rawCloses rawTimestamps (now r1.2))
       /\ (forall q, q ∈ keptCloses rawCloses <-> JNum q ∈ rawCloses)
       /\ (forall i q, rawCloses !! i = Some (JNum q) ->
             closeStamp rawTimestamps (now r1.2) i
             ∈ keptCloseStamps rawCloses rawTimestamps (now r1.2))
       /\ (forall i s, rawTimestamps !! i = Some (JNum s) ->
             closeStamp rawTimestamps (now r1.2) i = JNum (s * num 1000)%Qc).
Proof.
  intros Ht r1. subst r1.
  destruct (fetchStockTry_cases sym days w)
    as [(err & E & _)|(res & data & w2 & Hb & _ & Hdata & E)];
    rewrite E in Ht; [discriminate|].
  injection Ht as <- _. exists res. split; [exact Hb|].
  intros rawCloses rawTimestamps.
  destruct (stockData_samples sym res
              (now (axios_get (YahooChart sym (rangeInterval days).2
                                 (rangeInterval days).1) w).2)) as [Hh Hs].
  fold rawCloses rawTimestamps in Hh, Hs.
  split; [destruct Hdata as [->|[q ->]]; exact Hh|].
  split; [destruct Hdata as [->|[q ->]]; exact Hs|].
  split.
  { intros q. unfold keptCloses. rewrite list_elem_of_omap. split.
    - intros (v & Hin & Hv). apply validSample_Some in Hv. subst v. exact Hin.
    - intros Hin. exists (JNum q). split; [exact Hin | reflexivity]. }
  split.
  - intros i q Hi. unfold keptCloseStamps. rewrite list_elem_of_omap.
    exists i. split.
    + apply elem_of_seq. apply lookup_lt_Some in Hi. lia.
    + rewrite Hi. reflexivity.
  - intros i s Hi. unfold closeStamp. rewrite Hi. reflexivity.
Qed.

(** The Yahoo chart of the examples: the missing close is dropped. *)
Lemma fetchStockData_history_AAPL :
  let w := world_yahoo in
  exists res,
    (axios_get (YahooChart "AAPL" "1d" "1mo") w).1 = Ok (BodyYahooChart (Some res))
    /\ history (fetchStockData "AAPL" 30 w).1
       = Some (seedZero (keptCloses (nullish (ChartResult.close res) []))).
Proof.
  intros w.
  assert (Ht : fetchStockTry "AAPL" 30 w
               = (Ok (fetchStockData "AAPL" 30 w).1,
                  (fetchStockTry "AAPL" 30 w).2))
    by (vm_compute; reflexivity).
  destruct (fetchStockData_history w _ "AAPL" 30 _ Ht) as (res & Hb & Hh & _).
  exists res. split; [exact Hb | exact Hh].
Defined.

(** ** The error flag *)

Section ErrorFlag.

Lemma fallback_error (key : string) (placeholder : Obj) (w : World) :
  error placeholder = Some true ->
  error (fallback key placeholder w) = Some true.
Proof. intros H. unfold fallback. destruct (cache w !! key); [reflexivity | exact H]. Qed.

Lemma stockData_error (sym : string) (res : ChartResult.t) (t : Z) :
  error (stockData sym res t) = Some false.
Proof. unfold stockData. destruct (foldl _ _ _). reflexivity. Qed.

End ErrorFlag.

(** X9. Without a valid cache entry, the record an adapter returns is
    marked [error = false] exactly when the chart request (after its
    retries, for the crypto adapter) came back with usable data, and
    [error = true] otherwise.  How the optional detail or quote request
    ends plays no part. *)
Theorem error_flag_follows_chart (sym : string) (days : Z) (w : World) :
  (forall coinId,
      isCacheValid (cryptoKey sym days) CACHE_TTL w = false ->
      let r1 := axiosGetWithRetry (CoinGeckoMarketChart coinId days) 3 1000 w in
      let a := (fetchCryptoData sym coinId days w).1 in
      (error a = Some false <-> exists b, r1.1 = Ok b /\ b <> BodyNull)
      /\ (error a = Some true
          <-> (exists err, r1.1 = Throw err) \/ r1.1 = Ok BodyNull))
  /\ (isCacheValid (stockKey sym days) CACHE_TTL w = false ->
      let r1 := axios_get (YahooChart sym (rangeInterval days).2
                             (rangeInterval days).1) w in
      let a := (fetchStockData sym days w).1 in
      (error a = Some false
       <-> exists res, r1.1 = Ok (BodyYahooChart (Some res)))
      /\ (error a = Some true
          <-> ~ exists res, r1.1 = Ok (BodyYahooChart (Some res)))).
Proof.
  split.
  - intros coinId Hv r1 a. subst r1 a. unfold fetchCryptoData. rewrite Hv.
    destruct (fetchCryptoTry_cases sym coinId days w)
      as [(err & -> & Hwhy)|(b & pairs & dd & w2 & Hb & Hp & _ & ->)];
      cbn [fst snd].
    + rewrite (fallback_error _ (cryptoPlaceholder sym) _ eq_refl). split; split.
      * discriminate.
      * intros (b & Hb & Hne). destruct Hwhy as [E|E]; rewrite E in Hb;
          [discriminate | congruence].
      * intros _. destruct Hwhy as [E|E]; eauto.
      * reflexivity.
    + assert (Hne : b <> BodyNull) by (intros ->; discriminate).
      cbn [error cryptoResult]. split; split.
      * eauto.
      * reflexivity.
      * discriminate.
      * rewrite Hb. intros [[err E]|E]; [discriminate | congruence].
  - intros Hv r1 a. subst r1 a. unfold fetchStockData. rewrite Hv.
    destruct (fetchStockTry_cases sym days w)
      as [(err & -> & Hwhy)|(res & data & w2 & Hb & _ & Hdata & ->)];
      cbn [fst snd].
    + rewrite (fallback_error _ (stockPlaceholder sym) _ eq_refl).
      assert (Hno : ~ exists res,
                 (axios_get (YahooChart sym (rangeInterval days).2
                               (rangeInterval days).1) w).1
                 = Ok (BodyYahooChart (Some res))).
      { intros (res & E). destruct Hwhy as [E'|(b & E' & Hne)];
          rewrite E' in E; [discriminate|].
        injection E as ->. exact (Hne res eq_refl). }
      split; split; try discriminate; try reflexivity; tauto.
    + assert (He : error data = Some false).
      { destruct Hdata as [->|[q ->]]; apply stockData_error. }
      rewrite He. split; split.
      * eauto.
      * reflexivity.
      * discriminate.
      * intros Hno. destruct Hno. eauto.
Qed.

(** Offline both adapters mark their record; with the chart served, the
    crypto adapter does not, although the detail request fails. *)
Lemma error_flag_follows_chart_examples :
  error (fetchCryptoData "BTC" "bitcoin" 7 world_429_then_chart).1 = Some false
  /\ error (fetchStockData "AAPL" 30 world_offline).1 = Some true.
Proof.
  split.
  - apply (proj1 (proj1 (error_flag_follows_chart "BTC" 7 world_429_then_chart)
                    "bitcoin" eq_refl)).
    exists chart_100_105_110. split; [vm_compute; reflexivity | discriminate].
  - apply (proj2 (proj2 (error_flag_follows_chart "AAPL" 30 world_offline)
                    eq_refl)).
    intros (res & E). vm_compute in E. discriminate.
Defined.

(** ** Validity in time *)

(** X10. Validity only runs out: an entry that is not valid stays not valid
    as the clock moves on, until the entry is written again; and an entry
    valid for a TTL is valid for every longer one. *)
Theorem isCacheValid_monotone (key : string) (ttl ttl' : Z) (w w' : World) :
  cache w' = cache w ->
  now w <= now w' ->
  (isCacheValid key ttl w = false -> isCacheValid key ttl w' = false)
  /\ (ttl <= ttl' -> isCacheValid key ttl w = true ->
      isCacheValid key ttl' w = true).
Proof.
  intros Hc Hnow. unfold isCacheValid. rewrite Hc.
  destruct (cache w !! key) as [entry|]; [|split; [reflexivity | discriminate]].
  destruct (timestamp entry) as [ts|]; [|split; [reflexivity | discriminate]].
  destruct (truthyZ ts); [|split; [reflexivity | discriminate]].
  rewrite !Z.ltb_ge, !Z.ltb_lt. split; lia.
Qed.

(** The record stored 90 s ago is still not valid an hour later. *)
Lemma isCacheValid_monotone_90s :
  isCacheValid (cryptoKey "BTC" 7) CACHE_TTL (advance 3600000 world_stored_90s_ago)
  = false.
Proof.
  apply (proj1 (isCacheValid_monotone (cryptoKey "BTC" 7) CACHE_TTL CACHE_TTL
                  world_stored_90s_ago (advance 3600000 world_stored_90s_ago)
                  eq_refl ltac:(vm_compute; discriminate))).
  reflexivity.
Defined.

(** ** Highs and lows computed from the series *)

Section HighLow.

Lemma maxQ_l (a b : Qc) : (a <= maxQ a b)%Qc.
Proof.
  unfold maxQ. case_bool_decide; [apply Qclt_le_weak; assumption | apply Qcle_refl].
Qed.

Lemma maxQ_r (a b : Qc) : (b <= maxQ a b)%Qc.
Proof.
  unfold maxQ. case_bool_decide; [apply Qcle_refl | apply Qcnot_lt_le; assumption].
Qed.

Lemma minQ_l (a b : Qc) : (minQ a b <= a)%Qc.
Proof.
  unfold minQ. case_bool_decide; [apply Qclt_le_weak; assumption | apply Qcle_refl].
Qed.

Lemma minQ_r (a b : Qc) : (minQ a b <= b)%Qc.
Proof.
  unfold minQ. case_bool_decide; [apply Qcle_refl | apply Qcnot_lt_le; assumption].
Qed.

Lemma foldl_maxQ_ge (l : list Qc) :
  forall a, (a <= foldl maxQ a l)%Qc /\ forall x, x ∈ l -> (x <= foldl maxQ a l)%Qc.
Proof.
  induction l as [|y l IH]; intros a; simpl.
  - split; [apply Qcle_refl|]. intros x Hx. inversion Hx.
  - destruct (IH (maxQ a y)) as [H1 H2]. split.
    + exact (Qcle_trans _ _ _ (maxQ_l a y) H1).
    + intros x Hx. apply elem_of_cons in Hx as [->|Hx]; [|auto].
      exact (Qcle_trans _ _ _ (maxQ_r a y) H1).
Qed.

Lemma foldl_minQ_le (l : list Qc) :
  forall a, (foldl minQ a l <= a)%Qc /\ forall x, x ∈ l -> (foldl minQ a l <= x)%Qc.
Proof.
  induction l as [|y l IH]; intros a; simpl.
  - split; [apply Qcle_refl|]. intros x Hx. inversion Hx.
  - destruct (IH (minQ a y)) as [H1 H2]. split.
    + exact (Qcle_trans _ _ _ H1 (minQ_l a y)).
    + intros x Hx. apply elem_of_cons in Hx as [->|Hx]; [|auto].
      exact (Qcle_trans _ _ _ H1 (minQ_r a y)).
Qed.

Lemma Math_max_ge (xs : list Qc) (x : Qc) : x ∈ xs -> (x <= Math_max xs)%Qc.
Proof.
  destruct xs as [|y l]; intros Hx; [inversion Hx|]. simpl.
  destruct (foldl_maxQ_ge l y) as [H1 H2].
  apply elem_of_cons in Hx as [->|Hx]; auto.
Qed.

Lemma Math_min_le (xs : list Qc) (x : Qc) : x ∈ xs -> (Math_min xs <= x)%Qc.
Proof.
  destruct xs as [|y l]; intros Hx; [inversion Hx|]. simpl.
  destruct (foldl_minQ_le l y) as [H1 H2].
  apply elem_of_cons in Hx as [->|Hx]; auto.
Qed.

Lemma num_or_zero (q : Qc) : num_or q 0%Qc = q.
Proof. unfold num_or, truthyQ. case_bool_decide; simpl; congruence. Qed.

Lemma foldl_maxQ_in (l : list Qc) :
  forall a, foldl maxQ a l ∈ a :: l.
Proof.
  induction l as [|y l IH]; intros a; simpl; [left|].
  specialize (IH (maxQ a y)). apply elem_of_cons in IH as [->|IH].
  - unfold maxQ. case_bool_decide; [right; left | left].
  - right; right; exact IH.
Qed.

Lemma foldl_minQ_in (l : list Qc) :
  forall a, foldl minQ a l ∈ a :: l.
Proof.
  induction l as [|y l IH]; intros a; simpl; [left|].
  specialize (IH (minQ a y)). apply elem_of_cons in IH as [->|IH].
  - unfold minQ. case_bool_decide; [right; left | left].
  - right; right; exact IH.
Qed.

(** The bounds taken from the samples: the least and the greatest of the
    positive ones, or [0] and [0] when no sample is positive. *)
Lemma series_bounds (prices : list Qc) :
  let validPrices := filter (fun x => (0 < x)%Qc) prices in
  let lo := if (0 <? length validPrices)%nat then Math_min validPrices else 0%Qc in
  let hi := if (0 <? length validPrices)%nat then Math_max validPrices else 0%Qc in
  ((exists p, p ∈ prices /\ (0 < p)%Qc) ->
   (lo ∈ prices /\ (0 < lo)%Qc) /\ (hi ∈ prices /\ (0 < hi)%Qc)
   /\ forall p, p ∈ prices -> (0 < p)%Qc -> (lo <= p)%Qc /\ (p <= hi)%Qc)
  /\ ((forall p, p ∈ prices -> ~ (0 < p)%Qc) -> lo = 0%Qc /\ hi = 0%Qc).
Proof.
  intros validPrices lo hi. subst lo hi. split.
  - intros (p0 & Hin0 & Hpos0).
    assert (Hv0 : p0 ∈ validPrices) by (apply list_elem_of_filter; auto).
    destruct validPrices as [|y l] eqn:E; [inversion Hv0|].
    cbn [length Nat.ltb Nat.leb Math_min Math_max].
    assert (Hmem : forall x, x ∈ y :: l -> x ∈ prices /\ (0 < x)%Qc).
    { intros x Hx. rewrite <- E in Hx. apply list_elem_of_filter in Hx.
      destruct Hx; auto. }
    split; [apply Hmem, foldl_minQ_in|].
    split; [apply Hmem, foldl_maxQ_in|].
    intros p Hin Hpos.
    assert (Hv : p ∈ y :: l) by (rewrite <- E; apply list_elem_of_filter; auto).
    split; [exact (Math_min_le (y :: l) p Hv) | exact (Math_max_ge (y :: l) p Hv)].
  - intros Hnone.
    assert (E : validPrices = []).
    { destruct validPrices as [|y l] eqn:E; [reflexivity|].
      assert (Hy : y ∈ filter (fun x => (0 < x)%Qc) prices)
        by (fold validPrices; rewrite E; left).
      apply list_elem_of_filter in Hy as [Hpos Hin].
      destruct (Hnone y Hin Hpos). }
    rewrite E. split; reflexivity.
Qed.

End HighLow.

(** X11. When the detail data give no 24 h high and low, the [low] and
    [high] of a crypto record are the least and the greatest of the positive
    samples of its history: each is one of them, and every positive sample
    lies between the two; when no sample is positive both are [0].  The
    same holds for an equity record when the chart's meta block gives no
    day high and low. *)
Theorem high_low_bracket_history :
  (forall sym detailData prices stamps t,
      detailData ≫= high24h = None ->
      detailData ≫= low24h = None ->
      let r := cryptoResult sym detailData prices stamps t in
      exists lo hi,
        low r = Some lo /\ high r = Some hi
        /\ ((exists p, p ∈ prices /\ (0 < p)%Qc) ->
            (lo ∈ prices /\ (0 < lo)%Qc) /\ (hi ∈ prices /\ (0 < hi)%Qc)
            /\ forall p, p ∈ prices -> (0 < p)%Qc -> (lo <= p)%Qc /\ (p <= hi)%Qc)
        /\ ((forall p, p ∈ prices -> ~ (0 < p)%Qc) -> lo = 0%Qc /\ hi = 0%Qc))
  /\ (forall sym res t,
      or_null (Meta.regularMarketDayHigh (ChartResult.meta res)) = None ->
      or_null (Meta.regularMarketDayLow (ChartResult.meta res)) = None ->
      let r := stockData sym res t in
      exists h lo hi,
        history r = Some h /\ low r = Some lo /\ high r = Some hi
        /\ ((exists p, p ∈ h /\ (0 < p)%Qc) ->
            (lo ∈ h /\ (0 < lo)%Qc) /\ (hi ∈ h /\ (0 < hi)%Qc)
            /\ forall p, p ∈ h -> (0 < p)%Qc -> (lo <= p)%Qc /\ (p <= hi)%Qc)
        /\ ((forall p, p ∈ h -> ~ (0 < p)%Qc) -> lo = 0%Qc /\ hi = 0%Qc)).
Proof.
  split.
  - intros sym dd prices stamps t Hhi Hlo r. subst r.
    unfold cryptoResult. cbn [low high]. rewrite Hhi, Hlo. cbn [nullish].
    rewrite !num_or_zero. eexists _, _. split; [reflexivity|].
    split; [reflexivity|]. exact (series_bounds prices).
  - intros sym res t Hhi Hlo r. subst r. unfold stockData.
    destruct (foldl _ _ _) as [closePrices stamps]. cbn [history low high].
    assert (Hor : forall v d, or_null v = None -> or_num v d = d).
    { intros v d. unfold or_null, or_num. destruct v; try reflexivity.
      destruct (truthyQ q); [discriminate | reflexivity]. }
    rewrite (Hor _ _ Hhi), (Hor _ _ Hlo).
    eexists _, _, _. split; [reflexivity|]. split; [reflexivity|].
    split; [reflexivity|]. exact (series_bounds (seedZero closePrices)).
Qed.

(** The samples 0, 105, 100, 110 without detail data: low 100, high 110;
    the sample 0 is not the low. *)
Lemma high_low_bracket_history_BTC :
  let r := cryptoResult "BTC" None [0%Qc; num 105; num 100; num 110] [] 0 in
  low r = Some (num 100) /\ high r = Some (num 110).
Proof.
  intros r.
  destruct (proj1 high_low_bracket_history "BTC" None
              [0%Qc; num 105; num 100; num 110] [] 0 eq_refl eq_refl)
    as (lo & hi & Hlo & Hhi & Hb & _).
  destruct Hb as ((Hlo_in & Hlo_pos) & (Hhi_in & Hhi_pos) & Hall).
  { exists (num 105). split; [right; left | vm_compute; reflexivity]. }
  destruct (Hall (num 100)) as [Hlo100 _];
    [right; right; left | vm_compute; reflexivity |].
  destruct (Hall (num 110)) as [_ Hhi110];
    [right; right; right; left | vm_compute; reflexivity |].
  destruct (Hall lo Hlo_in Hlo_pos) as [_ Hlo_hi].
  destruct (Hall hi Hhi_in Hhi_pos) as [Hlo_hi' _].
  assert (Elo : lo = num 100).
  { apply Qcle_antisym; [exact Hlo100|].
    apply elem_of_cons in Hlo_in as [->|Hlo_in];
      [vm_compute in Hlo_pos; discriminate|].
    apply elem_of_cons in Hlo_in as [->|Hlo_in]; [vm_compute; discriminate|].
    apply elem_of_cons in Hlo_in as [->|Hlo_in]; [apply Qcle_refl|].
    apply elem_of_cons in Hlo_in as [->|Hlo_in]; [vm_compute; discriminate|].
    inversion Hlo_in. }
  assert (Ehi : hi = num 110).
  { apply Qcle_antisym; [|exact Hhi110].
    apply elem_of_cons in Hhi_in as [->|Hhi_in]; [vm_compute; discriminate|].
    apply elem_of_cons in Hhi_in as [->|Hhi_in]; [vm_compute; discriminate|].
    apply elem_of_cons in Hhi_in as [->|Hhi_in]; [vm_compute; discriminate|].
    apply elem_of_cons in Hhi_in as [->|Hhi_in]; [apply Qcle_refl|].
    inversion Hhi_in. }
  subst lo hi. split; assumption.
Defined.

(** ** Cache keys *)

Section Keys.

Lemma append_length (s1 s2 : string) :
  String.length (s1 +:+ s2) = (String.length s1 + String.length s2)%nat.
Proof.
  induction s1 as [|c s1 IH]; [reflexivity|].
  change (S (String.length (s1 +:+ s2))
          = S (String.length s1 + String.length s2)).
  f_equal. exact IH.
Qed.

(** Cancelling a common suffix. *)
Lemma append_inj_r (s s' x : string) : s +:+ x = s' +:+ x -> s = s'.
Proof.
  revert s'; induction s as [|c s IH]; intros [|c' s'] H.
  - reflexivity.
  - apply (f_equal String.length) in H.
    rewrite !append_length in H. simpl in H. lia.
  - apply (f_equal String.length) in H.
    rewrite !append_length in H. simpl in H. lia.
  - change (String c (s +:+ x) = String c' (s' +:+ x)) in H.
    injection H as -> H. f_equal. exact (IH _ H).
Qed.

End Keys.

(** X12. Keys of the three kinds never coincide, so a chart record, an
    equity record and a detail record cannot overwrite one another; for
    one symbol, different lookback windows have different keys; and for
    one window, different symbols have different keys. *)
Theorem cache_keys_distinct (s s' c : string) (d d' : Z) :
  cryptoKey s d <> stockKey s' d'
  /\ cryptoKey s d <> detailKey c
  /\ stockKey s d <> detailKey c
  /\ (cryptoKey s d = cryptoKey s d' -> d = d')
  /\ (stockKey s d = stockKey s d' -> d = d')
  /\ (cryptoKey s d = cryptoKey s' d -> s = s')
  /\ (stockKey s d = stockKey s' d -> s = s').
Proof.
  unfold cryptoKey, stockKey, detailKey.
  split; [intros H; cbv [String.append] in H; discriminate|].
  split; [intros H; cbv [String.append] in H; discriminate|].
  split; [intros H; cbv [String.append] in H; discriminate|].
  split; [|split; [|split]].
  - intros H. do 3 apply (inj (String.app _)) in H. exact (inj pretty _ _ H).
  - intros H. do 3 apply (inj (String.app _)) in H. exact (inj pretty _ _ H).
  - intros H. apply (inj (String.app _)) in H.
    exact (append_inj_r _ _ _ H).
  - intros H. apply (inj (String.app _)) in H.
    exact (append_inj_r _ _ _ H).
Qed.

(** Seven days and thirty days of BTC are cached apart. *)
Lemma cache_keys_distinct_BTC : cryptoKey "BTC" 7 <> cryptoKey "BTC" 30.
Proof.
  intros H.
  destruct (cache_keys_distinct "BTC" "BTC" "bitcoin" 7 30) as (_ & _ & _ & Hd & _).
  specialize (Hd H). discriminate.
Defined.

(** X13. While the cache holds a valid detail record for the coin when the
    chart has arrived, the crypto adapter sends no detail request: it reads
    market cap, rank and the 24 h change from the cached record and leaves
    that record in place. *)
Theorem fetchCryptoData_reuses_detail
    (w : World) (sym coinId : string) (days : Z) (b : Body) :
  isCacheValid (cryptoKey sym days) CACHE_TTL w = false ->
  let r1 := axiosGetWithRetry (CoinGeckoMarketChart coinId days) 3 1000 w in
  r1.1 = Ok b ->
  b <> BodyNull ->
  isCacheValid (detailKey coinId) DETAIL_TTL r1.2 = true ->
  exists d,
    cache w !! detailKey coinId = Some d
    /\ let r := fetchCryptoData sym coinId days w in
       gets (trace r.2) = gets (trace r1.2)
       /\ Forall (fun e => e = CoinGeckoMarketChart coinId days)
                 (drop (length (gets (trace w))) (gets (trace r.2)))
       /\ cache r.2 = <[cryptoKey sym days := r.1]> (cache w)
       /\ marketCap r.1 = Some (nullish (marketCap d) 0%Qc)
       /\ rank r.1 = Some (nullish (rank d) 0%Qc)
       /\ change24h r.1 = Some (nullish (change24h d) 0%Qc).
Proof.
  intros Hv r1 Hb Hne Hd. subst r1.
  pose proof (axiosGetWithRetry_cache
                (CoinGeckoMarketChart coinId days) 3 1000 w) as Hc.
  destruct (isCacheValid_lookup _ _ _ Hd) as [d Hlook].
  exists d. split; [rewrite <- Hc; exact Hlook|].
  assert (Hl : lookupDetail coinId
                 (axiosGetWithRetry (CoinGeckoMarketChart coinId days) 3 1000 w).2
               = (Ok (Some d),
                  (axiosGetWithRetry (CoinGeckoMarketChart coinId days) 3 1000 w).2)).
  { unfold lookupDetail. rewrite Hd, Hlook. reflexivity. }
  cbn zeta. unfold fetchCryptoData. rewrite Hv.
  destruct (fetchCryptoTry_cases sym coinId days w)
    as [(err & _ & [E|E])|(b' & pairs & dd & w2 & _ & _ & Hl' & ->)].
  - rewrite E in Hb. discriminate.
  - rewrite E in Hb. congruence.
  - rewrite Hl in Hl'. injection Hl' as <- <-. cbn [fst snd].
    split; [reflexivity|]. split.
    { destruct (axiosGetWithRetry_effects
                  (CoinGeckoMarketChart coinId days) 3 1000 w) as (n & _ & Hg & _).
      simpl. rewrite Hg, drop_app_length. apply Forall_replicate. reflexivity. }
    split; [simpl; rewrite Hc; reflexivity|].
    repeat split.
Qed.

(** The detail record made ten minutes ago is used; one request is sent. *)
Lemma fetchCryptoData_reuses_detail_bitcoin :
  let r := fetchCryptoData "BTC" "bitcoin" 7 world_detail_cached in
  exists d,
    cache world_detail_cached !! detailKey "bitcoin" = Some d
    /\ gets (trace r.2) = [CoinGeckoMarketChart "bitcoin" 7]
    /\ marketCap r.1 = Some (nullish (marketCap d) 0%Qc).
Proof.
  intros r.
  destruct (fetchCryptoData_reuses_detail world_detail_cached "BTC" "bitcoin" 7
              chart_100_105_110)
    as (d & Hd & Hg & _ & _ & Hm & _).
  - reflexivity.
  - vm_compute. reflexivity.
  - discriminate.
  - vm_compute. reflexivity.
  - exists d. split; [exact Hd|]. split; [|exact Hm].
    fold r in Hg. rewrite Hg. vm_compute. reflexivity.
Defined.

(** * The dashboard *)

Section DashboardLemmas.

Import Dashboard.

Variable cfg : Config.

Lemma fetchData_eq (d : t) (w : World) (period : Period) :
  periods !! currentPeriodIndex d = Some period ->
  let r := fetchAllAssets (tickers (config d)) (cryptoIds (config d))
             (days period) w in
  let len := Z.of_nat (length r.1) in
  fetchData d w
  = ({| config := config d;
        assetsData := r.1;
        prevAssetsData := assetsData d;
        flashIndices :=
          foldl (fun s asset =>
                   if flashes (bySymbol (prevAssetsData d)) asset
                   then {[ symbol asset ]} ∪ s else s) ∅ r.1;
        selectedIndex :=
          if len <=? selectedIndex d then Z.max 0 (len - 1) else selectedIndex d;
        connectionError := existsb hasError r.1;
        currentPeriodIndex := currentPeriodIndex d |}, r.2).
Proof.
  intros Hp. cbn zeta. unfold fetchData. rewrite Hp.
  destruct (fetchAllAssets _ _ _ _) as [newData w']. reflexivity.
Qed.

Lemma period_defined (d : t) :
  (currentPeriodIndex d < length periods)%nat ->
  exists period, periods !! currentPeriodIndex d = Some period.
Proof. intros H. apply lookup_lt_is_Some_2 in H. destruct H as [p Hp]. eauto. Qed.

Lemma fetchData_ok (d : t) (w : World) :
  dashboard_ok cfg d -> dashboard_ok cfg (fetchData d w).1.
Proof.
  intros (Hcfg & Hsel & Hin & Hper & Hlen).
  destruct (period_defined d Hper) as [period Hp].
  rewrite (fetchData_eq d w period Hp). cbn [fst].
  unfold dashboard_ok. cbn [config assetsData selectedIndex currentPeriodIndex].
  rewrite fetchAll_length, Hcfg.
  split; [reflexivity|].
  destruct (Z.leb_spec (Z.of_nat (length (tickers cfg))) (selectedIndex d)).
  - split; [lia|]. split; [lia|]. auto.
  - split; [lia|]. split; [lia|]. auto.
Qed.

Lemma refreshDisplay_ok (d : t) :
  dashboard_ok cfg d -> dashboard_ok cfg (refreshDisplay d).
Proof.
  intros (Hcfg & Hsel & Hin & Hper & Hlen). unfold refreshDisplay.
  destruct (Z.eqb_spec (Z.of_nat (length (assetsData d))) 0);
    [repeat split; assumption|].
  destruct (Z.ltb_spec (selectedIndex d) 0); [repeat split; assumption|].
  cbn [orb].
  destruct (Z.leb_spec (Z.of_nat (length (assetsData d))) (selectedIndex d));
    [|repeat split; assumption].
  unfold dashboard_ok, set_selectedIndex. cbn. repeat split; try assumption; lia.
Qed.

Lemma set_selectedIndex_ok (d : t) (i : Z) :
  dashboard_ok cfg d ->
  0 <= i -> (i = 0 \/ i < Z.of_nat (length (assetsData d))) ->
  dashboard_ok cfg (set_selectedIndex i d).
Proof.
  intros (Hcfg & Hsel & Hin & Hper & Hlen) H0 Hi.
  unfold dashboard_ok, set_selectedIndex. cbn. repeat split; assumption.
Qed.

Lemma keyUp_ok (d : t) : dashboard_ok cfg d -> dashboard_ok cfg (keyUp d).
Proof.
  intros Hd. unfold keyUp.
  destruct (length (assetsData d) =? 0)%nat; [exact Hd|].
  destruct (Z.ltb_spec 0 (selectedIndex d)); [|exact Hd].
  apply refreshDisplay_ok, set_selectedIndex_ok; [exact Hd | lia |].
  destruct Hd as (_ & _ & Hin & _). lia.
Qed.

Lemma keyDown_ok (d : t) : dashboard_ok cfg d -> dashboard_ok cfg (keyDown d).
Proof.
  intros Hd. unfold keyDown.
  destruct (length (assetsData d) =? 0)%nat; [exact Hd|].
  destruct (Z.ltb_spec (selectedIndex d) (Z.of_nat (length (assetsData d)) - 1));
    [|exact Hd].
  apply refreshDisplay_ok, set_selectedIndex_ok; [exact Hd | |];
    destruct Hd as (_ & Hsel & _); lia.
Qed.

Lemma switchPeriod_ok (i : nat) (d : t) (w : World) :
  dashboard_ok cfg d -> dashboard_ok cfg (switchPeriod i d w).1.
Proof.
  intros Hd. unfold switchPeriod.
  destruct (Nat.leb_spec (length periods) i); [exact Hd|].
  destruct (currentPeriodIndex d =? i)%nat; [exact Hd|].
  match goal with
  | |- context [fetchData ?d1 w] =>
      assert (Hd1 : dashboard_ok cfg d1)
        by (destruct Hd as (? & ? & ? & ? & ?); repeat split; assumption);
      pose proof (fetchData_ok d1 w Hd1) as Hd2;
      destruct (fetchData d1 w) as [d2 w']
  end.
  apply refreshDisplay_ok. exact Hd2.
Qed.

Lemma handle_ok (ev : Event) (s : t * World) :
  dashboard_ok cfg s.1 -> dashboard_ok cfg (handle ev s).1.
Proof.
  intros Hs. destruct ev; simpl.
  - apply keyUp_ok, Hs.
  - apply keyDown_ok, Hs.
  - apply switchPeriod_ok, Hs.
  - pose proof (fetchData_ok s.1 s.2 Hs) as H.
    destruct (fetchData s.1 s.2) as [d w']. apply refreshDisplay_ok, H.
Qed.

Lemma run_ok (evs : list Event) (s : t * World) :
  dashboard_ok cfg s.1 -> dashboard_ok cfg (run evs s).1.
Proof.
  revert s; induction evs as [|ev evs IH]; intros s Hs; [exact Hs|].
  unfold run. cbn [foldl]. apply IH, handle_ok, Hs.
Qed.

Lemma init_ok : dashboard_ok cfg (init cfg).
Proof. unfold dashboard_ok, init. cbn. repeat split; auto; lia. Qed.

(** Membership in the set the flash loop builds. *)
Lemma flash_fold (prev : gmap (option string) Obj) (l : list Obj) :
  forall (s0 : gset (option string)) (x : option string),
    x ∈ foldl (fun s asset =>
                 if flashes prev asset then {[ symbol asset ]} ∪ s else s) s0 l
    <-> x ∈ s0 \/ exists a, a ∈ l /\ symbol a = x /\ flashes prev a = true.
Proof.
  induction l as [|a l IH]; intros s0 x; cbn [foldl].
  - split; [auto|]. intros [H|(a & Ha & _)]; [exact H | inversion Ha].
  - rewrite IH. destruct (flashes prev a) eqn:F.
    + rewrite elem_of_union, elem_of_singleton. split.
      * intros [[->|H]|(b & Hb & Hs & Hf)]; [|auto|].
        -- right. exists a. split; [left|]; auto.
        -- right. exists b. split; [right|]; auto.
      * intros [H|(b & Hb & Hs & Hf)]; [auto|].
        apply elem_of_cons in Hb as [->|Hb]; [auto|]. right. eauto.
    + split.
      * intros [H|(b & Hb & Hs & Hf)]; [auto|].
        right. exists b. split; [right|]; auto.
      * intros [H|(b & Hb & Hs & Hf)]; [auto|].
        apply elem_of_cons in Hb as [->|Hb]; [congruence|]. right. eauto.
Qed.

End DashboardLemmas.

(** X14. Whatever keys are pressed and however often the timer fires, the
    selection of the dashboard is [0] or the index of an asset it holds, so
    with any asset on screen the selected one exists; the period index
    stays within the four periods; and the dashboard holds no asset or one
    per configured ticker. *)
Theorem dashboard_invariants
    (cfg : Dashboard.Config) (evs : list Dashboard.Event) (w : World) :
  let d := (Dashboard.run evs (Dashboard.init cfg, w)).1 in
  Dashboard.config d = cfg
  /\ 0 <= Dashboard.selectedIndex d
  /\ (Dashboard.assetsData d <> [] ->
      exists asset,
        Dashboard.assetsData d !! Z.to_nat (Dashboard.selectedIndex d) = Some asset)
  /\ (exists period,
        Dashboard.periods !! Dashboard.currentPeriodIndex d = Some period)
  /\ (Dashboard.assetsData d = []
      \/ length (Dashboard.assetsData d) = length (Dashboard.tickers cfg)).
Proof.
  intros d.
  pose proof (run_ok cfg evs (Dashboard.init cfg, w) (init_ok cfg))
    as (Hcfg & Hsel & Hin & Hper & Hlen).
  fold d in Hcfg, Hsel, Hin, Hper, Hlen.
  split; [exact Hcfg|]. split; [exact Hsel|]. split; [|split].
  - intros Hne. apply lookup_lt_is_Some_2.
    destruct (Dashboard.assetsData d) as [|a l]; [congruence|].
    simpl in *. lia.
  - apply period_defined. exact Hper.
  - exact Hlen.
Qed.

(** X15. The three sections of the watchlist -- crypto, stocks, ETFs --
    hold every asset of the dashboard exactly once: together they are a
    rearrangement of [assetsData].  A record of type [crypto] is in the
    first section whatever its symbol. *)
Theorem watchlist_sections_partition (d : Dashboard.t) :
  Dashboard.cryptos d ++ Dashboard.stocks d ++ Dashboard.etfs d
    ≡ₚ Dashboard.assetsData d
  /\ (length (Dashboard.cryptos d) + length (Dashboard.stocks d)
      + length (Dashboard.etfs d))%nat
     = length (Dashboard.assetsData d)
  /\ (forall a, a ∈ Dashboard.cryptos d
                <-> a ∈ Dashboard.assetsData d /\ type a = Some "crypto").
Proof.
  assert (Hperm : Dashboard.cryptos d ++ Dashboard.stocks d ++ Dashboard.etfs d
                    ≡ₚ Dashboard.assetsData d).
  { unfold Dashboard.cryptos, Dashboard.stocks, Dashboard.etfs.
    induction (Dashboard.assetsData d) as [|a l IH]; [reflexivity|].
    rewrite !filter_cons.
    assert (Hcat : Dashboard.getAssetCategory a = "crypto"
                   \/ Dashboard.getAssetCategory a = "stock"
                   \/ Dashboard.getAssetCategory a = "etf").
    { unfold Dashboard.getAssetCategory. repeat case_bool_decide; auto. }
    destruct Hcat as [E|[E|E]]; rewrite E.
    - rewrite decide_True by reflexivity.
      rewrite !decide_False by discriminate. simpl. rewrite IH. reflexivity.
    - rewrite (decide_False (P := "stock" = "crypto")) by discriminate.
      rewrite decide_True by reflexivity.
      rewrite decide_False by discriminate.
      rewrite <- app_comm_cons, <- Permutation_middle. rewrite IH. reflexivity.
    - rewrite !(decide_False (P := "etf" = _)) by discriminate.
      rewrite decide_True by reflexivity.
      rewrite app_assoc, <- Permutation_middle, <- app_assoc, IH. reflexivity. }
  split; [exact Hperm|]. split.
  - apply Permutation_length in Hperm. rewrite !length_app in Hperm. lia.
  - intros a. unfold Dashboard.cryptos. rewrite list_elem_of_filter.
    unfold Dashboard.getAssetCategory. split.
    + intros [Hc Hin]. split; [exact Hin|].
      repeat case_bool_decide; try discriminate. assumption.
    + intros [Hin Ht]. split; [|exact Hin].
      rewrite bool_decide_eq_true_2 by exact Ht. reflexivity.
Qed.

(** X16. The records that flash after a fetch are those whose price moved
    by 2 % or more against the record of the same symbol in
    [prevAssetsData].  That list is replaced, after the comparison, by the
    assets displayed before the fetch; so the flashes of a fetch compare
    with the assets of two fetches ago, and neither of the first two
    fetches of a fresh dashboard flashes anything. *)
Theorem flash_compares_two_fetches_back (d : Dashboard.t) (w : World) :
  (Dashboard.currentPeriodIndex d < length Dashboard.periods)%nat ->
  let r1 := Dashboard.fetchData d w in
  let r2 := Dashboard.fetchData r1.1 r1.2 in
  Dashboard.prevAssetsData r1.1 = Dashboard.assetsData d
  /\ (forall s, s ∈ Dashboard.flashIndices r1.1
        <-> exists a, a ∈ Dashboard.assetsData r1.1 /\ symbol a = s
                      /\ Dashboard.flashes
                           (Dashboard.bySymbol (Dashboard.prevAssetsData d)) a
                         = true)
  /\ (forall s, s ∈ Dashboard.flashIndices r2.1
        <-> exists a, a ∈ Dashboard.assetsData r2.1 /\ symbol a = s
                      /\ Dashboard.flashes
                           (Dashboard.bySymbol (Dashboard.assetsData d)) a
                         = true)
  /\ (Dashboard.prevAssetsData d = [] -> Dashboard.flashIndices r1.1 = ∅)
  /\ (Dashboard.assetsData d = [] -> Dashboard.flashIndices r2.1 = ∅).
Proof.
  intros Hper r1 r2.
  destruct (period_defined d Hper) as [period Hp].
  assert (E1 := fetchData_eq d w period Hp). cbn zeta in E1. fold r1 in E1.
  assert (Hp1 : Dashboard.periods !! Dashboard.currentPeriodIndex r1.1
                = Some period) by (rewrite E1; exact Hp).
  assert (E2 := fetchData_eq r1.1 r1.2 period Hp1). cbn zeta in E2. fold r2 in E2.
  assert (Hprev : Dashboard.prevAssetsData r1.1 = Dashboard.assetsData d)
    by (rewrite E1; reflexivity).
  assert (F1 : forall s, s ∈ Dashboard.flashIndices r1.1
             <-> exists a, a ∈ Dashboard.assetsData r1.1 /\ symbol a = s
                           /\ Dashboard.flashes
                                (Dashboard.bySymbol (Dashboard.prevAssetsData d)) a
                              = true).
  { intros s. rewrite E1. cbn [fst Dashboard.flashIndices Dashboard.assetsData].
    rewrite flash_fold. split; [intros [H|H]; [set_solver | exact H] | auto]. }
  assert (F2 : forall s, s ∈ Dashboard.flashIndices r2.1
             <-> exists a, a ∈ Dashboard.assetsData r2.1 /\ symbol a = s
                           /\ Dashboard.flashes
                                (Dashboard.bySymbol (Dashboard.assetsData d)) a
                              = true).
  { intros s. rewrite E2. cbn [fst Dashboard.flashIndices Dashboard.assetsData].
    rewrite flash_fold, Hprev.
    split; [intros [H|H]; [set_solver | exact H] | auto]. }
  split; [exact Hprev|]. split; [exact F1|]. split; [exact F2|]. split.
  - intros Hnil. apply set_eq. intros s. rewrite F1, Hnil. split; [|set_solver].
    intros (a & _ & _ & Hf). unfold Dashboard.flashes, Dashboard.bySymbol in Hf.
    cbn [foldl] in Hf. rewrite lookup_empty in Hf. discriminate.
  - intros Hnil. apply set_eq. intros s. rewrite F2, Hnil. split; [|set_solver].
    intros (a & _ & _ & Hf). unfold Dashboard.flashes, Dashboard.bySymbol in Hf.
    cbn [foldl] in Hf. rewrite lookup_empty in Hf. discriminate.
Qed.

(** A fresh dashboard: its first two fetches flash nothing. *)
Lemma flash_compares_two_fetches_back_fresh :
  let d := Dashboard.init {| Dashboard.tickers := ["BTC"; "AAPL"];
                             Dashboard.cryptoIds := {[ "BTC" := "bitcoin" ]};
                             Dashboard.updateInterval := 120000 |} in
  let r1 := Dashboard.fetchData d world_429_then_chart in
  let r2 := Dashboard.fetchData r1.1 r1.2 in
  Dashboard.flashIndices r1.1 = ∅ /\ Dashboard.flashIndices r2.1 = ∅.
Proof.
  intros d r1 r2.
  assert (Hper : (Dashboard.currentPeriodIndex d < length Dashboard.periods)%nat)
    by (vm_compute; lia).
  destruct (flash_compares_two_fetches_back d world_429_then_chart Hper)
    as (_ & _ & _ & H1 & H2).
  split; [apply H1 | apply H2]; reflexivity.
Defined.



(** * More on the service *)

(** X18. A detail record that was fetched is stored under the coin's
    detail key with the time of its making, and while less than
    [DETAIL_TTL] = 30 min have passed since then the adapter takes the
    detail data from it, without a request. *)
Theorem detail_then_reuse (coinId : string) (w w' : World) (d : Obj) :
  fetchDetail coinId w = (Ok (Some d), w') ->
  timestamp d = Some (now w')
  /\ cache w' !! detailKey coinId = Some d
  /\ DETAIL_TTL = 1800000
  /\ forall later,
       cache later !! detailKey coinId = Some d ->
       now w' <> 0 ->
       now later - now w' < DETAIL_TTL ->
       lookupDetail coinId later = (Ok (Some d), later).
Proof.
  intros Hf.
  assert (Hshape : exists c w1,
             d = detailOf c (now w1)
             /\ w' = (cache_set (detailKey coinId) d w1).2).
  { unfold fetchDetail, try_catch, bind in Hf.
    destruct (axiosGetWithRetry (CoinGeckoCoin coinId) 3 1000 w) as [[b|err] w1];
      [|discriminate].
    destruct b; simpl in Hf; try discriminate;
      injection Hf as <- <-; eauto. }
  destruct Hshape as (c & w1 & -> & ->).
  split; [reflexivity|]. split; [simpl; apply lookup_insert_eq|].
  split; [reflexivity|].
  intros later Hc Hnz Hfresh. unfold lookupDetail.
  assert (Hv : isCacheValid (detailKey coinId) DETAIL_TTL later = true).
  { unfold isCacheValid. rewrite Hc. cbn [timestamp detailOf].
    simpl in Hnz, Hfresh. unfold truthyZ.
    rewrite (proj2 (Z.eqb_neq _ _) Hnz). simpl. apply Z.ltb_lt. exact Hfresh. }
  rewrite Hv, Hc. reflexivity.
Qed.

(** The detail payload fetched, then looked up twenty minutes later. *)
Lemma detail_then_reuse_bitcoin :
  let r := fetchDetail "bitcoin" world_detail_served in
  let later := advance 1200000 r.2 in
  exists d, r.1 = Ok (Some d) /\ lookupDetail "bitcoin" later = (Ok (Some d), later).
Proof.
  intros r later. exists (detailOf bitcoin_detail (now r.2)).
  assert (Hf : fetchDetail "bitcoin" world_detail_served
               = (Ok (Some (detailOf bitcoin_detail (now r.2))), r.2))
    by (vm_compute; reflexivity).
  destruct (detail_then_reuse "bitcoin" world_detail_served r.2 _ Hf)
    as (_ & _ & _ & Hre).
  split; [vm_compute; reflexivity|].
  apply Hre.
  - vm_compute. reflexivity.
  - vm_compute. discriminate.
  - vm_compute. reflexivity.
Defined.

(** X19. A batch over a list of tickers followed by another list is the
    batch over the first list, then the batch over the second in the world
    the first has left: the records are those of the two batches one after
    the other. *)
Theorem fetchAllAssets_app
    (l1 l2 : list string) (cryptoIds : gmap string string) (days : Z)
    (w : World) :
  let r1 := fetchAllAssets l1 cryptoIds days w in
  let r2 := fetchAllAssets l2 cryptoIds days r1.2 in
  fetchAllAssets (l1 ++ l2) cryptoIds days w = (r1.1 ++ r2.1, r2.2).
Proof. exact (fetchAll_app cryptoIds days l1 l2 w). Qed.

(** X20. A record that does not come from the cache -- a fresh one or the
    placeholder -- carries the ticker it was asked for as its symbol.  The
    crypto adapter gives it the type [crypto], which puts it in the crypto
    section of the watchlist; the equity adapter's placeholder has the type
    [stock]. *)
Theorem fresh_record_identity (sym : string) (days : Z) (w : World) :
  (forall coinId,
      isCacheValid (cryptoKey sym days) CACHE_TTL w = false ->
      cache w !! cryptoKey sym days = None
      \/ (exists a w', fetchCryptoTry sym coinId days w = (Ok a, w')) ->
      let a := (fetchCryptoData sym coinId days w).1 in
      symbol a = Some sym /\ type a = Some "crypto"
      /\ Dashboard.getAssetCategory a = "crypto")
  /\ (isCacheValid (stockKey sym days) CACHE_TTL w = false ->
      cache w !! stockKey sym days = None
      \/ (exists a w', fetchStockTry sym days w = (Ok a, w')) ->
      let a := (fetchStockData sym days w).1 in
      symbol a = Some sym
      /\ ((exists err w', fetchStockTry sym days w = (Throw err, w')) ->
          type a = Some "stock")).
Proof.
  split.
  - intros coinId Hv Hwhy a. subst a. unfold fetchCryptoData. rewrite Hv.
    pose proof (axiosGetWithRetry_cache
                  (CoinGeckoMarketChart coinId days) 3 1000 w) as Hc.
    destruct (fetchCryptoTry_cases sym coinId days w)
      as [(err & E & _)|(b & pairs & dd & w2 & _ & _ & _ & E)];
      rewrite E; cbn [fst snd].
    + destruct Hwhy as [Hnone|(a & w' & Ha)]; [|rewrite E in Ha; discriminate].
      unfold fallback. rewrite Hc, Hnone. repeat split.
    + repeat split.
  - intros Hv Hwhy a. subst a. unfold fetchStockData. rewrite Hv.
    destruct (axios_get_spec
                (YahooChart sym (rangeInterval days).2 (rangeInterval days).1) w)
      as (_ & _ & Hc & _).
    destruct (fetchStockTry_cases sym days w)
      as [(err & E & _)|(res & data & w2 & _ & _ & Hdata & E)];
      rewrite E; cbn [fst snd].
    + destruct Hwhy as [Hnone|(a & w' & Ha)]; [|rewrite E in Ha; discriminate].
      unfold fallback. rewrite Hc, Hnone. repeat split.
    + split.
      * destruct Hdata as [->|[q ->]]; unfold stockData;
          destruct (foldl _ _ _); reflexivity.
      * intros (err & w' & Habs). discriminate.
Qed.

(** Offline and with nothing cached: placeholders for the tickers asked. *)
Lemma fresh_record_identity_offline :
  symbol (fetchCryptoData "BTC" "bitcoin" 7 world_offline).1 = Some "BTC"
  /\ Dashboard.getAssetCategory (fetchCryptoData "BTC" "bitcoin" 7 world_offline).1
     = "crypto"
  /\ symbol (fetchStockData "AAPL" 30 world_offline).1 = Some "AAPL".
Proof.
  destruct (fresh_record_identity "BTC" 7 world_offline) as [Hc _].
  destruct (fresh_record_identity "AAPL" 30 world_offline) as [_ Hs].
  destruct (Hc "bitcoin" eq_refl (or_introl eq_refl)) as (H1 & _ & H3).
  destruct (Hs eq_refl (or_introl eq_refl)) as (H4 & _).
  split; [exact H1|]. split; [exact H3 | exact H4].
Defined.

Section Selection.

Import Dashboard.

Lemma refreshDisplay_in_range (d : t) :
  selectedIndex d < Z.of_nat (length (assetsData d)) -> refreshDisplay d = d.
Proof.
  intros H. unfold refreshDisplay.
  destruct ((Z.of_nat (length (assetsData d)) =? 0) || (selectedIndex d <? 0));
    [reflexivity|].
  destruct (Z.leb_spec (Z.of_nat (length (assetsData d))) (selectedIndex d));
    [lia | reflexivity].
Qed.

Lemma keyDown_moves (d : t) :
  0 <= selectedIndex d < Z.of_nat (length (assetsData d)) - 1 ->
  keyDown d = set_selectedIndex (selectedIndex d + 1) d.
Proof.
  intros H. unfold keyDown.
  destruct (Nat.eqb_spec (length (assetsData d)) 0) as [E|_]; [rewrite E in H; simpl in H; lia|].
  destruct (Z.ltb_spec (selectedIndex d) (Z.of_nat (length (assetsData d)) - 1));
    [|lia].
  apply refreshDisplay_in_range. simpl. lia.
Qed.

Lemma keyUp_moves (d : t) :
  0 < selectedIndex d < Z.of_nat (length (assetsData d)) + 1 ->
  keyUp d = set_selectedIndex (selectedIndex d - 1) d.
Proof.
  intros H. unfold keyUp.
  destruct (Nat.eqb_spec (length (assetsData d)) 0) as [E|_]; [rewrite E in H; simpl in H; lia|].
  destruct (Z.ltb_spec 0 (selectedIndex d)); [|lia].
  apply refreshDisplay_in_range. simpl. lia.
Qed.

Lemma set_selectedIndex_back (d : t) (i : Z) :
  set_selectedIndex (selectedIndex d) (set_selectedIndex i d) = d.
Proof. destruct d. reflexivity. Qed.

End Selection.

(** X21. Away from the ends of the list the keys [down] and [up] undo each
    other; at the first asset [up] does nothing, at the last one [down]
    does nothing, and neither key does anything on an empty dashboard. *)
Theorem keyUp_keyDown_inverse (d : Dashboard.t) :
  let len := Z.of_nat (length (Dashboard.assetsData d)) in
  (0 <= Dashboard.selectedIndex d < len - 1 ->
   Dashboard.keyUp (Dashboard.keyDown d) = d)
  /\ (0 < Dashboard.selectedIndex d < len ->
      Dashboard.keyDown (Dashboard.keyUp d) = d)
  /\ (Dashboard.selectedIndex d <= 0 -> Dashboard.keyUp d = d)
  /\ (len - 1 <= Dashboard.selectedIndex d -> Dashboard.keyDown d = d)
  /\ (len = 0 -> Dashboard.keyUp d = d /\ Dashboard.keyDown d = d).
Proof.
  intros len. subst len.
  split; [|split; [|split; [|split]]]; intros H.
  - rewrite (keyDown_moves d H), keyUp_moves by (simpl; lia).
    simpl. replace (Dashboard.selectedIndex d + 1 - 1)
      with (Dashboard.selectedIndex d) by lia.
    apply set_selectedIndex_back.
  - rewrite (keyUp_moves d) by lia. rewrite keyDown_moves by (simpl; lia).
    simpl. replace (Dashboard.selectedIndex d - 1 + 1)
      with (Dashboard.selectedIndex d) by lia.
    apply set_selectedIndex_back.
  - unfold Dashboard.keyUp.
    destruct (length (Dashboard.assetsData d) =? 0)%nat; [reflexivity|].
    destruct (Z.ltb_spec 0 (Dashboard.selectedIndex d)); [lia | reflexivity].
  - unfold Dashboard.keyDown.
    destruct (length (Dashboard.assetsData d) =? 0)%nat; [reflexivity|].
    destruct (Z.ltb_spec (Dashboard.selectedIndex d)
                (Z.of_nat (length (Dashboard.assetsData d)) - 1));
      [lia | reflexivity].
  - assert (E : length (Dashboard.assetsData d) = 0%nat) by lia.
    unfold Dashboard.keyUp, Dashboard.keyDown. rewrite E. split; reflexivity.
Qed.

(** Three assets, the middle one selected: down then up, up then down. *)
Lemma keyUp_keyDown_inverse_three :
  Dashboard.keyUp (Dashboard.keyDown dashboard_three) = dashboard_three
  /\ Dashboard.keyDown (Dashboard.keyUp dashboard_three) = dashboard_three.
Proof.
  destruct (keyUp_keyDown_inverse dashboard_three) as (H1 & H2 & _).
  split; [apply H1 | apply H2]; vm_compute; split; congruence.
Defined.

(** * The chart panel *)

Section ChartPanelLemmas.

Import ChartPanel.

Lemma samples_nonempty (asset : Obj) : (1 <= length (samples asset))%nat.
Proof.
  unfold samples, seedZero. destruct (nullish (history asset) []); simpl; lia.
Qed.

End ChartPanelLemmas.

(** X23. The X axis has one label per sample plotted, and at least one; the
    first and the last position always carry a tick label, and with at most
    ten samples every position does. *)
Theorem chart_labels_cover_samples
    (formatDate : JsVal -> Z -> string) (asset : Obj) (days : Z) :
  let x := ChartPanel.labels formatDate asset days in
  let len := length (ChartPanel.samples asset) in
  length x = len
  /\ (1 <= len)%nat
  /\ x !! 0%nat = Some (ChartPanel.tickLabel formatDate asset days 0)
  /\ x !! (len - 1)%nat
     = Some (ChartPanel.tickLabel formatDate asset days (len - 1))
  /\ ((len <= 10)%nat ->
      x = ChartPanel.tickLabel formatDate asset days <$> seq 0 len).
Proof.
  intros x len. subst x len. unfold ChartPanel.labels.
  pose proof (samples_nonempty asset) as Hlen.
  set (len := length (ChartPanel.samples asset)) in *.
  split; [rewrite length_fmap, length_seq; reflexivity|].
  split; [exact Hlen|]. split; [|split].
  - rewrite list_lookup_fmap, lookup_seq_lt by lia. reflexivity.
  - rewrite list_lookup_fmap, lookup_seq_lt by lia. simpl.
    unfold ChartPanel.isTick. rewrite Nat.eqb_refl, orb_true_r. reflexivity.
  - intros Hsmall. apply list_fmap_ext. intros i j Hj.
    assert (Hstep : ChartPanel.step len = 1%nat).
    { unfold ChartPanel.step. rewrite Nat.min_r by lia.
      rewrite Nat.div_same by lia. reflexivity. }
    unfold ChartPanel.isTick. rewrite Hstep, Nat.mod_1_r.
    simpl. rewrite !orb_true_r. reflexivity.
Qed.

(** Three samples without usable timestamps, seven days: labels 1, 2, 3. *)
Lemma chart_labels_cover_samples_three :
  let asset := cryptoResult "BTC" None [num 100; num 105; num 110] [] 0 in
  ChartPanel.labels (fun _ _ => "?") asset 7 = ["1"; "2"; "3"].
Proof.
  intros asset.
  destruct (chart_labels_cover_samples (fun _ _ => "?") asset 7)
    as (_ & _ & _ & _ & Hall).
  rewrite Hall by (vm_compute; lia). reflexivity.
Defined.
